(** * Guard engine of the backup bot: a shallow embedding

    The development embeds the parts of [src/guard/GuardManager.ts],
    [src/database/RedisManager.ts] and [src/backup/BackupManager.ts] that the
    specification's testable properties talk about, and settles each property
    against that embedding.  Its last part, "Further properties of the code",
    proves what else the embedded methods show: how they fail, what they
    leave alone, and how their timers and caches behave over time.

    Conventions of the embedding.
    - The manager's private maps and sets are fields of one [State] record;
      every method is a function in the monad [M], which threads that record,
      collects the externally visible calls of the method in a trace of
      [Effect]s and carries JavaScript exceptions as [Exn].
    - The outside world (Discord, MySQL, the backup manager's restore entry
      points) answers through the oracle record [World].
    - [setTimeout] appends to a list of pending timers; [advance] fires the
      timers that are due.  The [setInterval] tasks of [startMonitoring] that
      write the state are steps of their own, [performFullCleanup] and
      [cleanupWhitelistCache], and no part of [advance].  [Date.now()] reads
      the [now] field, which is held fixed while one handler runs.
    - A handler runs to completion before the next event is looked at: the
      interleaving of two handlers at their [await] points is not modelled.
    - Calls to the logger are not modelled, with one exception: the structured
      entry that [handleViolation] writes is the only record the code keeps of
      a violation, and is kept as the effect [LogViolation].
    - Human-readable texts are transliterated to ASCII. *)

From Stdlib Require Import ZArith String List Bool Lia DecimalString DecimalZ.
From stdpp Require Import gmap strings list.
Import ListNotations.

Local Open Scope string_scope.
Local Open Scope list_scope.
Local Open Scope Z_scope.

(** ** JavaScript helpers *)

Module JS.

(** [x || d] for an optional string: [undefined], [null] and the empty string
    are falsy. *)
Definition str_or (x : option string) (d : string) : string :=
  match x with
  | Some s => if String.eqb s "" then d else s
  | None => d
  end.

(** Truthiness of an optional string. *)
Definition truthy (x : option string) : bool :=
  match x with
  | Some s => negb (String.eqb s "")
  | None => false
  end.

(** [Number.prototype.toString] on integers. *)
Definition toString (n : Z) : string := NilZero.string_of_int (Z.to_int n).

(** [parseInt] on the strings [toString] produces (an optional sign followed
    by decimal digits); [None] stands for [NaN].  Prefix parsing, leading
    white space and the hexadecimal prefix are outside this model. *)
Definition parseInt (s : string) : option Z :=
  option_map Z.of_int (NilZero.int_of_string s).

(** The double quote character, for building messages. *)
Definition dq : string := String (Ascii.ascii_of_nat 34) EmptyString.

End JS.

(** ** Data model ([src/utils/types.ts]) *)

Inductive Severity := low | medium | high | critical.

Inductive GuardAction :=
  LOG | NOTIFY | KICK | BAN | REMOVE_ROLE | TIMEOUT | RESTORE | LOCKDOWN.

(** The audit-log action kinds the guard asks for. *)
Inductive AuditLogEvent :=
  | GuildUpdate | ChannelCreate | ChannelUpdate | ChannelDelete
  | RoleCreate | RoleUpdate | RoleDelete
  | MemberUpdate | MemberKick
  | EmojiCreate | EmojiUpdate | EmojiDelete
  | StickerCreate | StickerUpdate | StickerDelete
  | WebhookCreate | InviteCreate.

#[global] Instance Severity_eq_dec : EqDecision Severity.
Proof. solve_decision. Defined.
#[global] Instance GuardAction_eq_dec : EqDecision GuardAction.
Proof. solve_decision. Defined.
#[global] Instance AuditLogEvent_eq_dec : EqDecision AuditLogEvent.
Proof. solve_decision. Defined.

Definition severity_name (s : Severity) : string :=
  match s with
  | low => "low" | medium => "medium" | high => "high" | critical => "critical"
  end.

(** Of the interfaces of [types.ts], the fields that a method of the guard
    reads. *)
Record WhitelistConfig := {
  users : list string;
  roles : list string;
}.

Record Protection := {
  p_channels : bool; p_roles : bool; p_emojis : bool; p_stickers : bool;
  p_webhooks : bool; p_invites : bool; p_members : bool; p_guild : bool;
}.

Record Limits := {
  maxInviteCreations : Z;
  timeWindow : Z;
}.

Record Actions := {
  onViolation : list GuardAction;
  onSuspiciousActivity : list GuardAction;
}.

Record GuardConfig := {
  enabled : bool;
  whitelist : WhitelistConfig;
  auditChannelId : option string;
  protection : Protection;
  limits : Limits;
  actions : Actions;
}.

(** The object [handleViolation] builds. *)
Record Violation := {
  v_guildId : string;
  v_userId : string;
  v_violationType : string;
  v_description : string;
  v_severity : Severity;
  v_targetId : option string;
}.

(** ** The live guild as the handlers read it *)

(** A [PermissionsBitField] object: [!==] on two of them compares identity. *)
Record Permissions := { perm_ref : nat; perm_bits : Z }.

Record Member := {
  m_id : string;
  m_tag : string;
  m_roles : list (string * string);   (* roles.cache: id, name *)
}.

Record LiveRole := {
  lr_id : string; lr_name : string; lr_color : Z;
  lr_hoist : bool; lr_mentionable : bool; lr_position : Z;
}.

Record LiveChannel := {
  lc_id : string;
  lc_type : Z;
  lc_text_based : bool;    (* isTextBased(): the channels of a server that have [send] *)
  lc_me_manage : bool;     (* permissionsFor(me)?.has(ManageChannels) *)
}.

Record Me := {
  me_manage_roles : bool;          (* permissions.has('ManageRoles') *)
  me_highest : option Z;           (* roles.highest.position *)
}.

Record Guild := {
  g_id : string;
  g_name : string;
  g_roles : list LiveRole;
  g_channels : list LiveChannel;
  g_emojis : list string;
  g_stickers : list string;
  g_members : list Member;         (* members.cache *)
  g_me : option Me;                (* members.me *)
}.

Definition find_member (ms : list Member) (id : string) : option Member :=
  find (fun m => String.eqb (m_id m) id) ms.

Definition find_channel (g : Guild) (id : string) : option LiveChannel :=
  find (fun c => String.eqb (lc_id c) id) (g_channels g).

Definition find_role (g : Guild) (id : string) : option LiveRole :=
  find (fun r => String.eqb (lr_id r) id) (g_roles g).

Definition has_role (m : Member) (roleId : string) : bool :=
  existsb (fun r => String.eqb (fst r) roleId) (m_roles m).

Definition includes (l : list string) (x : string) : bool :=
  existsb (String.eqb x) l.

(** One entry of the audit log: [executor?.id] and [targetId]. *)
Record AuditEntry := {
  executor : option string;
  targetId : option string;
}.

(** ** Rows of the stores the guard reads *)

Record WhitelistRow := {
  wl_guild : string;
  wl_type : string;
  wl_target : string;
  wl_expires_at : option Z;
  wl_is_active : bool;
}.

Record BackupRow := { b_id : string; b_guild : string }.

Record RoleData := {
  rd_name : string; rd_color : Z; rd_hoist : bool; rd_mentionable : bool;
}.

Record ChannelData := {
  cd_name : string;
  cd_type : Z;
  cd_parent_id : option string;
}.

Record AssetData := {          (* a row of emoji_data or sticker_data *)
  ad_name : string;
  ad_guildId : string;
  ad_url : string;
}.

(** ** Errors, results, effects *)

Inductive Err :=
  | PlatformError (code : Z)
  | DatabaseError
  | RedisError
  | NetworkError
  | TypeError.              (* a call of what is no function *)

Inductive Res (A : Type) :=
  | Val (a : A)
  | Exn (e : Err).
Arguments Val {A} a.
Arguments Exn {A} e.

(** The calls a handler makes that leave the process. *)
Inductive Effect :=
  (* reads of the audit trail *)
  | FetchAuditLogs (guild : string) (type : AuditLogEvent)
  (* platform mutations *)
  | RolesCreate (guild name : string)
  | RoleEdit (guild role name : string)
  | RoleDeleteCall (guild role : string)
  | ChannelEdit (guild channel name : string)
  | ChannelDeleteCall (guild channel : string)
  | EmojiCreateCall (guild name : string)
  | EmojiEdit (guild emoji name : string)
  | EmojiDeleteCall (guild emoji : string)
  | StickerCreateCall (guild name : string)
  | StickerEdit (guild sticker name : string)
  | StickerDeleteCall (guild sticker : string)
  | WebhookDelete (guild webhook : string)
  | GuildEdit (guild name : string)
  | MemberKickCall (guild user : string)
  | MemberBan (guild user : string)
  | MemberRoleRemove (guild user role : string)
  | MemberRoleAdd (guild user role : string)
  | MemberTimeout (guild user : string)
  | SetVerificationLevel (guild : string) (level : Z)
  | PermissionOverwritesEdit (guild channel : string)
  (* notifications *)
  | SendViolationEmbed (channel userId violationType description severity : string)
  | SendRestoreEmbed (channel type id : string) (success : bool)
  (* the record of a violation *)
  | LogViolation (v : Violation)
  (* entry points of the backup manager *)
  | BmRestoreRole (backup role : string)
  | BmRestoreCategoryAndChildren (backup category : string)
  | BmCreateBackup (guild : string)
  (* the counter store *)
  | RedisGet (key : string)
  | RedisSet (key value : string)
  | RedisSetEx (key : string) (ttl : Z) (value : string).

(** ** The outside world *)

Record World := {
  (* client.user?.id *)
  bot_user_id : option string;
  (* client.guilds.cache.get *)
  client_guild : string -> option Guild;
  (* guild.fetchAuditLogs({type, limit: 1}): the entries, newest first *)
  fetchAuditLogs : string -> AuditLogEvent -> Err + list AuditEntry;
  (* guild.members.fetch(id); None is a rejected promise *)
  members_fetch : string -> string -> option Member;
  (* guild.members.fetch(): the members cache once it is filled *)
  members_fetch_all : string -> Err + list Member;
  (* a mutating call, or a call to the counter store, that fails *)
  fails : Effect -> option Err;
  (* the id the platform gives a role created by guild.roles.create *)
  created_role_id : string -> string -> string;
  (* channel.fetchWebhooks(): id and owner?.id of each webhook *)
  fetchWebhooks : string -> Err + list (string * option string);
  (* fetch(url) of an asset *)
  http_fetch : string -> option Err;
  (* the whitelist table; an error stands for a failing query *)
  db_whitelist : Err + list WhitelistRow;
  (* the backups table, newest first; an error stands for a failing query *)
  db_backups : Err + list BackupRow;
  (* tables of a backup *)
  db_role_backup : string -> string -> option RoleData;
  db_channel_backup : string -> string -> option ChannelData;
  db_channel_data : string -> string -> Err + option ChannelData;
  db_emoji_backup : string -> string -> option AssetData;
  db_emoji_data : string -> string -> Err + option AssetData;
  db_sticker_backup : string -> string -> option AssetData;
  db_sticker_data : string -> string -> Err + option AssetData;
  db_guild_backup : string -> option string;     (* the guild's name *)
  (* getMembersWithRole: the id column of the member_data rows *)
  db_members_with_role : string -> string -> Err + list string;
  (* BackupManager.restoreRole: catches, answers true or false *)
  bm_restoreRole : string -> string -> bool;
  (* BackupManager.createBackup: the new backup's id *)
  bm_createBackup : string -> Err + string;
}.

(** ** The manager's state *)

Inductive TimerAction :=
  | DeleteSelfAction (key : string)
  | DeleteRestoration (key : string).

Record State := {
  configs : gmap string GuardConfig;
  targetGuildId : string;
  selfActions : gset string;
  restorationInProgress : gset string;
  whitelistCache : gmap string (bool * Z);
  recentRoleChanges : option (gmap string (Z * string));
  timers : list (Z * TimerAction);
  now : Z;
  (* the counter store: value and time of expiry, in milliseconds *)
  redis : gmap string (string * option Z);
}.

Definition SELF_ACTION_TIMEOUT : Z := 10000.
Definition WHITELIST_CACHE_TTL : Z := 30000.

(** ** The monad of the methods *)

Definition M (A : Type) : Type := World -> State -> Res A * State * list Effect.

Definition ret {A} (a : A) : M A := fun _ s => (Val a, s, []).

Definition bind {A B} (m : M A) (f : A -> M B) : M B :=
  fun w s =>
    match m w s with
    | (Val a, s1, t1) =>
        match f a w s1 with
        | (r, s2, t2) => (r, s2, t1 ++ t2)
        end
    | (Exn e, s1, t1) => (Exn e, s1, t1)
    end.

Definition throw {A} (e : Err) : M A := fun _ s => (Exn e, s, []).

(** [try { m } catch (error) { h error }] *)
Definition try_catch {A} (m : M A) (h : Err -> M A) : M A :=
  fun w s =>
    match m w s with
    | (Val a, s1, t1) => (Val a, s1, t1)
    | (Exn e, s1, t1) =>
        match h e w s1 with
        | (r, s2, t2) => (r, s2, t1 ++ t2)
        end
    end.

(** [try { m } finally { f }] *)
Definition try_finally {A} (m : M A) (f : M unit) : M A :=
  fun w s =>
    match m w s with
    | (r, s1, t1) =>
        match f w s1 with
        | (Val _, s2, t2) => (r, s2, t1 ++ t2)
        | (Exn e, s2, t2) => (Exn e, s2, t1 ++ t2)
        end
    end.

Definition ask : M World := fun w s => (Val w, s, []).
Definition get : M State := fun _ s => (Val s, s, []).
Definition modify (f : State -> State) : M unit := fun _ s => (Val tt, f s, []).
Definition emit (e : Effect) : M unit := fun _ s => (Val tt, s, [e]).

Declare Scope guard_scope.
Delimit Scope guard_scope with guard.
Notation "x ← y ; z" := (bind y (fun x => z))
  (at level 20, y at level 100, z at level 200, only parsing) : guard_scope.
Notation "y ;; z" := (bind y (fun _ => z))
  (at level 100, z at level 200, only parsing, right associativity) : guard_scope.
Local Open Scope guard_scope.

(** A call that leaves the process: it is recorded, and fails when the world
    says so. *)
Definition call (e : Effect) : M unit :=
  emit e ;;
  w ← ask ;
  match fails w e with
  | Some err => throw err
  | None => ret tt
  end.

(** Lift an oracle answer that may be an error. *)
Definition lift_sum {A} (r : Err + A) : M A :=
  match r with
  | inl e => throw e
  | inr a => ret a
  end.

(** [for (const x of l) { await f x }] *)
Fixpoint for_each {A} (l : list A) (f : A -> M unit) : M unit :=
  match l with
  | [] => ret tt
  | x :: l' => f x ;; for_each l' f
  end.

(** [if (c) return;] followed by the rest of the method. *)
Definition return_if (c : bool) (rest : M unit) : M unit :=
  if c then ret tt else rest.

(** ** State updates *)

Definition set_selfActions (f : gset string -> gset string) (s : State) : State :=
  {| configs := configs s; targetGuildId := targetGuildId s;
     selfActions := f (selfActions s);
     restorationInProgress := restorationInProgress s;
     whitelistCache := whitelistCache s;
     recentRoleChanges := recentRoleChanges s;
     timers := timers s; now := now s; redis := redis s |}.

Definition set_restorationInProgress (f : gset string -> gset string) (s : State) : State :=
  {| configs := configs s; targetGuildId := targetGuildId s;
     selfActions := selfActions s;
     restorationInProgress := f (restorationInProgress s);
     whitelistCache := whitelistCache s;
     recentRoleChanges := recentRoleChanges s;
     timers := timers s; now := now s; redis := redis s |}.

Definition set_whitelistCache
    (f : gmap string (bool * Z) -> gmap string (bool * Z)) (s : State) : State :=
  {| configs := configs s; targetGuildId := targetGuildId s;
     selfActions := selfActions s;
     restorationInProgress := restorationInProgress s;
     whitelistCache := f (whitelistCache s);
     recentRoleChanges := recentRoleChanges s;
     timers := timers s; now := now s; redis := redis s |}.

Definition set_recentRoleChanges
    (v : option (gmap string (Z * string))) (s : State) : State :=
  {| configs := configs s; targetGuildId := targetGuildId s;
     selfActions := selfActions s;
     restorationInProgress := restorationInProgress s;
     whitelistCache := whitelistCache s;
     recentRoleChanges := v;
     timers := timers s; now := now s; redis := redis s |}.

Definition set_timers
    (f : list (Z * TimerAction) -> list (Z * TimerAction)) (s : State) : State :=
  {| configs := configs s; targetGuildId := targetGuildId s;
     selfActions := selfActions s;
     restorationInProgress := restorationInProgress s;
     whitelistCache := whitelistCache s;
     recentRoleChanges := recentRoleChanges s;
     timers := f (timers s); now := now s; redis := redis s |}.

Definition set_now (t : Z) (s : State) : State :=
  {| configs := configs s; targetGuildId := targetGuildId s;
     selfActions := selfActions s;
     restorationInProgress := restorationInProgress s;
     whitelistCache := whitelistCache s;
     recentRoleChanges := recentRoleChanges s;
     timers := timers s; now := t; redis := redis s |}.

Definition set_redis
    (f : gmap string (string * option Z) -> gmap string (string * option Z))
    (s : State) : State :=
  {| configs := configs s; targetGuildId := targetGuildId s;
     selfActions := selfActions s;
     restorationInProgress := restorationInProgress s;
     whitelistCache := whitelistCache s;
     recentRoleChanges := recentRoleChanges s;
     timers := timers s; now := now s; redis := f (redis s) |}.

(** [setTimeout(() => action, delay)] *)
Definition setTimeout (a : TimerAction) (delay : Z) : M unit :=
  modify (fun s => set_timers (fun l => l ++ [(now s + delay, a)]) s).

Definition run_timer (a : TimerAction) (s : State) : State :=
  match a with
  | DeleteSelfAction k => set_selfActions (fun x => x ∖ {[k]}) s
  | DeleteRestoration k => set_restorationInProgress (fun x => x ∖ {[k]}) s
  end.

(** The clock moves to [t]: the [setTimeout] timers due by then fire, in the
    order they were armed, and stay out of the list.  The [setInterval] tasks
    of [startMonitoring] are no timers of this list: what they do is a step
    of its own ([performFullCleanup], [cleanupWhitelistCache]). *)
Definition advance (t : Z) (s : State) : State :=
  let due := List.filter (fun p => Z.leb (fst p) t) (timers s) in
  let rest := List.filter (fun p => negb (Z.leb (fst p) t)) (timers s) in
  set_now t (set_timers (fun _ => rest) (fold_left (fun s p => run_timer (snd p) s) due s)).

(** ** The counter store ([src/database/RedisManager.ts]) *)

Module RedisManager.

(** A JavaScript number holding an integer, or [NaN]. *)
Definition num := option Z.

Definition num_toString (n : num) : string :=
  match n with
  | Some z => JS.toString z
  | None => "NaN"
  end.

(** [private async executeRedisOperation(operation, errorMessage)]: the error
    is logged and thrown again. *)
Definition executeRedisOperation {A} (operation : M A) : M A :=
  try_catch operation (fun error => throw error).

(** What the server holds under [key] at the time of the call: an entry whose
    time of expiry has come is gone. *)
Definition live (s : State) (key : string) : option string :=
  match redis s !! key with
  | Some (v, Some expiry) => if expiry <=? now s then None else Some v
  | Some (v, None) => Some v
  | None => None
  end.

(** The remaining time to live of [key], in milliseconds. *)
Definition pttl (s : State) (key : string) : option Z :=
  match redis s !! key with
  | Some (_, Some expiry) => if expiry <=? now s then None else Some (expiry - now s)
  | _ => None
  end.

(** [client.get] and [client.set] of the redis package. *)
Definition client_get (key : string) : M (option string) :=
  call (RedisGet key) ;;
  s ← get ;
  ret (live s key).

Definition client_set (key value : string) : M unit :=
  call (RedisSet key value) ;;
  modify (set_redis (fun r => <[key := (value, None)]> r)).

(** The server refuses an expiry that is not positive. *)
Definition client_setEx (key : string) (ttl : Z) (value : string) : M unit :=
  call (RedisSetEx key ttl value) ;;
  if ttl <=? 0 then throw RedisError
  else modify (fun s => set_redis (fun r => <[key := (value, Some (now s + 1000 * ttl))]> r) s).

(** [public async set(key, value, ttl?)] *)
Definition set (key value : string) (ttl : option Z) : M unit :=
  executeRedisOperation
    (match ttl with
     | Some t => if t =? 0 then client_set key value else client_setEx key t value
     | None => client_set key value
     end).

(** [public async get(key)] *)
Definition get (key : string) : M (option string) :=
  executeRedisOperation (client_get key).

(** [private createGuardKey(type, guildId, userId, action?)] *)
Definition createGuardKey (type guildId userId : string) (action : option string) : string :=
  let base := "guard:" +:+ type +:+ ":" +:+ guildId +:+ ":" +:+ userId in
  if JS.truthy action then base +:+ ":" +:+ JS.str_or action "" else base.

(** [count ? parseInt(count) : 0] *)
Definition count_of (count : option string) : num :=
  if JS.truthy count then JS.parseInt (JS.str_or count "") else Some 0.

(** [public async getUserViolationCount(userId, guildId)] *)
Definition getUserViolationCount (userId guildId : string) : M num :=
  let key := createGuardKey "violations" guildId userId None in
  count ← get key ;
  ret (count_of count).

(** [public async incrementUserViolationCount(userId, guildId, ttl = 3600)] *)
Definition incrementUserViolationCount (userId guildId : string) (ttl : Z) : M num :=
  let key := createGuardKey "violations" guildId userId None in
  count ← get key ;
  let newCount := option_map (fun c => c + 1) (count_of count) in
  set key (num_toString newCount) (Some ttl) ;;
  ret newCount.

(** [public async setUserViolationCount(userId, guildId, count, ttl = 3600)] *)
Definition setUserViolationCount (userId guildId : string) (count ttl : Z) : M unit :=
  let key := createGuardKey "violations" guildId userId None in
  set key (JS.toString count) (Some ttl).

End RedisManager.

(** ** Restore entry points of the backup manager
       ([src/backup/BackupManager.ts]) *)

Module BackupManager.

Local Open Scope nat_scope.

(** [Array.prototype.slice(i, j)] for [i <= j]. *)
Definition slice {A} (arr : list A) (i j : nat) : list A :=
  firstn (j - i) (skipn i arr).

(** [for (let i = 0; i < arr.length; i += size) out.push(arr.slice(i, i + size))].
    The loop runs at most [arr.length] times when [size] is positive, which
    is what the fuel counts. *)
Fixpoint chunks_from {A} (fuel size i : nat) (arr : list A) : list (list A) :=
  match fuel with
  | O => []
  | S fuel' =>
      if i <? length arr
      then slice arr i (i + size) :: chunks_from fuel' size (i + size) arr
      else []
  end.

Definition chunks {A} (size : nat) (arr : list A) : list (list A) :=
  chunks_from (length arr) size 0 arr.

Definition BATCH_SIZE : nat := 50.
Definition CONCURRENT_BATCHES : nat := 5.

Record Counters := {
  processedCount : nat;
  successCount : nat;
  errorCount : nat;
}.

(** What the last log line of [fastAssignRoleToMembers] reports. *)
Inductive AssignReport :=
  | NothingToAssign
  | Completed (members success errors : nat)
  | Aborted (e : Err).

Fixpoint map_m {A B} (f : A -> M B) (l : list A) : M (list B) :=
  match l with
  | [] => ret []
  | x :: l' => y ← f x ; ys ← map_m f l' ; ret (y :: ys)
  end.

Fixpoint fold_m {A B} (f : B -> A -> M B) (b : B) (l : list A) : M B :=
  match l with
  | [] => ret b
  | x :: l' => b' ← f b x ; fold_m f b' l'
  end.

(** The body mapped over the members of one batch: the grant, with its own
    [try]/[catch]. *)
Definition grant (guildId roleId : string) (member : Member) : M bool :=
  try_catch
    (call (MemberRoleAdd guildId (m_id member) roleId) ;; ret true)
    (fun _ => ret false).

(** The body mapped over the batches of one group.  The grants of a batch are
    issued in order, and [Promise.allSettled] waits for each of them. *)
Definition run_batch (guildId roleId : string) (c : Counters) (batch : list Member)
    : M Counters :=
  batchResults ← map_m (grant guildId roleId) batch ;
  let batchSuccessCount := length (List.filter (fun r : bool => r) batchResults) in
  let batchErrorCount := length batchResults - batchSuccessCount in
  ret {| processedCount := processedCount c + length batch;
         successCount := successCount c + batchSuccessCount;
         errorCount := errorCount c + batchErrorCount |}.

(** [guild.members.cache.filter(member => memberIdsWithRole.has(member.id)
    && !member.roles.cache.has(role.id))] *)
Definition select_members (membersWithRole : list string) (liveRoleId : string)
    (cache : list Member) : list Member :=
  List.filter (fun member =>
            includes membersWithRole (m_id member)
            && negb (has_role member liveRoleId)) cache.

(** [private async fastAssignRoleToMembers(guild, role, backupId, roleId)].
    [role] is the live role, [roleId] the id the role has in the backup.  The
    pause between two groups does not show in the model. *)
Definition fastAssignRoleToMembers
    (guildId liveRoleId backupId roleId : string) : M AssignReport :=
  try_catch
    (w ← ask ;
     membersWithRole ← lift_sum (db_members_with_role w backupId roleId) ;
     cache ← lift_sum (members_fetch_all w guildId) ;
     let membersToAssign := select_members membersWithRole liveRoleId cache in
     if length membersToAssign =? 0 then ret NothingToAssign
     else
       let memberArray := membersToAssign in
       let batches := chunks BATCH_SIZE memberArray in
       let groups := chunks CONCURRENT_BATCHES batches in
       c ← fold_m (fun c currentBatches => fold_m (run_batch guildId liveRoleId) c currentBatches)
                  {| processedCount := 0; successCount := 0; errorCount := 0 |}
                  groups ;
       ret (Completed (length memberArray) (successCount c) (errorCount c)))
    (fun error => ret (Aborted error)).

(** The members the method would grant the role to. *)
Definition membersToAssign (w : World) (guildId liveRoleId backupId roleId : string)
    : list Member :=
  match db_members_with_role w backupId roleId, members_fetch_all w guildId with
  | inr membersWithRole, inr cache => select_members membersWithRole liveRoleId cache
  | _, _ => []
  end.

(** [public async restoreEmoji(backupId, emojiId)] *)
Definition restoreEmoji (backupId emojiId : string) : M bool :=
  try_catch
    (w ← ask ;
     emojiData ← lift_sum (db_emoji_data w backupId emojiId) ;
     match emojiData with
     | None => ret false
     | Some emojiData =>
         match client_guild w (ad_guildId emojiData) with
         | None => ret false
         | Some guild =>
             match http_fetch w (ad_url emojiData) with
             | Some e => throw e
             | None =>
                 call (EmojiCreateCall (g_id guild) (ad_name emojiData)) ;;
                 ret true
             end
         end
     end)
    (fun _ => ret false).

(** [public async restoreSticker(backupId, stickerId)] *)
Definition restoreSticker (backupId stickerId : string) : M bool :=
  try_catch
    (w ← ask ;
     stickerData ← lift_sum (db_sticker_data w backupId stickerId) ;
     match stickerData with
     | None => ret false
     | Some stickerData =>
         match client_guild w (ad_guildId stickerData) with
         | None => ret false
         | Some guild =>
             match http_fetch w (ad_url stickerData) with
             | Some e => throw e
             | None =>
                 call (StickerCreateCall (g_id guild) (ad_name stickerData)) ;;
                 ret true
             end
         end
     end)
    (fun _ => ret false).

(** [public async restoreRole(backupId, roleId)] catches every error and
    answers with a boolean; the guard only reads that boolean. *)
Definition restoreRole (backupId roleId : string) : M bool :=
  emit (BmRestoreRole backupId roleId) ;;
  w ← ask ;
  ret (bm_restoreRole w backupId roleId).

(** [public async restoreCategoryAndChildren(backupId, categoryId)] reports a
    failure by throwing. *)
Definition restoreCategoryAndChildren (backupId categoryId : string) : M unit :=
  call (BmRestoreCategoryAndChildren backupId categoryId).

(** [public async createBackup(guildId, force)] *)
Definition createBackup (guildId : string) : M string :=
  emit (BmCreateBackup guildId) ;;
  w ← ask ;
  lift_sum (bm_createBackup w guildId).

End BackupManager.

(** ** The guard ([src/guard/GuardManager.ts]) *)

Module GuardManager.

(** *** The objects the gateway hands to the handlers *)

Record Role := {
  role_id : string;
  role_guild : Guild;
  role_name : string;
  role_color : Z;
  role_hoist : bool;
  role_mentionable : bool;
  role_permissions : Permissions;
  role_members : list Member;
}.

Record Channel := {
  channel_id : string;
  channel_guild : Guild;
  channel_name : string;
  channel_topic : option string;
  channel_nsfw : bool;
  channel_rateLimitPerUser : Z;
}.

Record Emoji := { emoji_id : string; emoji_guild : Guild; emoji_name : string }.

Record Sticker := { sticker_id : string; sticker_guild : Guild; sticker_name : string }.

Record Invite := { invite_guild : Guild }.

Record GuildMember := {
  member_id : string;
  member_guild : Guild;
  member_tag : string;
  member_createdTimestamp : Z;
  member_partial : bool;
  member_roles : list string;      (* roles.cache, the ids *)
}.

(** *** Keys *)

Definition key2 (guildId targetId : string) : string :=
  guildId +:+ ":" +:+ targetId.

Definition key3 (guildId targetId suffix : string) : string :=
  guildId +:+ ":" +:+ targetId +:+ ":" +:+ suffix.

(** *** Self-action markers *)

(** [private isSelfAction(guildId, targetId)] *)
Definition isSelfAction (s : State) (guildId targetId : string) : bool :=
  bool_decide (key2 guildId targetId ∈ selfActions s).

(** [private markSelfAction(guildId, targetId)] *)
Definition markSelfAction (guildId targetId : string) : M unit :=
  let key := key2 guildId targetId in
  modify (set_selfActions (fun x => {[key]} ∪ x)) ;;
  setTimeout (DeleteSelfAction key) SELF_ACTION_TIMEOUT.

(** [private isBotAction(executorId)] *)
Definition isBotAction (w : World) (executorId : string) : bool :=
  match bot_user_id w with
  | Some id => String.eqb executorId id
  | None => false
  end.

(** [private async performFullCleanup()]; the map of violation counts, which
    no handler writes, is not part of the state. *)
Definition performFullCleanup (s : State) : State :=
  set_whitelistCache (fun _ => ∅)
    (set_restorationInProgress (fun _ => ∅)
       (set_selfActions (fun _ => ∅) s)).

(** [private cleanupWhitelistCache()]: an entry is deleted when it is older
    than the time to live. *)
Definition cleanupWhitelistCache (s : State) : State :=
  set_whitelistCache
    (filter (fun entry : string * (bool * Z) =>
               ~ (WHITELIST_CACHE_TTL < now s - snd (snd entry)))) s.

(** *** The audit trail *)

(** [private async getAuditLog(guild, action)] *)
Definition getAuditLog (guild : Guild) (action : AuditLogEvent) : M (option AuditEntry) :=
  try_catch
    (emit (FetchAuditLogs (g_id guild) action) ;;
     w ← ask ;
     entries ← lift_sum (fetchAuditLogs w (g_id guild) action) ;
     ret (head entries))
    (fun _ => ret None).

(** *** The whitelist *)

(** [private isWhitelisted(userId, guildId)] *)
Definition isWhitelisted (w : World) (s : State) (userId guildId : string) : bool :=
  match configs s !! guildId with
  | None => false
  | Some config =>
      includes (users (whitelist config)) userId
      || existsb (fun roleId =>
                    match client_guild w guildId with
                    | None => false
                    | Some guild =>
                        match find_member (g_members guild) userId with
                        | None => false
                        | Some member => has_role member roleId
                        end
                    end) (roles (whitelist config))
  end.

(** [DatabaseManager.isWhitelisted(guildId, type, targetId)]: the count of
    the active rows that have not expired, or [false] when the query fails. *)
Definition db_isWhitelisted (w : World) (s : State) (guildId type targetId : string) : bool :=
  match db_whitelist w with
  | inl _ => false
  | inr rows =>
      existsb (fun r =>
                 String.eqb (wl_guild r) guildId
                 && String.eqb (wl_type r) type
                 && String.eqb (wl_target r) targetId
                 && wl_is_active r
                 && match wl_expires_at r with
                    | None => true
                    | Some t => now s <? t
                    end) rows
  end.

(** The shared body of [isUserWhitelisted], [isRoleWhitelisted] and
    [isActionWhitelisted], which differ in the [type] only. *)
Definition cachedWhitelisted (type guildId targetId : string) : M bool :=
  let cacheKey := type +:+ ":" +:+ guildId +:+ ":" +:+ targetId in
  s ← get ;
  w ← ask ;
  match whitelistCache s !! cacheKey with
  | Some (result, timestamp) =>
      if now s - timestamp <? WHITELIST_CACHE_TTL then ret result
      else
        let result := db_isWhitelisted w s guildId type targetId in
        modify (set_whitelistCache (fun c => <[cacheKey := (result, now s)]> c)) ;;
        ret result
  | None =>
      let result := db_isWhitelisted w s guildId type targetId in
      modify (set_whitelistCache (fun c => <[cacheKey := (result, now s)]> c)) ;;
      ret result
  end.

Definition isUserWhitelisted (guildId userId : string) : M bool :=
  cachedWhitelisted "user" guildId userId.

Definition isRoleWhitelisted (guildId roleId : string) : M bool :=
  cachedWhitelisted "role" guildId roleId.

Definition isActionWhitelisted (guildId action : string) : M bool :=
  cachedWhitelisted "action" guildId action.

(** The loop over the roles of the executor, with its early [return true]. *)
Fixpoint anyRoleWhitelisted (guildId : string) (roleIds : list string) : M bool :=
  match roleIds with
  | [] => ret false
  | roleId :: rest =>
      roleWhitelisted ← isRoleWhitelisted guildId roleId ;
      if roleWhitelisted then ret true else anyRoleWhitelisted guildId rest
  end.

(** [private async checkWhitelist(guildId, executorId, action)] *)
Definition checkWhitelist (guildId executorId action : string) : M bool :=
  try_catch
    (userWhitelisted ← isUserWhitelisted guildId executorId ;
     if userWhitelisted then ret true
     else
       actionWhitelisted ← isActionWhitelisted guildId action ;
       if actionWhitelisted then ret true
       else
         w ← ask ;
         match client_guild w guildId with
         | None => ret false
         | Some guild =>
             match members_fetch w guildId executorId with
             | None => ret false
             | Some member => anyRoleWhitelisted guildId (map fst (m_roles member))
             end
         end)
    (fun _ => ret false).

(** *** Counters *)

Definition getViolationCount (userId guildId action : string) : M RedisManager.num :=
  RedisManager.getUserViolationCount userId guildId.

Definition incrementViolationCount (userId guildId action : string) : M RedisManager.num :=
  RedisManager.incrementUserViolationCount userId guildId 3600.

(** *** Notifications *)

(** [private async sendNotification(guild, userId, violationType, description, severity)] *)
Definition sendNotification (guild : Guild) (userId violationType description : string)
    (severity : Severity) : M unit :=
  try_catch
    (s ← get ;
     match configs s !! g_id guild with
     | None => ret tt
     | Some config =>
         if negb (JS.truthy (auditChannelId config)) then ret tt
         else
           match find_channel guild (JS.str_or (auditChannelId config) "") with
           | None => ret tt
           | Some channel =>
               (* [as TextChannel] checks nothing: on a category or a forum
                  there is no [send] to call *)
               if lc_text_based channel
               then call (SendViolationEmbed (lc_id channel) userId violationType
                            description (severity_name severity))
               else throw TypeError
           end
     end)
    (fun _ => ret tt).

(** [private async sendRestoreNotification(guild, type, id, success)] *)
Definition sendRestoreNotification (guild : Guild) (type id : string) (success : bool)
    : M unit :=
  try_catch
    (s ← get ;
     match configs s !! g_id guild with
     | None => ret tt
     | Some config =>
         if negb (JS.truthy (auditChannelId config)) then ret tt
         else
           match find_channel guild (JS.str_or (auditChannelId config) "") with
           | None => ret tt
           | Some channel =>
               if lc_text_based channel
               then call (SendRestoreEmbed (lc_id channel) type id success)
               else throw TypeError
           end
     end)
    (fun _ => ret tt).

(** *** Moderation *)

Definition kickUser (guild : Guild) (userId : string) : M unit :=
  try_catch
    (w ← ask ;
     match members_fetch w (g_id guild) userId with
     | None => throw (PlatformError 10007)
     | Some member => call (MemberKickCall (g_id guild) userId)
     end)
    (fun _ => ret tt).

Definition banUser (guild : Guild) (userId : string) : M unit :=
  try_catch
    (w ← ask ;
     match members_fetch w (g_id guild) userId with
     | None => throw (PlatformError 10007)
     | Some member => call (MemberBan (g_id guild) userId)
     end)
    (fun _ => ret tt).

Definition removeRoles (guild : Guild) (userId : string) : M unit :=
  try_catch
    (w ← ask ;
     match members_fetch w (g_id guild) userId with
     | None => throw (PlatformError 10007)
     | Some member =>
         let rolesToRemove :=
           List.filter (fun r => negb (String.eqb (snd r) "@everyone")) (m_roles member) in
         for_each rolesToRemove
           (fun r => call (MemberRoleRemove (g_id guild) userId (fst r)))
     end)
    (fun _ => ret tt).

Definition timeoutUser (guild : Guild) (userId : string) : M unit :=
  try_catch
    (w ← ask ;
     match members_fetch w (g_id guild) userId with
     | None => throw (PlatformError 10007)
     | Some member => call (MemberTimeout (g_id guild) userId)
     end)
    (fun _ => ret tt).

(** [private async lockdownGuild(guild)] *)
Definition lockdownGuild (guild : Guild) : M unit :=
  try_catch
    (call (SetVerificationLevel (g_id guild) 4) ;;
     let channels :=
       List.filter (fun c => (lc_type c =? 0) && lc_me_manage c) (g_channels guild) in
     for_each channels
       (fun c => call (PermissionOverwritesEdit (g_id guild) (lc_id c))))
    (fun _ => ret tt).

(** *** Backups *)

(** [DatabaseManager.getLatestBackup(guildId)]: catches, answers [null]. *)
Definition getLatestBackup (w : World) (guildId : string) : option BackupRow :=
  match db_backups w with
  | inl _ => None
  | inr rows => head (List.filter (fun b => String.eqb (b_guild b) guildId) rows)
  end.

(** [DatabaseManager.getBackupsByGuild(guildId, limit)]: throws again. *)
Definition getBackupsByGuild (guildId : string) (limit : nat) : M (list BackupRow) :=
  w ← ask ;
  rows ← lift_sum (db_backups w) ;
  ret (firstn limit (List.filter (fun b => String.eqb (b_guild b) guildId) rows)).

(** [extractRoleIdFromViolation] and its three copies: the target id when it
    is truthy, and [null] on every other path. *)
Definition extractIdFromViolation (targetId : option string) : option string :=
  if JS.truthy targetId then targetId else None.

(** The loop of [performRestore] over the older backups. *)
Fixpoint tryOlderBackups (restoreMethod : string -> string -> M bool)
    (finalBackupId targetId : string) (recentBackups : list BackupRow) : M bool :=
  match recentBackups with
  | [] => ret false
  | backup :: rest =>
      if String.eqb (b_id backup) finalBackupId
      then tryOlderBackups restoreMethod finalBackupId targetId rest
      else
        success ← restoreMethod (b_id backup) targetId ;
        if success then ret true
        else tryOlderBackups restoreMethod finalBackupId targetId rest
  end.

(** [private async performRestore(guild, backupId, violation, restoreType,
    extractIdMethod, restoreMethod)].  Here and in the other restore methods
    the violation is given by its [targetId], the one field the extractors
    read. *)
Definition performRestore (guild : Guild) (backupId : option string)
    (violationTargetId : option string) (restoreType : string)
    (restoreMethod : string -> string -> M bool) : M unit :=
  try_catch
    (match extractIdFromViolation violationTargetId with
     | None => ret tt
     | Some targetId =>
         markSelfAction (g_id guild) targetId ;;
         w ← ask ;
         let finalBackupId :=
           if JS.truthy backupId then backupId
           else option_map b_id (getLatestBackup w (g_id guild)) in
         if negb (JS.truthy finalBackupId) then ret tt
         else
           let finalBackupId := JS.str_or finalBackupId "" in
           success ← restoreMethod finalBackupId targetId ;
           success ←
             (if success then ret true
              else
                recentBackups ← getBackupsByGuild (g_id guild) 10 ;
                tryOlderBackups restoreMethod finalBackupId targetId recentBackups) ;
           sendRestoreNotification guild restoreType targetId success
     end)
    (fun _ => ret tt).

(** [private async restoreDeletedRole(guild, backupId, violation)] *)
Definition restoreDeletedRole (guild : Guild) (backupId : option string)
    (violationTargetId : option string) : M unit :=
  performRestore guild backupId violationTargetId "role" BackupManager.restoreRole.

(** [private async restoreRoleFromBackup(guild, roleId, oldRole)]; the
    method does not read [oldRole]. *)
Definition restoreRoleFromBackup (guild : Guild) (roleId : string) : M unit :=
  try_catch
    (markSelfAction (g_id guild) roleId ;;
     w ← ask ;
     match getLatestBackup w (g_id guild) with
     | None => ret tt
     | Some latestBackup =>
         match db_role_backup w (b_id latestBackup) roleId with
         | None => ret tt
         | Some roleData =>
             match find_role guild roleId with
             | None => ret tt
             | Some role =>
                 if negb (match g_me guild with
                          | Some me => me_manage_roles me
                          | None => false
                          end)
                 then ret tt
                 else if match g_me guild with
                         | Some {| me_highest := Some position |} =>
                             position <=? lr_position role
                         | _ => false
                         end
                 then ret tt
                 else
                   let needsUpdate :=
                     negb (String.eqb (lr_name role) (rd_name roleData))
                     || negb (lr_color role =? rd_color roleData)
                     || negb (Bool.eqb (lr_hoist role) (rd_hoist roleData))
                     || negb (Bool.eqb (lr_mentionable role) (rd_mentionable roleData)) in
                   if needsUpdate
                   then try_catch
                          (call (RoleEdit (g_id guild) roleId (rd_name roleData)))
                          (fun _ => ret tt)
                   else ret tt
             end
         end
     end)
    (fun _ => ret tt).

(** The first loop of [restoreDeletedChannel]: look for the channel in the
    older backups. *)
Fixpoint findChannelData (finalBackupId channelId : string) (recentBackups : list BackupRow)
    : M (option (ChannelData * string)) :=
  match recentBackups with
  | [] => ret None
  | backup :: rest =>
      if String.eqb (b_id backup) finalBackupId
      then findChannelData finalBackupId channelId rest
      else
        w ← ask ;
        channelData ← lift_sum (db_channel_data w (b_id backup) channelId) ;
        match channelData with
        | Some channelData => ret (Some (channelData, b_id backup))
        | None => findChannelData finalBackupId channelId rest
        end
  end.

(** The loops of [restoreDeletedChannel] that retry a category on the other
    backups; the answer says whether one of them went through. *)
Fixpoint retryCategory (foundBackupId categoryId : string) (recentBackups : list BackupRow)
    : M bool :=
  match recentBackups with
  | [] => ret false
  | backup :: rest =>
      if String.eqb (b_id backup) foundBackupId
      then retryCategory foundBackupId categoryId rest
      else
        ok ← try_catch
               (BackupManager.restoreCategoryAndChildren (b_id backup) categoryId ;; ret true)
               (fun _ => ret false) ;
        if ok then ret true else retryCategory foundBackupId categoryId rest
  end.

(** [private async restoreDeletedChannel(guild, backupId, violation)] *)
Definition restoreDeletedChannel (guild : Guild) (backupId : option string)
    (violationTargetId : option string) : M unit :=
  try_catch
    (match extractIdFromViolation violationTargetId with
     | None => ret tt
     | Some channelId =>
         markSelfAction (g_id guild) channelId ;;
         w ← ask ;
         let finalBackupId :=
           if JS.truthy backupId then backupId
           else option_map b_id (getLatestBackup w (g_id guild)) in
         if negb (JS.truthy finalBackupId) then ret tt
         else
           let finalBackupId := JS.str_or finalBackupId "" in
           channelData ← lift_sum (db_channel_data w finalBackupId channelId) ;
           found ←
             (match channelData with
              | Some channelData => ret (Some (channelData, finalBackupId))
              | None =>
                  recentBackups ← getBackupsByGuild (g_id guild) 10 ;
                  findChannelData finalBackupId channelId recentBackups
              end) ;
           match found with
           | None => sendRestoreNotification guild "channel" channelId false
           | Some (channelData, foundBackupId) =>
               success ←
                 (if cd_type channelData =? 4
                  then
                    try_catch
                      (BackupManager.restoreCategoryAndChildren foundBackupId channelId ;;
                       ret true)
                      (fun _ =>
                         recentBackups ← getBackupsByGuild (g_id guild) 10 ;
                         retryCategory foundBackupId channelId recentBackups)
                  else
                    (if JS.truthy (cd_parent_id channelData)
                     then
                       let parentId := JS.str_or (cd_parent_id channelData) "" in
                       match find_channel guild parentId with
                       | Some _ => ret tt
                       | None =>
                           try_catch
                             (BackupManager.restoreCategoryAndChildren foundBackupId parentId)
                             (fun _ =>
                                recentBackups ← getBackupsByGuild (g_id guild) 10 ;
                                retryCategory foundBackupId parentId recentBackups ;;
                                ret tt)
                       end
                     else ret tt) ;;
                    ret false) ;
               sendRestoreNotification guild "channel" channelId success
           end
     end)
    (fun _ => ret tt).

(** [private async restoreChannelFromBackup(guild, channelId, oldChannel)] *)
Definition restoreChannelFromBackup (guild : Guild) (channelId : string) : M unit :=
  try_catch
    (markSelfAction (g_id guild) channelId ;;
     w ← ask ;
     match getLatestBackup w (g_id guild) with
     | None => ret tt
     | Some latestBackup =>
         match db_channel_backup w (b_id latestBackup) channelId with
         | None => ret tt
         | Some channelData =>
             match find_channel guild channelId with
             | Some channel =>
                 if lc_text_based channel
                 then call (ChannelEdit (g_id guild) channelId (cd_name channelData))
                 else ret tt
             | None => ret tt
             end
         end
     end)
    (fun _ => ret tt).

(** [private async restoreDeletedEmoji(guild, backupId, violation)] *)
Definition restoreDeletedEmoji (guild : Guild) (backupId : option string)
    (violationTargetId : option string) : M unit :=
  try_catch
    (match extractIdFromViolation violationTargetId with
     | None => ret tt
     | Some emojiId =>
         markSelfAction (g_id guild) emojiId ;;
         w ← ask ;
         let finalBackupId :=
           if JS.truthy backupId then backupId
           else option_map b_id (getLatestBackup w (g_id guild)) in
         if negb (JS.truthy finalBackupId) then ret tt
         else
           let finalBackupId := JS.str_or finalBackupId "" in
           success ← BackupManager.restoreEmoji finalBackupId emojiId ;
           sendRestoreNotification guild "emoji" emojiId success
     end)
    (fun _ => ret tt).

(** [private async restoreEmojiFromBackup(guild, emojiId, oldEmoji)] *)
Definition restoreEmojiFromBackup (guild : Guild) (emojiId : string) : M unit :=
  try_catch
    (markSelfAction (g_id guild) emojiId ;;
     w ← ask ;
     match getLatestBackup w (g_id guild) with
     | None => ret tt
     | Some latestBackup =>
         match db_emoji_backup w (b_id latestBackup) emojiId with
         | None => ret tt
         | Some emojiData =>
             if includes (g_emojis guild) emojiId
             then call (EmojiEdit (g_id guild) emojiId (ad_name emojiData))
             else ret tt
         end
     end)
    (fun _ => ret tt).

(** [private async restoreDeletedSticker(guild, backupId, violation)] *)
Definition restoreDeletedSticker (guild : Guild) (backupId : option string)
    (violationTargetId : option string) : M unit :=
  try_catch
    (match extractIdFromViolation violationTargetId with
     | None => ret tt
     | Some stickerId =>
         markSelfAction (g_id guild) stickerId ;;
         w ← ask ;
         let finalBackupId :=
           if JS.truthy backupId then backupId
           else option_map b_id (getLatestBackup w (g_id guild)) in
         if negb (JS.truthy finalBackupId) then ret tt
         else
           let finalBackupId := JS.str_or finalBackupId "" in
           success ← BackupManager.restoreSticker finalBackupId stickerId ;
           sendRestoreNotification guild "sticker" stickerId success
     end)
    (fun _ => ret tt).

(** [private async restoreStickerFromBackup(guild, stickerId, oldSticker)] *)
Definition restoreStickerFromBackup (guild : Guild) (stickerId : string) : M unit :=
  try_catch
    (markSelfAction (g_id guild) stickerId ;;
     w ← ask ;
     match getLatestBackup w (g_id guild) with
     | None => ret tt
     | Some latestBackup =>
         match db_sticker_backup w (b_id latestBackup) stickerId with
         | None => ret tt
         | Some stickerData =>
             if includes (g_stickers guild) stickerId
             then call (StickerEdit (g_id guild) stickerId (ad_name stickerData))
             else ret tt
         end
     end)
    (fun _ => ret tt).

(** [private async restoreGuildSettings(guild, oldGuild)] *)
Definition restoreGuildSettings (guild : Guild) : M unit :=
  try_catch
    (markSelfAction (g_id guild) "guild_settings" ;;
     w ← ask ;
     match getLatestBackup w (g_id guild) with
     | None => ret tt
     | Some latestBackup =>
         match db_guild_backup w (b_id latestBackup) with
         | None => ret tt
         | Some name => call (GuildEdit (g_id guild) name)
         end
     end)
    (fun _ => ret tt).

(** [private async restoreChanges(guild, violation)] *)
Definition restoreChanges (guild : Guild) (violation : Violation) : M unit :=
  try_catch
    (w ← ask ;
     match getLatestBackup w (g_id guild) with
     | None => ret tt
     | Some latestBackup =>
         let type := v_violationType violation in
         if String.eqb type "role_delete_limit_exceeded" || String.eqb type "role_delete"
         then restoreDeletedRole guild (Some (b_id latestBackup)) (v_targetId violation)
         else if String.eqb type "channel_delete_limit_exceeded"
                 || String.eqb type "channel_delete"
         then restoreDeletedChannel guild (Some (b_id latestBackup)) (v_targetId violation)
         else if String.eqb type "emoji_delete_limit_exceeded"
                 || String.eqb type "emoji_delete"
         then restoreDeletedEmoji guild (Some (b_id latestBackup)) (v_targetId violation)
         else if String.eqb type "sticker_delete_limit_exceeded"
                 || String.eqb type "sticker_delete"
         then restoreDeletedSticker guild (Some (b_id latestBackup)) (v_targetId violation)
         else ret tt
     end)
    (fun _ => ret tt).

(** *** Violations *)

(** [private async executeAction(action, guild, userId, violation)] *)
Definition executeAction (action : GuardAction) (guild : Guild) (userId : string)
    (violation : Violation) : M unit :=
  try_catch
    (match action with
     | LOG => ret tt
     | NOTIFY =>
         sendNotification guild userId (v_violationType violation)
           (v_description violation) (v_severity violation)
     | KICK => kickUser guild userId
     | BAN => banUser guild userId
     | REMOVE_ROLE => removeRoles guild userId
     | TIMEOUT => timeoutUser guild userId
     | RESTORE => restoreChanges guild violation
     | LOCKDOWN => lockdownGuild guild
     end)
    (fun _ => ret tt).

(** The list [handleViolation] runs:
    [severity === 'critical' ? config.actions.onViolation
                             : config.actions.onSuspiciousActivity]. *)
Definition actionsFor (config : GuardConfig) (severity : Severity) : list GuardAction :=
  if decide (severity = critical)
  then onViolation (actions config)
  else onSuspiciousActivity (actions config).

(** [private async handleViolation(guild, userId, violationType, description,
    severity, targetId?)] *)
Definition handleViolation (guild : Guild) (userId violationType description : string)
    (severity : Severity) (targetId : option string) : M unit :=
  try_catch
    (s ← get ;
     match configs s !! g_id guild with
     | None => ret tt
     | Some config =>
         let violation :=
           {| v_guildId := g_id guild; v_userId := userId;
              v_violationType := violationType; v_description := description;
              v_severity := severity; v_targetId := targetId |} in
         emit (LogViolation violation) ;;
         for_each (actionsFor config severity)
           (fun action => executeAction action guild userId violation) ;;
         sendNotification guild userId violationType description severity
     end)
    (fun _ => ret tt).

(** [private async distributeRoleToMembersFromData(guild, roleId, members)] *)
Definition distributeRoleToMembersFromData (guild : Guild) (roleId : string)
    (members : list (string * string)) : M unit :=
  try_catch
    (for_each members
       (fun memberData =>
          try_catch
            (w ← ask ;
             match members_fetch w (g_id guild) (fst memberData) with
             | None => throw (PlatformError 10007)
             | Some member =>
                 if negb (has_role member roleId)
                 then call (MemberRoleAdd (g_id guild) (fst memberData) roleId)
                 else ret tt
             end)
            (fun _ => ret tt)))
    (fun _ => ret tt).

(** *** Event handlers *)

Definition quoted (s : string) : string := JS.dq +:+ s +:+ JS.dq.

Definition executorOf (auditLog : AuditEntry) : string :=
  JS.str_or (executor auditLog) "".

Definition executorOrUnknown (auditLog : AuditEntry) : string :=
  JS.str_or (executor auditLog) "unknown".

(** [auditLog.targetId && auditLog.targetId !== id] *)
Definition otherTarget (auditLog : AuditEntry) (id : string) : bool :=
  JS.truthy (targetId auditLog) && negb (String.eqb (JS.str_or (targetId auditLog) "") id).

(** [private async handleGenericEvent(guild, targetId, eventType, auditEvent, action)] *)
Definition handleGenericEvent (guild : Guild) (targetId eventType : string)
    (auditEvent : AuditLogEvent) (action : M unit) : M unit :=
  s ← get ;
  w ← ask ;
  match configs s !! g_id guild with
  | None => ret tt
  | Some config =>
      if negb (enabled config) then ret tt
      else if isSelfAction s (g_id guild) targetId then ret tt
      else
        auditLog ← getAuditLog guild auditEvent ;
        match auditLog with
        | None => ret tt
        | Some auditLog =>
            if isBotAction w (executorOf auditLog) then ret tt
            else if isWhitelisted w s (executorOf auditLog) (g_id guild) then ret tt
            else try_catch action (fun _ => ret tt)
        end
  end.

Definition handleRoleCreate (role : Role) : M unit :=
  handleGenericEvent (role_guild role) (role_id role) "role_create" RoleCreate
    (call (RoleDeleteCall (g_id (role_guild role)) (role_id role)) ;;
     handleViolation (role_guild role) "unknown" "role_create_blocked"
       ("Yetkisiz rol " +:+ quoted (role_name role)
        +:+ " olusturuldu ve otomatik olarak silindi")
       medium (Some (role_id role))).

(** The check of [handleRoleUpdate] and of the two channel handlers on the
    map of recent changes. *)
Definition recentlyChanged (s : State) (changeKey : string) : bool :=
  match recentRoleChanges s with
  | None => false
  | Some m =>
      match m !! changeKey with
      | Some (timestamp, _) => now s - timestamp <? 5000
      | None => false
      end
  end.

(** [if (!this.recentRoleChanges) this.recentRoleChanges = new Map();
    this.recentRoleChanges.set(changeKey, { timestamp: Date.now(), executorId })] *)
Definition recordChange (changeKey executorId : string) : M unit :=
  modify (fun s =>
            set_recentRoleChanges
              (Some (<[changeKey := (now s, executorId)]>
                       (match recentRoleChanges s with
                        | Some m => m
                        | None => ∅
                        end))) s).

Definition handleRoleUpdate (oldRole newRole : Role) : M unit :=
  let guild := role_guild newRole in
  s ← get ;
  w ← ask ;
  match configs s !! g_id guild with
  | None => ret tt
  | Some config =>
      if negb (enabled config) || negb (p_roles (protection config)) then ret tt
      else if isSelfAction s (g_id guild) (role_id newRole) then ret tt
      else
        let restorationKey := key3 (g_id guild) (role_id newRole) "restoration" in
        if bool_decide (restorationKey ∈ restorationInProgress s) then ret tt
        else
          let recentRestoreKey := key3 (g_id guild) (role_id newRole) "recent_restore" in
          if bool_decide (recentRestoreKey ∈ selfActions s) then ret tt
          else
            auditLog ← getAuditLog guild RoleUpdate ;
            match auditLog with
            | None => ret tt
            | Some auditLog =>
                if isBotAction w (executorOf auditLog) then ret tt
                else
                  let executorId := executorOf auditLog in
                  if isWhitelisted w s executorId (g_id guild) then ret tt
                  else
                    isDbWhitelisted ← checkWhitelist (g_id guild) executorId "role_update" ;
                    if isDbWhitelisted then ret tt
                    else
                      let roleChanged :=
                        negb (String.eqb (role_name oldRole) (role_name newRole))
                        || negb (role_color oldRole =? role_color newRole)
                        || negb (Bool.eqb (role_hoist oldRole) (role_hoist newRole))
                        || negb (Bool.eqb (role_mentionable oldRole)
                                   (role_mentionable newRole))
                        || negb (Nat.eqb (perm_ref (role_permissions oldRole))
                                   (perm_ref (role_permissions newRole))) in
                      if negb roleChanged then ret tt
                      else if otherTarget auditLog (role_id newRole) then ret tt
                      else
                        let changeKey := key3 (g_id guild) (role_id newRole) executorId in
                        s' ← get ;
                        if recentlyChanged s' changeKey then ret tt
                        else
                          recordChange changeKey executorId ;;
                          try_finally
                            (try_catch
                               (modify (set_restorationInProgress
                                          (fun x => {[restorationKey]} ∪ x)) ;;
                                modify (set_selfActions
                                          (fun x => {[recentRestoreKey]} ∪ x)) ;;
                                setTimeout (DeleteSelfAction recentRestoreKey) 30000 ;;
                                restoreRoleFromBackup guild (role_id newRole) ;;
                                handleViolation guild executorId "role_update_blocked"
                                  ("Yetkisiz rol " +:+ quoted (role_name newRole)
                                   +:+ " degistirildi ve otomatik olarak geri yuklendi")
                                  medium (Some (role_id newRole)))
                               (fun _ => ret tt))
                            (setTimeout (DeleteRestoration restorationKey) 5000)
            end
  end.

Definition handleRoleDelete (role : Role) : M unit :=
  let guild := role_guild role in
  s ← get ;
  if negb (String.eqb (g_id guild) (targetGuildId s)) then ret tt
  else
    try_catch
      (if isSelfAction s (g_id guild) (role_id role) then ret tt
       else
         auditLog ← getAuditLog guild RoleDelete ;
         let executorId :=
           match auditLog with
           | Some auditLog => executor auditLog
           | None => None
           end in
         whitelisted ←
           (if JS.truthy executorId
            then checkWhitelist (g_id guild) (JS.str_or executorId "") "role_delete"
            else ret false) ;
         if whitelisted then ret tt
         else
           let membersWithRole := map (fun m => (m_id m, m_tag m)) (role_members role) in
           markSelfAction (g_id guild) (role_id role) ;;
           let recentDeletionKey := key3 (g_id guild) (role_id role) "recent_deletion" in
           modify (set_selfActions (fun x => {[recentDeletionKey]} ∪ x)) ;;
           setTimeout (DeleteSelfAction recentDeletionKey) 15000 ;;
           try_catch
             (call (RolesCreate (g_id guild) (role_name role)) ;;
              w ← ask ;
              let recreatedRoleId := created_role_id w (g_id guild) (role_name role) in
              distributeRoleToMembersFromData guild recreatedRoleId membersWithRole ;;
              BackupManager.createBackup (g_id guild) ;;
              sendRestoreNotification guild "role" recreatedRoleId true)
             (fun _ => sendRestoreNotification guild "role" (role_id role) false) ;;
           handleViolation guild (JS.str_or executorId "unknown") "role_delete_blocked"
             ("Rol " +:+ quoted (role_name role)
              +:+ " silindi ve otomatik olarak geri yuklendi")
             high (Some (role_id role)))
      (fun _ => ret tt).

Definition handleChannelCreate (channel : Channel) : M unit :=
  handleGenericEvent (channel_guild channel) (channel_id channel) "channel_create"
    ChannelCreate
    (call (ChannelDeleteCall (g_id (channel_guild channel)) (channel_id channel)) ;;
     handleViolation (channel_guild channel) "unknown" "channel_create_blocked"
       ("Yetkisiz kanal " +:+ quoted (channel_name channel)
        +:+ " olusturuldu ve otomatik olarak silindi")
       medium (Some (channel_id channel))).

Definition handleChannelUpdate (oldChannel newChannel : Channel) : M unit :=
  let guild := channel_guild newChannel in
  s ← get ;
  w ← ask ;
  if isSelfAction s (g_id guild) (channel_id newChannel) then ret tt
  else
    auditLog ← getAuditLog guild ChannelUpdate ;
    match auditLog with
    | None => ret tt
    | Some auditLog =>
        if isBotAction w (executorOf auditLog) then ret tt
        else if isWhitelisted w s (executorOf auditLog) (g_id guild) then ret tt
        else
          let changed :=
            negb (String.eqb (channel_name oldChannel) (channel_name newChannel))
            || negb (bool_decide (channel_topic oldChannel = channel_topic newChannel))
            || negb (Bool.eqb (channel_nsfw oldChannel) (channel_nsfw newChannel))
            || negb (channel_rateLimitPerUser oldChannel
                     =? channel_rateLimitPerUser newChannel) in
          if negb changed then ret tt
          else if otherTarget auditLog (channel_id newChannel) then ret tt
          else
            let changeKey := key3 (g_id guild) (channel_id newChannel) "update" in
            modify (fun s => match recentRoleChanges s with
                             | Some _ => s
                             | None => set_recentRoleChanges (Some ∅) s
                             end) ;;
            s' ← get ;
            if recentlyChanged s' changeKey then ret tt
            else
              recordChange changeKey (executorOf auditLog) ;;
              try_catch
                (restoreChannelFromBackup guild (channel_id newChannel) ;;
                 handleViolation guild (executorOrUnknown auditLog) "channel_update_blocked"
                   ("Yetkisiz kanal " +:+ quoted (channel_name newChannel)
                    +:+ " degistirildi ve otomatik olarak geri yuklendi")
                   medium (Some (channel_id newChannel)))
                (fun _ => ret tt)
    end.

(** The guild of [channel] is present by the type of [Channel], so the
    method's first test, on a channel without a guild, does not show. *)
Definition handleChannelDelete (channel : Channel) : M unit :=
  let guild := channel_guild channel in
  s ← get ;
  w ← ask ;
  if isSelfAction s (g_id guild) (channel_id channel) then ret tt
  else
    let restorationKey := key3 (g_id guild) (channel_id channel) "restoration" in
    if bool_decide (restorationKey ∈ restorationInProgress s) then ret tt
    else
      modify (set_restorationInProgress (fun x => {[restorationKey]} ∪ x)) ;;
      let release := modify (set_restorationInProgress (fun x => x ∖ {[restorationKey]})) in
      try_finally
        (try_catch
           (auditLog ← getAuditLog guild ChannelDelete ;
            match auditLog with
            | None => release
            | Some auditLog =>
                if isBotAction w (executorOf auditLog) then release
                else if isWhitelisted w s (executorOf auditLog) (g_id guild) then release
                else if otherTarget auditLog (channel_id channel) then release
                else
                  let changeKey := key3 (g_id guild) (channel_id channel) "delete" in
                  modify (fun s => match recentRoleChanges s with
                                   | Some _ => s
                                   | None => set_recentRoleChanges (Some ∅) s
                                   end) ;;
                  s' ← get ;
                  if recentlyChanged s' changeKey then release
                  else
                    recordChange changeKey (executorOf auditLog) ;;
                    restoreDeletedChannel guild None (Some (channel_id channel)) ;;
                    handleViolation guild (executorOrUnknown auditLog)
                      "channel_delete_blocked"
                      ("Kanal " +:+ quoted (channel_name channel)
                       +:+ " silindi ve otomatik olarak geri yuklendi")
                      high (Some (channel_id channel))
            end)
           (fun _ => ret tt))
        (setTimeout (DeleteRestoration restorationKey) 5000).

Definition handleEmojiCreate (emoji : Emoji) : M unit :=
  handleGenericEvent (emoji_guild emoji) (emoji_id emoji) "emoji_create" EmojiCreate
    (call (EmojiDeleteCall (g_id (emoji_guild emoji)) (emoji_id emoji)) ;;
     handleViolation (emoji_guild emoji) "unknown" "emoji_create_blocked"
       ("Yetkisiz emoji " +:+ quoted (emoji_name emoji)
        +:+ " olusturuldu ve otomatik olarak silindi")
       medium (Some (emoji_id emoji))).

Definition handleEmojiUpdate (oldEmoji newEmoji : Emoji) : M unit :=
  handleGenericEvent (emoji_guild newEmoji) (emoji_id newEmoji) "emoji_update" EmojiUpdate
    (restoreEmojiFromBackup (emoji_guild newEmoji) (emoji_id newEmoji) ;;
     handleViolation (emoji_guild newEmoji) "unknown" "emoji_update_blocked"
       ("Yetkisiz emoji " +:+ quoted (emoji_name newEmoji)
        +:+ " degistirildi ve otomatik olarak geri yuklendi")
       medium (Some (emoji_id newEmoji))).

Definition handleEmojiDelete (emoji : Emoji) : M unit :=
  handleGenericEvent (emoji_guild emoji) (emoji_id emoji) "emoji_delete" EmojiDelete
    (restoreDeletedEmoji (emoji_guild emoji) None (Some (emoji_id emoji)) ;;
     handleViolation (emoji_guild emoji) "unknown" "emoji_delete_blocked"
       ("Emoji " +:+ quoted (emoji_name emoji)
        +:+ " silindi ve otomatik olarak geri yuklendi")
       high (Some (emoji_id emoji))).

Definition handleStickerCreate (sticker : Sticker) : M unit :=
  handleGenericEvent (sticker_guild sticker) (sticker_id sticker) "sticker_create"
    StickerCreate
    (call (StickerDeleteCall (g_id (sticker_guild sticker)) (sticker_id sticker)) ;;
     handleViolation (sticker_guild sticker) "unknown" "sticker_create_blocked"
       ("Yetkisiz sticker " +:+ quoted (sticker_name sticker)
        +:+ " olusturuldu ve otomatik olarak silindi")
       medium (Some (sticker_id sticker))).

Definition handleStickerUpdate (oldSticker newSticker : Sticker) : M unit :=
  handleGenericEvent (sticker_guild newSticker) (sticker_id newSticker) "sticker_update"
    StickerUpdate
    (restoreStickerFromBackup (sticker_guild newSticker) (sticker_id newSticker) ;;
     handleViolation (sticker_guild newSticker) "unknown" "sticker_update_blocked"
       ("Yetkisiz sticker " +:+ quoted (sticker_name newSticker)
        +:+ " degistirildi ve otomatik olarak geri yuklendi")
       medium (Some (sticker_id newSticker))).

Definition handleStickerDelete (sticker : Sticker) : M unit :=
  handleGenericEvent (sticker_guild sticker) (sticker_id sticker) "sticker_delete"
    StickerDelete
    (restoreDeletedSticker (sticker_guild sticker) None (Some (sticker_id sticker)) ;;
     handleViolation (sticker_guild sticker) "unknown" "sticker_delete_blocked"
       ("Sticker " +:+ quoted (sticker_name sticker)
        +:+ " silindi ve otomatik olarak geri yuklendi")
       high (Some (sticker_id sticker))).

Definition handleWebhookUpdate (channel : Channel) : M unit :=
  let guild := channel_guild channel in
  s ← get ;
  w ← ask ;
  match configs s !! g_id guild with
  | None => ret tt
  | Some config =>
      if negb (enabled config) || negb (p_webhooks (protection config)) then ret tt
      else
        auditLog ← getAuditLog guild WebhookCreate ;
        match auditLog with
        | None => ret tt
        | Some auditLog =>
            if isBotAction w (executorOf auditLog) then ret tt
            else if isWhitelisted w s (executorOf auditLog) (g_id guild) then ret tt
            else
              try_catch
                (webhooks ← lift_sum (fetchWebhooks w (channel_id channel)) ;
                 for_each webhooks
                   (fun webhook =>
                      if bool_decide (snd webhook = executor auditLog)
                      then call (WebhookDelete (g_id guild) (fst webhook))
                      else ret tt) ;;
                 handleViolation guild (executorOrUnknown auditLog) "webhook_create_blocked"
                   "Yetkisiz webhook olusturuldu ve otomatik olarak silindi"
                   medium None)
                (fun _ => ret tt)
        end
  end.

Definition handleGuildUpdate (oldGuild newGuild : Guild) : M unit :=
  s ← get ;
  w ← ask ;
  match configs s !! g_id newGuild with
  | None => ret tt
  | Some config =>
      if negb (enabled config) || negb (p_guild (protection config)) then ret tt
      else
        auditLog ← getAuditLog newGuild GuildUpdate ;
        match auditLog with
        | None => ret tt
        | Some auditLog =>
            if isBotAction w (executorOf auditLog) then ret tt
            else if isWhitelisted w s (executorOf auditLog) (g_id newGuild) then ret tt
            else
              try_catch
                (restoreGuildSettings newGuild ;;
                 handleViolation newGuild (executorOrUnknown auditLog) "guild_update_blocked"
                   "Sunucu ayarlari degistirildi ve otomatik olarak geri yuklendi"
                   high None)
                (fun _ => ret tt)
        end
  end.

Definition handleGuildDelete (guild : Guild) : M unit :=
  s ← get ;
  w ← ask ;
  match configs s !! g_id guild with
  | None => ret tt
  | Some config =>
      if negb (enabled config) || negb (p_guild (protection config)) then ret tt
      else
        auditLog ← getAuditLog guild GuildUpdate ;
        match auditLog with
        | None => ret tt
        | Some auditLog =>
            if isBotAction w (executorOf auditLog) then ret tt
            else if isWhitelisted w s (executorOf auditLog) (g_id guild) then ret tt
            else
              handleViolation guild (executorOrUnknown auditLog) "guild_delete"
                "Sunucu silindi" critical None
        end
  end.

Definition handleMemberJoin (member : GuildMember) : M unit :=
  let guild := member_guild member in
  s ← get ;
  match configs s !! g_id guild with
  | None => ret tt
  | Some config =>
      if negb (enabled config) || negb (p_members (protection config)) then ret tt
      else
        let accountAge := now s - member_createdTimestamp member in
        let suspiciousAge := 24 * 60 * 60 * 1000 in
        if accountAge <? suspiciousAge
        then
          handleViolation guild (member_id member) "suspicious_member_join"
            ("Supheli uye katildi: " +:+ member_tag member +:+ " (hesap yasi: "
             +:+ JS.toString (accountAge / (60 * 60 * 1000)) +:+ "s)")
            medium None
        else ret tt
  end.

(** [names.join(', ')] *)
Fixpoint join (sep : string) (l : list string) : string :=
  match l with
  | [] => ""
  | [x] => x
  | x :: l' => x +:+ sep +:+ join sep l'
  end.

Definition handleMemberUpdate (oldMember newMember : GuildMember) : M unit :=
  let guild := member_guild newMember in
  s ← get ;
  w ← ask ;
  match configs s !! g_id guild with
  | None => ret tt
  | Some config =>
      if negb (enabled config) || negb (p_members (protection config)) then ret tt
      else
        auditLog ← getAuditLog guild MemberUpdate ;
        match auditLog with
        | None => ret tt
        | Some auditLog =>
            if isBotAction w (executorOf auditLog) then ret tt
            else if isWhitelisted w s (executorOf auditLog) (g_id guild) then ret tt
            else
              let oldRoles := member_roles oldMember in
              let newRoles := member_roles newMember in
              let addedRoles := List.filter (fun roleId => negb (includes oldRoles roleId)) newRoles in
              if (0 <? length addedRoles)%nat
              then
                let addedRoleNames :=
                  List.filter (fun n => negb (String.eqb n ""))
                    (omap (fun roleId => option_map lr_name (find_role guild roleId))
                       addedRoles) in
                handleViolation guild (executorOrUnknown auditLog) "role_addition"
                  (member_tag newMember +:+ " kullanicisina rol eklendi: "
                   +:+ join ", " addedRoleNames)
                  medium None
              else ret tt
        end
  end.

Definition handleMemberLeave (member : GuildMember) : M unit :=
  let guild := member_guild member in
  s ← get ;
  w ← ask ;
  match configs s !! g_id guild with
  | None => ret tt
  | Some config =>
      if negb (enabled config) || negb (p_members (protection config)) then ret tt
      else
        auditLog ← getAuditLog guild MemberKick ;
        match auditLog with
        | None => ret tt
        | Some auditLog =>
            if negb (isWhitelisted w s (executorOf auditLog) (g_id guild))
            then
              handleViolation guild (executorOrUnknown auditLog) "member_kick"
                (member_tag member +:+ " uyesi atildi") medium None
            else ret tt
        end
  end.

(** [violationCount >= max] on JavaScript numbers: false on [NaN]. *)
Definition num_ge (n : RedisManager.num) (max : Z) : bool :=
  match n with
  | Some z => max <=? z
  | None => false
  end.

Definition handleInviteCreate (invite : Invite) : M unit :=
  let guild := invite_guild invite in
  s ← get ;
  w ← ask ;
  match configs s !! g_id guild with
  | None => ret tt
  | Some config =>
      if negb (enabled config) || negb (p_invites (protection config)) then ret tt
      else
        auditLog ← getAuditLog guild InviteCreate ;
        match auditLog with
        | None => ret tt
        | Some auditLog =>
            if isBotAction w (executorOf auditLog) then ret tt
            else if isWhitelisted w s (executorOf auditLog) (g_id guild) then ret tt
            else
              violationCount ←
                getViolationCount (executorOrUnknown auditLog) (g_id guild) "invite_create" ;
              if num_ge violationCount (maxInviteCreations (limits config))
              then
                handleViolation guild (executorOrUnknown auditLog)
                  "invite_create_limit_exceeded" "Davet olusturuldu (limit asildi)"
                  high None
              else
                incrementViolationCount (executorOrUnknown auditLog) (g_id guild)
                  "invite_create" ;;
                ret tt
        end
  end.

(** [handleInviteDelete] writes a log line and nothing else. *)
Definition handleInviteDelete (invite : Invite) : M unit := ret tt.

(** *** The dispatcher *)

(** A channel as the gateway delivers it: one of a guild, or one without. *)
Inductive GatewayChannel :=
  | GuildChannel (channel : Channel)
  | DMChannel (id : string).

(** A sticker or an invite may come without a guild. *)
Inductive GatewaySticker :=
  | GuildSticker (sticker : Sticker)
  | StandardSticker (id : string).

Inductive GatewayInvite :=
  | GuildInvite (invite : Invite)
  | GroupInvite.

Inductive GatewayEvent :=
  | guildUpdate (oldGuild newGuild : Guild)
  | guildDelete (guild : Guild)
  | channelCreate (channel : GatewayChannel)
  | channelUpdate (oldChannel newChannel : GatewayChannel)
  | channelDelete (channel : GatewayChannel)
  | roleCreate (role : Role)
  | roleUpdate (oldRole newRole : Role)
  | roleDelete (role : Role)
  | guildMemberAdd (member : GuildMember)
  | guildMemberUpdate (oldMember newMember : GuildMember)
  | guildMemberRemove (member : GuildMember)
  | emojiCreate (emoji : Emoji)
  | emojiUpdate (oldEmoji newEmoji : Emoji)
  | emojiDelete (emoji : Emoji)
  | stickerCreate (sticker : GatewaySticker)
  | stickerUpdate (oldSticker newSticker : GatewaySticker)
  | stickerDelete (sticker : GatewaySticker)
  | webhookUpdate (channel : GatewayChannel)
  | inviteCreate (invite : GatewayInvite)
  | inviteDelete (invite : GatewayInvite).

(** The guild id the listener of an event compares with the target. *)
Definition event_guild_id (ev : GatewayEvent) : option string :=
  match ev with
  | guildUpdate _ newGuild => Some (g_id newGuild)
  | guildDelete guild => Some (g_id guild)
  | channelCreate (GuildChannel c) | channelDelete (GuildChannel c)
  | webhookUpdate (GuildChannel c) | channelUpdate _ (GuildChannel c) =>
      Some (g_id (channel_guild c))
  | channelCreate (DMChannel _) | channelDelete (DMChannel _)
  | webhookUpdate (DMChannel _) | channelUpdate _ (DMChannel _) => None
  | roleCreate r | roleDelete r | roleUpdate _ r => Some (g_id (role_guild r))
  | guildMemberAdd m | guildMemberRemove m | guildMemberUpdate _ m =>
      Some (g_id (member_guild m))
  | emojiCreate e | emojiDelete e | emojiUpdate _ e => Some (g_id (emoji_guild e))
  | stickerCreate (GuildSticker x) | stickerDelete (GuildSticker x)
  | stickerUpdate _ (GuildSticker x) => Some (g_id (sticker_guild x))
  | stickerCreate (StandardSticker _) | stickerDelete (StandardSticker _)
  | stickerUpdate _ (StandardSticker _) => None
  | inviteCreate (GuildInvite i) | inviteDelete (GuildInvite i) =>
      Some (g_id (invite_guild i))
  | inviteCreate GroupInvite | inviteDelete GroupInvite => None
  end.

(** The old value of an update event, read as an object of the new value's
    kind: a handler only reads plain fields of it. *)
Definition as_channel (c : GatewayChannel) (like : Channel) : Channel :=
  match c with
  | GuildChannel c => c
  | DMChannel id =>
      {| channel_id := id; channel_guild := channel_guild like; channel_name := "";
         channel_topic := None; channel_nsfw := false; channel_rateLimitPerUser := 0 |}
  end.

Definition as_sticker (x : GatewaySticker) (like : Sticker) : Sticker :=
  match x with
  | GuildSticker x => x
  | StandardSticker id =>
      {| sticker_id := id; sticker_guild := sticker_guild like; sticker_name := "" |}
  end.

(** [private setupEventHandlers()]: what the listener registered for each
    event does with it.  A listener does not await its handler: an [Exn] here
    is a rejected promise that nothing handles. *)
Definition dispatch (ev : GatewayEvent) : M unit :=
  s ← get ;
  let target := targetGuildId s in
  match ev with
  | guildUpdate oldGuild newGuild =>
      if String.eqb (g_id newGuild) target then handleGuildUpdate oldGuild newGuild
      else ret tt
  | guildDelete guild =>
      if String.eqb (g_id guild) target then handleGuildDelete guild else ret tt
  | channelCreate (GuildChannel c) =>
      if String.eqb (g_id (channel_guild c)) target then handleChannelCreate c else ret tt
  | channelUpdate oldChannel (GuildChannel c) =>
      if String.eqb (g_id (channel_guild c)) target
      then handleChannelUpdate (as_channel oldChannel c) c else ret tt
  | channelDelete (GuildChannel c) =>
      if String.eqb (g_id (channel_guild c)) target then handleChannelDelete c else ret tt
  | channelCreate (DMChannel _) | channelUpdate _ (DMChannel _)
  | channelDelete (DMChannel _) | webhookUpdate (DMChannel _) => ret tt
  | roleCreate role =>
      if String.eqb (g_id (role_guild role)) target then handleRoleCreate role else ret tt
  | roleUpdate oldRole newRole =>
      if String.eqb (g_id (role_guild newRole)) target
      then handleRoleUpdate oldRole newRole else ret tt
  | roleDelete role =>
      if String.eqb (g_id (role_guild role)) target then handleRoleDelete role else ret tt
  | guildMemberAdd member =>
      if String.eqb (g_id (member_guild member)) target then handleMemberJoin member
      else ret tt
  | guildMemberUpdate oldMember newMember =>
      if String.eqb (g_id (member_guild newMember)) target
         && negb (member_partial oldMember) && negb (member_partial newMember)
      then handleMemberUpdate oldMember newMember else ret tt
  | guildMemberRemove member =>
      if String.eqb (g_id (member_guild member)) target && negb (member_partial member)
      then handleMemberLeave member else ret tt
  | emojiCreate emoji =>
      if String.eqb (g_id (emoji_guild emoji)) target then handleEmojiCreate emoji
      else ret tt
  | emojiUpdate oldEmoji newEmoji =>
      if String.eqb (g_id (emoji_guild newEmoji)) target
      then handleEmojiUpdate oldEmoji newEmoji else ret tt
  | emojiDelete emoji =>
      if String.eqb (g_id (emoji_guild emoji)) target then handleEmojiDelete emoji
      else ret tt
  | stickerCreate (GuildSticker x) =>
      if String.eqb (g_id (sticker_guild x)) target then handleStickerCreate x else ret tt
  | stickerUpdate oldSticker (GuildSticker x) =>
      if String.eqb (g_id (sticker_guild x)) target
      then handleStickerUpdate (as_sticker oldSticker x) x else ret tt
  | stickerDelete (GuildSticker x) =>
      if String.eqb (g_id (sticker_guild x)) target then handleStickerDelete x else ret tt
  | stickerCreate (StandardSticker _) | stickerUpdate _ (StandardSticker _)
  | stickerDelete (StandardSticker _) => ret tt
  | webhookUpdate (GuildChannel c) =>
      if String.eqb (g_id (channel_guild c)) target then handleWebhookUpdate c else ret tt
  | inviteCreate (GuildInvite i) =>
      if String.eqb (g_id (invite_guild i)) target then handleInviteCreate i else ret tt
  | inviteDelete (GuildInvite i) =>
      if String.eqb (g_id (invite_guild i)) target then handleInviteDelete i else ret tt
  | inviteCreate GroupInvite | inviteDelete GroupInvite => ret tt
  end.

(** One delivery: the clock moves to [t], the due timers fire, and the
    listener runs against the world of that moment. *)
Definition deliver (w : World) (t : Z) (ev : GatewayEvent) (s : State)
    : Res unit * State * list Effect :=
  dispatch ev w (advance t s).

(** A sequence of deliveries; the answer is the final state with the trace of
    each delivery, in order. *)
Fixpoint deliver_all (evs : list (World * Z * GatewayEvent)) (s : State)
    : State * list (list Effect) :=
  match evs with
  | [] => (s, [])
  | (w, t, ev) :: rest =>
      match deliver w t ev s with
      | (_, s1, tr) =>
          match deliver_all rest s1 with
          | (s2, trs) => (s2, tr :: trs)
          end
      end
  end.

End GuardManager.

(** ** Reading a trace *)

Module Trace.

(** The violation embeds posted to the audit channel. *)
Definition is_violation_post (e : Effect) : bool :=
  match e with
  | SendViolationEmbed _ _ _ _ _ => true
  | _ => false
  end.

Definition violation_posts (tr : list Effect) : nat :=
  length (List.filter is_violation_post tr).

(** A call the platform does not refuse. *)
Definition accepted (w : World) (e : Effect) : bool :=
  match fails w e with
  | None => true
  | Some _ => false
  end.

(** The violation embeds that reached the audit channel: the posts the
    platform did not refuse. *)
Definition violation_posted (w : World) (tr : list Effect) : nat :=
  length (List.filter (fun e => is_violation_post e && accepted w e) tr).

(** The violations recorded. *)
Definition logged_violations (tr : list Effect) : list Violation :=
  omap (fun e => match e with LogViolation v => Some v | _ => None end) tr.

(** The effects that are neither a read of the audit trail nor a call to
    the counter store: mutations of the platform, notifications, records of
    a violation, calls into the backup manager. *)
Definition acts (e : Effect) : bool :=
  match e with
  | FetchAuditLogs _ _ | RedisGet _ | RedisSet _ _ | RedisSetEx _ _ _ => false
  | _ => true
  end.

Definition is_log (e : Effect) : bool :=
  match e with
  | LogViolation _ => true
  | _ => false
  end.

End Trace.

(** ** A small server, for the examples *)

Module Scenario.

Import GuardManager.

(** [private createDefaultConfig(guildId)] *)
Definition createDefaultConfig : GuardConfig :=
  {| enabled := true;
     whitelist := {| users := []; roles := [] |};
     auditChannelId := None;
     protection := {| p_channels := true; p_roles := true; p_emojis := true;
                      p_stickers := true; p_webhooks := true; p_invites := true;
                      p_members := true; p_guild := true |};
     limits := {| maxInviteCreations := 10; timeWindow := 300000 |};
     actions := {| onViolation := [LOG; NOTIFY; RESTORE];
                   onSuspiciousActivity := [LOG; NOTIFY] |} |}.

Definition with_auditChannelId (c : option string) (config : GuardConfig) : GuardConfig :=
  {| enabled := enabled config; whitelist := whitelist config; auditChannelId := c;
     protection := protection config; limits := limits config;
     actions := actions config |}.

Definition with_actions (a : Actions) (config : GuardConfig) : GuardConfig :=
  {| enabled := enabled config; whitelist := whitelist config;
     auditChannelId := auditChannelId config;
     protection := protection config; limits := limits config; actions := a |}.

Definition auditChannel : LiveChannel :=
  {| lc_id := "audit"; lc_type := 0; lc_text_based := true; lc_me_manage := true |}.

Definition liveRole (id name : string) : LiveRole :=
  {| lr_id := id; lr_name := name; lr_color := 0; lr_hoist := false;
     lr_mentionable := false; lr_position := 1 |}.

Definition guildWith (id : string) (channels : list LiveChannel) (roles : list LiveRole)
    : Guild :=
  {| g_id := id; g_name := "server"; g_roles := roles; g_channels := channels;
     g_emojis := []; g_stickers := []; g_members := [];
     g_me := Some {| me_manage_roles := true; me_highest := Some 10 |} |}.

Definition guildG : Guild := guildWith "G" [auditChannel] [liveRole "R" "mods-renamed"].

(** The same server once its audit channel is gone from the cache. *)
Definition guildG_noAudit : Guild := guildWith "G" [] [].

(** The same server with a category under the id the configuration names
    as the audit channel. *)
Definition guildG_categoryAudit : Guild :=
  guildWith "G"
    [{| lc_id := "audit"; lc_type := 4; lc_text_based := false; lc_me_manage := true |}]
    [liveRole "R" "mods-renamed"].

Definition guildOther : Guild := guildWith "H" [] [].

Definition entryBy (user : string) : AuditEntry :=
  {| executor := Some user; targetId := None |}.

(** A world in which every call goes through: the bot is [BOT], the audit
    trail names [U1], the server has the backups [S3] (latest) and [S1]. *)
Definition world0 : World :=
  {| bot_user_id := Some "BOT";
     client_guild := fun id => if String.eqb id "G" then Some guildG else None;
     fetchAuditLogs := fun _ _ => inr [entryBy "U1"];
     members_fetch := fun _ _ => None;
     members_fetch_all := fun _ => inr [];
     fails := fun _ => None;
     created_role_id := fun _ _ => "R2";
     fetchWebhooks := fun _ => inr [];
     http_fetch := fun _ => None;
     db_whitelist := inr [];
     db_backups := inr [ {| b_id := "S3"; b_guild := "G" |};
                         {| b_id := "S1"; b_guild := "G" |} ];
     db_role_backup := fun _ _ => None;
     db_channel_backup := fun _ _ => None;
     db_channel_data := fun _ _ => inr None;
     db_emoji_backup := fun _ _ => None;
     db_emoji_data := fun _ _ => inr None;
     db_sticker_backup := fun _ _ => None;
     db_sticker_data := fun _ _ => inr None;
     db_guild_backup := fun _ => Some "server";
     db_members_with_role := fun _ _ => inr [];
     bm_restoreRole := fun _ _ => false;
     bm_createBackup := fun _ => inr "S4" |}.

Definition with_fails (f : Effect -> option Err) (w : World) : World :=
  {| bot_user_id := bot_user_id w; client_guild := client_guild w;
     fetchAuditLogs := fetchAuditLogs w; members_fetch := members_fetch w;
     members_fetch_all := members_fetch_all w; fails := f;
     created_role_id := created_role_id w; fetchWebhooks := fetchWebhooks w;
     http_fetch := http_fetch w; db_whitelist := db_whitelist w;
     db_backups := db_backups w; db_role_backup := db_role_backup w;
     db_channel_backup := db_channel_backup w; db_channel_data := db_channel_data w;
     db_emoji_backup := db_emoji_backup w; db_emoji_data := db_emoji_data w;
     db_sticker_backup := db_sticker_backup w; db_sticker_data := db_sticker_data w;
     db_guild_backup := db_guild_backup w;
     db_members_with_role := db_members_with_role w;
     bm_restoreRole := bm_restoreRole w; bm_createBackup := bm_createBackup w |}.

Definition with_whitelist (rows : list WhitelistRow) (w : World) : World :=
  {| bot_user_id := bot_user_id w; client_guild := client_guild w;
     fetchAuditLogs := fetchAuditLogs w; members_fetch := members_fetch w;
     members_fetch_all := members_fetch_all w; fails := fails w;
     created_role_id := created_role_id w; fetchWebhooks := fetchWebhooks w;
     http_fetch := http_fetch w; db_whitelist := inr rows;
     db_backups := db_backups w; db_role_backup := db_role_backup w;
     db_channel_backup := db_channel_backup w; db_channel_data := db_channel_data w;
     db_emoji_backup := db_emoji_backup w; db_emoji_data := db_emoji_data w;
     db_sticker_backup := db_sticker_backup w; db_sticker_data := db_sticker_data w;
     db_guild_backup := db_guild_backup w;
     db_members_with_role := db_members_with_role w;
     bm_restoreRole := bm_restoreRole w; bm_createBackup := bm_createBackup w |}.

Definition with_emoji_data (f : string -> string -> Err + option AssetData) (w : World)
    : World :=
  {| bot_user_id := bot_user_id w; client_guild := client_guild w;
     fetchAuditLogs := fetchAuditLogs w; members_fetch := members_fetch w;
     members_fetch_all := members_fetch_all w; fails := fails w;
     created_role_id := created_role_id w; fetchWebhooks := fetchWebhooks w;
     http_fetch := http_fetch w; db_whitelist := db_whitelist w;
     db_backups := db_backups w; db_role_backup := db_role_backup w;
     db_channel_backup := db_channel_backup w; db_channel_data := db_channel_data w;
     db_emoji_backup := db_emoji_backup w; db_emoji_data := f;
     db_sticker_backup := db_sticker_backup w; db_sticker_data := db_sticker_data w;
     db_guild_backup := db_guild_backup w;
     db_members_with_role := db_members_with_role w;
     bm_restoreRole := bm_restoreRole w; bm_createBackup := bm_createBackup w |}.

Definition with_restoreRole (f : string -> string -> bool) (w : World) : World :=
  {| bot_user_id := bot_user_id w; client_guild := client_guild w;
     fetchAuditLogs := fetchAuditLogs w; members_fetch := members_fetch w;
     members_fetch_all := members_fetch_all w; fails := fails w;
     created_role_id := created_role_id w; fetchWebhooks := fetchWebhooks w;
     http_fetch := http_fetch w; db_whitelist := db_whitelist w;
     db_backups := db_backups w; db_role_backup := db_role_backup w;
     db_channel_backup := db_channel_backup w; db_channel_data := db_channel_data w;
     db_emoji_backup := db_emoji_backup w; db_emoji_data := db_emoji_data w;
     db_sticker_backup := db_sticker_backup w; db_sticker_data := db_sticker_data w;
     db_guild_backup := db_guild_backup w;
     db_members_with_role := db_members_with_role w;
     bm_restoreRole := f; bm_createBackup := bm_createBackup w |}.

Definition with_members (ids : list string) (cache : list Member) (w : World) : World :=
  {| bot_user_id := bot_user_id w; client_guild := client_guild w;
     fetchAuditLogs := fetchAuditLogs w; members_fetch := members_fetch w;
     members_fetch_all := fun _ => inr cache; fails := fails w;
     created_role_id := created_role_id w; fetchWebhooks := fetchWebhooks w;
     http_fetch := http_fetch w; db_whitelist := db_whitelist w;
     db_backups := db_backups w; db_role_backup := db_role_backup w;
     db_channel_backup := db_channel_backup w; db_channel_data := db_channel_data w;
     db_emoji_backup := db_emoji_backup w; db_emoji_data := db_emoji_data w;
     db_sticker_backup := db_sticker_backup w; db_sticker_data := db_sticker_data w;
     db_guild_backup := db_guild_backup w;
     db_members_with_role := fun _ _ => inr ids;
     bm_restoreRole := bm_restoreRole w; bm_createBackup := bm_createBackup w |}.

(** The manager once [start] has loaded [config] for the target server [G]. *)
Definition started (config : GuardConfig) : State :=
  {| configs := {["G" := config]};
     targetGuildId := "G";
     selfActions := ∅;
     restorationInProgress := ∅;
     whitelistCache := ∅;
     recentRoleChanges := None;
     timers := [];
     now := 0;
     redis := ∅ |}.

Definition audited : GuardConfig := with_auditChannelId (Some "audit") createDefaultConfig.

Definition role (guild : Guild) (id name : string) (ref : nat) : Role :=
  {| role_id := id; role_guild := guild; role_name := name; role_color := 0;
     role_hoist := false; role_mentionable := false;
     role_permissions := {| perm_ref := ref; perm_bits := 0 |};
     role_members := [] |}.

Definition emoji (guild : Guild) (id name : string) : Emoji :=
  {| emoji_id := id; emoji_guild := guild; emoji_name := name |}.

Definition member (id : string) (roles : list (string * string)) : Member :=
  {| m_id := id; m_tag := id; m_roles := roles |}.

(** The role [R] of the server, renamed from [mods] three times within a
    second; the audit trail names [U1] each time. *)
Definition mods : Role := role guildG "R" "mods" 0.
Definition renamed1 : Role := role guildG "R" "mods-1" 1.
Definition renamed2 : Role := role guildG "R" "mods-2" 2.
Definition renamed3 : Role := role guildG "R" "mods-3" 3.

Definition laterRenames : list (World * Z * (Role * Role)) :=
  [ (world0, 400, (renamed1, renamed2)); (world0, 900, (renamed2, renamed3)) ].

Definition renameBurst : list (World * Z * (Role * Role)) :=
  (world0, 0, (mods, renamed1)) :: laterRenames.

(** A configuration whose lists name [notify] twice. *)
Definition notifiedTwice : GuardConfig :=
  with_actions {| onViolation := [NOTIFY; NOTIFY];
                  onSuspiciousActivity := [NOTIFY; NOTIFY] |} audited.

Definition partyEmoji : AssetData :=
  {| ad_name := "party"; ad_guildId := "G"; ad_url := "https://cdn.example/party.png" |}.

(** The emoji [E] was made after the backup [S1] and is in it; the latest
    backup [S3] does not have it. *)
Definition world_emoji_in_S1 : World :=
  with_emoji_data
    (fun backupId emojiId =>
       if String.eqb backupId "S1" && String.eqb emojiId "E"
       then inr (Some partyEmoji) else inr None)
    world0.

(** The role [R] can be restored from [S1] and not from [S3]. *)
Definition world_role_in_S1 : World :=
  with_restoreRole (fun backupId roleId => String.eqb backupId "S1" && String.eqb roleId "R")
    world0.

Definition activeRow (type target : string) : WhitelistRow :=
  {| wl_guild := "G"; wl_type := type; wl_target := target;
     wl_expires_at := None; wl_is_active := true |}.

(** [U1], whom the audit trail names, is on the whitelist as a user, and the
    deletion of emojis and of roles is on it as an action. *)
Definition world_whitelisted : World :=
  with_whitelist
    [activeRow "user" "U1"; activeRow "action" "emoji_delete";
     activeRow "action" "role_delete"]
    world_emoji_in_S1.

(** The platform refuses to grant a role to [user]. *)
Definition refuse_grant_to (user : string) (e : Effect) : option Err :=
  match e with
  | MemberRoleAdd _ u _ => if String.eqb u user then Some (PlatformError 50013) else None
  | _ => None
  end.

(** The counter store is down. *)
Definition redis_down (e : Effect) : option Err :=
  match e with
  | RedisGet _ | RedisSet _ _ | RedisSetEx _ _ _ => Some RedisError
  | _ => None
  end.

(** The members of the server cannot be fetched. *)
Definition members_unreachable (w : World) : World :=
  {| bot_user_id := bot_user_id w; client_guild := client_guild w;
     fetchAuditLogs := fetchAuditLogs w; members_fetch := members_fetch w;
     members_fetch_all := fun _ => inl NetworkError; fails := fails w;
     created_role_id := created_role_id w; fetchWebhooks := fetchWebhooks w;
     http_fetch := http_fetch w; db_whitelist := db_whitelist w;
     db_backups := db_backups w; db_role_backup := db_role_backup w;
     db_channel_backup := db_channel_backup w; db_channel_data := db_channel_data w;
     db_emoji_backup := db_emoji_backup w; db_emoji_data := db_emoji_data w;
     db_sticker_backup := db_sticker_backup w; db_sticker_data := db_sticker_data w;
     db_guild_backup := db_guild_backup w;
     db_members_with_role := db_members_with_role w;
     bm_restoreRole := bm_restoreRole w; bm_createBackup := bm_createBackup w |}.

(** The counter store reads and refuses to write. *)
Definition redis_read_only (e : Effect) : option Err :=
  match e with
  | RedisSet _ _ | RedisSetEx _ _ _ => Some RedisError
  | _ => None
  end.

(** The query on the whitelist table fails. *)
Definition whitelist_unreadable (w : World) : World :=
  {| bot_user_id := bot_user_id w; client_guild := client_guild w;
     fetchAuditLogs := fetchAuditLogs w; members_fetch := members_fetch w;
     members_fetch_all := members_fetch_all w; fails := fails w;
     created_role_id := created_role_id w; fetchWebhooks := fetchWebhooks w;
     http_fetch := http_fetch w; db_whitelist := inl DatabaseError;
     db_backups := db_backups w; db_role_backup := db_role_backup w;
     db_channel_backup := db_channel_backup w; db_channel_data := db_channel_data w;
     db_emoji_backup := db_emoji_backup w; db_emoji_data := db_emoji_data w;
     db_sticker_backup := db_sticker_backup w; db_sticker_data := db_sticker_data w;
     db_guild_backup := db_guild_backup w;
     db_members_with_role := db_members_with_role w;
     bm_restoreRole := bm_restoreRole w; bm_createBackup := bm_createBackup w |}.

Definition generalChannel : ChannelData :=
  {| cd_name := "general"; cd_type := 0; cd_parent_id := Some "CAT" |}.

(** The latest backup [S3] has the text channel [C], which was in the
    category [CAT]. *)
Definition world_channel_in_S3 : World :=
  {| bot_user_id := bot_user_id world0; client_guild := client_guild world0;
     fetchAuditLogs := fetchAuditLogs world0; members_fetch := members_fetch world0;
     members_fetch_all := members_fetch_all world0; fails := fails world0;
     created_role_id := created_role_id world0; fetchWebhooks := fetchWebhooks world0;
     http_fetch := http_fetch world0; db_whitelist := db_whitelist world0;
     db_backups := db_backups world0; db_role_backup := db_role_backup world0;
     db_channel_backup := db_channel_backup world0;
     db_channel_data :=
       (fun backupId channelId =>
          if String.eqb backupId "S3" && String.eqb channelId "C"
          then inr (Some generalChannel) else inr None);
     db_emoji_backup := db_emoji_backup world0; db_emoji_data := db_emoji_data world0;
     db_sticker_backup := db_sticker_backup world0;
     db_sticker_data := db_sticker_data world0;
     db_guild_backup := db_guild_backup world0;
     db_members_with_role := db_members_with_role world0;
     bm_restoreRole := bm_restoreRole world0; bm_createBackup := bm_createBackup world0 |}.

(** The audit trail cannot be read. *)
Definition audit_unreadable (w : World) : World :=
  {| bot_user_id := bot_user_id w; client_guild := client_guild w;
     fetchAuditLogs := fun _ _ => inl (PlatformError 50013);
     members_fetch := members_fetch w;
     members_fetch_all := members_fetch_all w; fails := fails w;
     created_role_id := created_role_id w; fetchWebhooks := fetchWebhooks w;
     http_fetch := http_fetch w; db_whitelist := db_whitelist w;
     db_backups := db_backups w; db_role_backup := db_role_backup w;
     db_channel_backup := db_channel_backup w; db_channel_data := db_channel_data w;
     db_emoji_backup := db_emoji_backup w; db_emoji_data := db_emoji_data w;
     db_sticker_backup := db_sticker_backup w; db_sticker_data := db_sticker_data w;
     db_guild_backup := db_guild_backup w;
     db_members_with_role := db_members_with_role w;
     bm_restoreRole := bm_restoreRole w; bm_createBackup := bm_createBackup w |}.

Definition guildMember (id : string) (created : Z) (roles : list string) : GuildMember :=
  {| member_id := id; member_guild := guildG; member_tag := id;
     member_createdTimestamp := created; member_partial := false;
     member_roles := roles |}.

Definition channel (guild : Guild) (id name : string) : Channel :=
  {| channel_id := id; channel_guild := guild; channel_name := name;
     channel_topic := None; channel_nsfw := false; channel_rateLimitPerUser := 0 |}.

End Scenario.

(** ** Vocabulary of the statements *)

Module Vocabulary.

(** The action list as the specification words it: [onViolation] for
    critical and high, [onSuspiciousActivity] for medium and low. *)
Definition spec_actionsFor (config : GuardConfig) (severity : Severity) : list GuardAction :=
  match severity with
  | critical | high => onViolation (actions config)
  | medium | low => onSuspiciousActivity (actions config)
  end.

(** The call that grants the role to a member, and whether it goes through. *)
Definition grant_call (guildId liveRoleId : string) (member : Member) : Effect :=
  MemberRoleAdd guildId (m_id member) liveRoleId.

Definition granted (w : World) (guildId liveRoleId : string) (member : Member) : bool :=
  match fails w (grant_call guildId liveRoleId member) with
  | Some _ => false
  | None => true
  end.

Definition count_granted (w : World) (guildId liveRoleId : string) (l : list Member) : nat :=
  length (List.filter (granted w guildId liveRoleId) l).

(** The counters once the members of [l] have been dealt with. *)
Definition add_counts (w : World) (guildId liveRoleId : string)
    (c : BackupManager.Counters) (l : list Member) : BackupManager.Counters :=
  {| BackupManager.processedCount := (BackupManager.processedCount c + length l)%nat;
     BackupManager.successCount :=
       (BackupManager.successCount c + count_granted w guildId liveRoleId l)%nat;
     BackupManager.errorCount :=
       (BackupManager.errorCount c
        + (length l - count_granted w guildId liveRoleId l))%nat |}.

(** The members a role sync is for, as the specification words them: the
    members of the server, in the order of the cache, whom the snapshot lists
    for the role and who do not hold the role. *)
Definition spec_targets (listed : list string) (liveRoleId : string)
    (cache : list Member) : list Member :=
  filter (fun member => m_id member ∈ listed /\ liveRoleId ∉ (m_roles member).*1) cache.

(** The outcome of a computation that ran once the effects [t1] had been
    made. *)
Definition after {A} (t1 : list Effect) (x : Res A * State * list Effect)
    : Res A * State * list Effect :=
  match x with
  | (r, s, t) => (r, s, t1 ++ t)
  end.

(** What a computation keeps: [R] relates the state it starts from to the
    state it ends in, and [P] holds of every effect it has, whether it returns
    or throws. *)
Definition keeps {A} (R : State -> State -> Prop) (P : Effect -> Prop) (m : M A) : Prop :=
  forall w s, match m w s with (_, s', tr) => R s s' /\ Forall P tr end.

(** The fields no timer and no restore touches. *)
Definition stable (s s' : State) : Prop :=
  configs s' = configs s
  /\ recentRoleChanges s' = recentRoleChanges s
  /\ now s' = now s
  /\ targetGuildId s' = targetGuildId s.

(** Only the whitelist cache may differ. *)
Definition cache_only (s s' : State) : Prop :=
  s' = set_whitelistCache (fun _ => whitelistCache s') s.

(** An effect that is neither a violation embed nor the record of a
    violation. *)
Definition plain (e : Effect) : Prop :=
  Trace.is_violation_post e = false /\ Trace.is_log e = false.

(** The violation [handleRoleUpdate] records for the update that made
    [newRole], attributed to [executorId]. *)
Definition roleUpdateViolation (newRole : GuardManager.Role) (executorId : string)
    : Violation :=
  {| v_guildId := g_id (GuardManager.role_guild newRole);
     v_userId := executorId;
     v_violationType := "role_update_blocked";
     v_description :=
       "Yetkisiz rol " +:+ GuardManager.quoted (GuardManager.role_name newRole)
       +:+ " degistirildi ve otomatik olarak geri yuklendi";
     v_severity := medium;
     v_targetId := Some (GuardManager.role_id newRole) |}.

(** The debounce fingerprint of a role update: server, role and the executor
    the audit trail names at that moment. *)
Definition same_fingerprint (guildId roleId executorId : string)
    (w : World) (newRole : GuardManager.Role) : Prop :=
  g_id (GuardManager.role_guild newRole) = guildId
  /\ GuardManager.role_id newRole = roleId
  /\ forall e es,
       fetchAuditLogs w guildId RoleUpdate = inr (e :: es) ->
       GuardManager.executorOf e = executorId.

(** A role update as a delivery. *)
Definition roleUpdateAt (x : World * Z * (GuardManager.Role * GuardManager.Role))
    : World * Z * GuardManager.GatewayEvent :=
  match x with
  | (w, t, (oldRole, newRole)) => (w, t, GuardManager.roleUpdate oldRole newRole)
  end.

(** A computation that ends without an exception, whatever the world
    answers. *)
Definition returns {A} (m : M A) : Prop :=
  forall w s, exists a s' tr, m w s = (Val a, s', tr).

(** The server and the entity whose marker the handler of an event looks
    for, for the events whose handler looks for one. *)
Definition echo_target (ev : GuardManager.GatewayEvent) : option (string * string) :=
  match ev with
  | GuardManager.roleCreate r | GuardManager.roleUpdate _ r | GuardManager.roleDelete r =>
      Some (g_id (GuardManager.role_guild r), GuardManager.role_id r)
  | GuardManager.channelCreate (GuardManager.GuildChannel c)
  | GuardManager.channelUpdate _ (GuardManager.GuildChannel c)
  | GuardManager.channelDelete (GuardManager.GuildChannel c) =>
      Some (g_id (GuardManager.channel_guild c), GuardManager.channel_id c)
  | GuardManager.emojiCreate e | GuardManager.emojiUpdate _ e | GuardManager.emojiDelete e =>
      Some (g_id (GuardManager.emoji_guild e), GuardManager.emoji_id e)
  | GuardManager.stickerCreate (GuardManager.GuildSticker x)
  | GuardManager.stickerUpdate _ (GuardManager.GuildSticker x)
  | GuardManager.stickerDelete (GuardManager.GuildSticker x) =>
      Some (g_id (GuardManager.sticker_guild x), GuardManager.sticker_id x)
  | _ => None
  end.

(** The events whose handler calls the counter store. *)
Definition counts_invites (ev : GuardManager.GatewayEvent) : bool :=
  match ev with
  | GuardManager.inviteCreate _ => true
  | _ => false
  end.

(** The calls of a loop that has no [try] of its own around the call: the
    loop ends with the first call that fails. *)
Fixpoint upto_first_failure (w : World) (calls : list Effect) : list Effect :=
  match calls with
  | [] => []
  | e :: rest =>
      match fails w e with
      | Some _ => [e]
      | None => e :: upto_first_failure w rest
      end
  end.

(** Moments that follow one another, each less than [d] after the one
    before; [t] is the moment before the first. *)
Fixpoint within (d t : Z) (times : list Z) : Prop :=
  match times with
  | [] => True
  | t' :: rest => t <= t' < t + d /\ within d t' rest
  end.

(** The state once [userId] has been counted at each of the moments
    [times]. *)
Fixpoint increments (w : World) (userId guildId : string) (ttl : Z) (times : list Z)
    (s : State) : State :=
  match times with
  | [] => s
  | t :: rest =>
      match RedisManager.incrementUserViolationCount userId guildId ttl w (set_now t s) with
      | (_, s1, _) => increments w userId guildId ttl rest s1
      end
  end.

(** The counter under [key] stands at [n]: the key holds the decimal text of
    [n], as [incrementUserViolationCount] and [setUserViolationCount] write
    it, or [n] is 0 and no live key is there.  [n] is taken in the range where
    JavaScript numbers are exact. *)
Definition stands_at (s : State) (key : string) (n : Z) : Prop :=
  - 2 ^ 53 <= n < 2 ^ 53
  /\ (RedisManager.live s key = Some (JS.toString n)
      \/ (n = 0 /\ RedisManager.live s key = None)).

(** The member events the listeners leave aside because a member came
    without its data. *)
Definition partial_member (ev : GuardManager.GatewayEvent) : bool :=
  match ev with
  | GuardManager.guildMemberUpdate oldMember newMember =>
      GuardManager.member_partial oldMember || GuardManager.member_partial newMember
  | GuardManager.guildMemberRemove member => GuardManager.member_partial member
  | _ => false
  end.

(** A notice to the audit channel that says a restore went through. *)
Definition reports_success (e : Effect) : bool :=
  match e with
  | SendRestoreEmbed _ _ _ true => true
  | _ => false
  end.

(** The backup a restore starts from: the one it is given, or else the
    latest backup of the server. *)
Definition finalBackupId (w : World) (guild : Guild) (backupId : option string)
    : option string :=
  if JS.truthy backupId then backupId
  else option_map b_id (GuardManager.getLatestBackup w (g_id guild)).

(** What happens to the state between two listeners: time passes to a
    moment, at which the timers that are due fire; the full cleanup of
    [startMonitoring] runs (every 300 s); the sweep of the whitelist cache
    runs (every 60 s). *)
Inductive Tick :=
  | passes (t : Z)
  | fullCleanup
  | cacheSweep.

Definition tick (x : Tick) (s : State) : State :=
  match x with
  | passes t => advance t s
  | fullCleanup => GuardManager.performFullCleanup s
  | cacheSweep => GuardManager.cleanupWhitelistCache s
  end.

Definition ticks (l : list Tick) (s : State) : State :=
  fold_left (fun s x => tick x s) l s.

(** A tick that cannot take away a marker whose own timer is due at [due],
    set while the timers [older] were pending: time passing to a moment
    before [due] at which no timer of [older] for the same key is due, or a
    sweep of the cache.  The full cleanup is no such tick. *)
Definition spares (key : string) (due : Z) (older : list (Z * TimerAction)) (x : Tick)
    : Prop :=
  match x with
  | passes t => t < due /\ Forall (fun p => snd p = DeleteSelfAction key -> t < fst p) older
  | fullCleanup => False
  | cacheSweep => True
  end.

(** The clock does not move. *)
Definition same_now (s s' : State) : Prop := now s' = now s.

(** What the response to a violation may do to the state: add markers to
    the set of self-actions and arm timers.  The configurations, the locks,
    the cache of whitelist answers, the map of recent changes, the clock and
    the counter store stay as they are. *)
Definition marks_only (s s' : State) : Prop :=
  configs s' = configs s
  /\ targetGuildId s' = targetGuildId s
  /\ restorationInProgress s' = restorationInProgress s
  /\ whitelistCache s' = whitelistCache s
  /\ recentRoleChanges s' = recentRoleChanges s
  /\ now s' = now s
  /\ redis s' = redis s
  /\ selfActions s ⊆ selfActions s'
  /\ exists armed, timers s' = timers s ++ armed.

(** The events whose handler keeps no state of its own besides the
    markers. *)
Definition marks_at_most (ev : GuardManager.GatewayEvent) : bool :=
  match ev with
  | GuardManager.roleUpdate _ _ | GuardManager.roleDelete _
  | GuardManager.channelUpdate _ _ | GuardManager.channelDelete _
  | GuardManager.inviteCreate _ => false
  | _ => true
  end.

(** The one event the handlers treat as critical. *)
Definition deletes_server (ev : GuardManager.GatewayEvent) : bool :=
  match ev with
  | GuardManager.guildDelete _ => true
  | _ => false
  end.

(** An effect that is not the record of a critical violation. *)
Definition not_critical (e : Effect) : Prop :=
  match e with
  | LogViolation v => v_severity v <> critical
  | _ => True
  end.

(** No constraint on the state. *)
Definition any_state (s s' : State) : Prop := True.

End Vocabulary.

(** * Properties *)

Import GuardManager.

(** ** Laws of the monad *)

Lemma bind_get {A} (f : State -> M A) (w : World) (s : State) :
  bind get f w s = f s w s.
Proof. unfold bind, get. destruct (f s w s) as [[r s2] t2]. reflexivity. Qed.

Lemma bind_ask {A} (f : World -> M A) (w : World) (s : State) :
  bind ask f w s = f w w s.
Proof. unfold bind, ask. destruct (f w w s) as [[r s2] t2]. reflexivity. Qed.

Lemma bind_ret {A B} (a : A) (f : A -> M B) (w : World) (s : State) :
  bind (ret a) f w s = f a w s.
Proof. unfold bind, ret. destruct (f a w s) as [[r s2] t2]. reflexivity. Qed.

Lemma bind_run {A B} (m : M A) (f : A -> M B) (w : World) (s s1 : State)
    (a : A) (t1 : list Effect) :
  m w s = (Val a, s1, t1) ->
  bind m f w s = Vocabulary.after t1 (f a w s1).
Proof.
  intros H. unfold bind, Vocabulary.after. rewrite H.
  destruct (f a w s1) as [[r s2] t2]. reflexivity.
Qed.

Lemma after_nil {A} (x : Res A * State * list Effect) : Vocabulary.after [] x = x.
Proof. destruct x as [[r s] t]. reflexivity. Qed.

(** ** The listeners look at the target server only *)

Lemma eqb_other (a b : string) : Some a <> Some b -> String.eqb a b = false.
Proof. intros H. apply String.eqb_neq. congruence. Qed.

(** C9.  An event of a server other than the target one (or of no server at
    all) leaves the listener without a state change and without an effect:
    no audit lookup, no mutation, no record of a violation. *)
Theorem dispatch_other_guild_silent (w : World) (s : State) (ev : GatewayEvent) :
  event_guild_id ev <> Some (targetGuildId s) ->
  dispatch ev w s = (Val tt, s, []).
Proof.
  intros H. unfold dispatch, bind, get.
  destruct ev as [o n|g|c|o c|c|r|o r|r|m|o m|m|e|o e|e|x|o x|x|c|i|i];
    try destruct c; try destruct x; try destruct i;
    cbn [event_guild_id] in H; try reflexivity;
    rewrite (eqb_other _ _ H); reflexivity.
Qed.

Lemma dispatch_other_guild_silent_witness :
  dispatch (roleDelete (Scenario.role Scenario.guildOther "R9" "admins" 0))
    Scenario.world0 (Scenario.started Scenario.audited)
  = (Val tt, Scenario.started Scenario.audited, []).
Proof.
  apply dispatch_other_guild_silent. cbn. discriminate.
Defined.

(** ** The action list of a violation *)

(** C3, as stated, fails: with the default configuration a violation of
    severity high runs [onSuspiciousActivity], which has no restore in it. *)
Lemma actionsFor_high_counterexample :
  ~ (forall config severity, actionsFor config severity = Vocabulary.spec_actionsFor config severity).
Proof.
  intros H. specialize (H Scenario.createDefaultConfig high). discriminate H.
Qed.

(** C3, amended.  [handleViolation] records the violation, runs the actions
    of [onViolation] when the severity is critical and those of
    [onSuspiciousActivity] when it is high, medium or low, then notifies. *)
Theorem handleViolation_action_list
    (guild : Guild) (userId violationType description : string) (severity : Severity)
    (target : option string) (w : World) (s : State) (config : GuardConfig) :
  configs s !! g_id guild = Some config ->
  let violation :=
    {| v_guildId := g_id guild; v_userId := userId; v_violationType := violationType;
       v_description := description; v_severity := severity; v_targetId := target |} in
  let list :=
    match severity with
    | critical => onViolation (actions config)
    | high | medium | low => onSuspiciousActivity (actions config)
    end in
  handleViolation guild userId violationType description severity target w s
  = try_catch
      (bind (emit (LogViolation violation)) (fun _ =>
       bind (for_each list (fun action => executeAction action guild userId violation))
         (fun _ => sendNotification guild userId violationType description severity)))
      (fun _ => ret tt) w s.
Proof.
  intros H violation list.
  unfold handleViolation, try_catch. rewrite bind_get, H.
  destruct severity; reflexivity.
Qed.

Lemma handleViolation_action_list_witness :
  handleViolation Scenario.guildG "U1" "role_delete_blocked" "d" high (Some "R")
    Scenario.world0 (Scenario.started Scenario.audited)
  = try_catch
      (bind (emit (LogViolation
                     {| v_guildId := "G"; v_userId := "U1";
                        v_violationType := "role_delete_blocked"; v_description := "d";
                        v_severity := high; v_targetId := Some "R" |})) (fun _ =>
       bind (for_each [LOG; NOTIFY]
               (fun action => executeAction action Scenario.guildG "U1"
                  {| v_guildId := "G"; v_userId := "U1";
                     v_violationType := "role_delete_blocked"; v_description := "d";
                     v_severity := high; v_targetId := Some "R" |}))
         (fun _ => sendNotification Scenario.guildG "U1" "role_delete_blocked" "d" high)))
      (fun _ => ret tt) Scenario.world0 (Scenario.started Scenario.audited).
Proof.
  apply (handleViolation_action_list Scenario.guildG "U1" "role_delete_blocked" "d" high
           (Some "R") Scenario.world0 (Scenario.started Scenario.audited) Scenario.audited).
  reflexivity.
Defined.

(** ** The counter store *)

Lemma parseInt_toString (n : Z) : JS.parseInt (JS.toString n) = Some n.
Proof.
  unfold JS.parseInt, JS.toString.
  rewrite NilZero.isi.
  - cbn. now rewrite DecimalZ.of_to.
  - destruct n; cbn; try discriminate.
    intros H. injection H as H. now apply DecimalPos.Unsigned.to_uint_nonnil in H.
  - destruct n; cbn; try discriminate.
    intros H. injection H as H. now apply DecimalPos.Unsigned.to_uint_nonnil in H.
Qed.

Lemma toString_truthy (n : Z) : JS.truthy (Some (JS.toString n)) = true.
Proof.
  cbn. destruct (String.eqb_spec (JS.toString n) "") as [E|]; [|reflexivity].
  pose proof (parseInt_toString n) as H. rewrite E in H. discriminate H.
Qed.

Lemma count_of_toString (n : Z) :
  RedisManager.count_of (Some (JS.toString n)) = Some n.
Proof.
  unfold RedisManager.count_of. rewrite toString_truthy.
  cbn [JS.str_or]. destruct (String.eqb_spec (JS.toString n) "") as [E|].
  - pose proof (toString_truthy n) as H. cbn in H. rewrite E in H. discriminate H.
  - apply parseInt_toString.
Qed.

Lemma stands_at_count_of (s : State) (key : string) (n : Z) :
  Vocabulary.stands_at s key n ->
  RedisManager.count_of (RedisManager.live s key) = Some n.
Proof.
  intros [_ [H|[-> H]]]; rewrite H; [apply count_of_toString | reflexivity].
Qed.

(** What one round of get, add one, set does to the store, for any count the
    old value stands for. *)
Lemma incrementUserViolationCount_run
    (w : World) (s : State) (userId guildId : string) (ttl : Z) (n : Z) :
  let key := RedisManager.createGuardKey "violations" guildId userId None in
  fails w (RedisGet key) = None ->
  fails w (RedisSetEx key ttl (JS.toString (n + 1))) = None ->
  0 < ttl ->
  RedisManager.count_of (RedisManager.live s key) = Some n ->
  RedisManager.incrementUserViolationCount userId guildId ttl w s
  = (Val (Some (n + 1)),
     set_redis (fun r => <[key := (JS.toString (n + 1), Some (now s + 1000 * ttl))]> r) s,
     [RedisGet key; RedisSetEx key ttl (JS.toString (n + 1))]).
Proof.
  intros key Hget Hset Httl Hcount.
  unfold RedisManager.incrementUserViolationCount, RedisManager.get, RedisManager.set,
    RedisManager.executeRedisOperation, RedisManager.client_get, RedisManager.client_setEx,
    call.
  subst key.
  unfold bind, try_catch, emit, ask, get, ret. cbn in *. rewrite Hget. cbn.
  rewrite Hcount. cbn.
  destruct (Z.eqb_spec ttl 0) as [E|_]; [lia|].
  cbn. rewrite Hset. cbn.
  destruct (Z.leb_spec ttl 0) as [E|_]; [lia|].
  reflexivity.
Qed.

(** C8, as stated, fails.  A counter written at time 0 with a TTL of 3600 s
    and incremented 100 s later has 3500 s left before the call and 3600 s
    after it: the remaining TTL is not preserved. *)
Lemma increment_preserves_ttl_counterexample :
  let key := RedisManager.createGuardKey "violations" "G" "U1" None in
  let s := set_now 100000
             (set_redis (fun r => <[key := ("1", Some 3600000)]> r)
                (Scenario.started Scenario.audited)) in
  match RedisManager.incrementUserViolationCount "U1" "G" 3600 Scenario.world0 s with
  | (r, s', _) =>
      r = Val (Some 2)
      /\ RedisManager.live s' key = Some "2"
      /\ RedisManager.pttl s key = Some 3500000
      /\ RedisManager.pttl s' key = Some 3600000
      /\ RedisManager.pttl s' key <> RedisManager.pttl s key
  end.
Proof. vm_compute. repeat split; discriminate. Qed.

(** C8, amended.  Incrementing a key that holds the count [n] stores [n + 1]
    and gives the key the full TTL of the call again: the time the key had
    left is replaced, not kept.  The other keys are untouched.  [n] is taken
    in the range where JavaScript numbers are exact. *)
Theorem incrementUserViolationCount_restarts_ttl
    (w : World) (s : State) (userId guildId : string) (ttl : Z) (n : Z) :
  let key := RedisManager.createGuardKey "violations" guildId userId None in
  fails w (RedisGet key) = None ->
  fails w (RedisSetEx key ttl (JS.toString (n + 1))) = None ->
  0 < ttl ->
  - 2 ^ 53 <= n < 2 ^ 53 ->
  RedisManager.live s key = Some (JS.toString n) ->
  exists s',
    RedisManager.incrementUserViolationCount userId guildId ttl w s
    = (Val (Some (n + 1)), s',
       [RedisGet key; RedisSetEx key ttl (JS.toString (n + 1))])
    /\ RedisManager.live s' key = Some (JS.toString (n + 1))
    /\ RedisManager.pttl s' key = Some (1000 * ttl)
    /\ now s' = now s
    /\ forall k, k <> key -> redis s' !! k = redis s !! k.
Proof.
  intros key Hget Hset Httl _ Hlive.
  eexists. split.
  - apply incrementUserViolationCount_run; try assumption.
    fold key. rewrite Hlive. apply count_of_toString.
  - unfold RedisManager.live, RedisManager.pttl. cbn. fold key.
    rewrite lookup_insert_eq.
    destruct (Z.leb_spec (now s + 1000 * ttl) (now s)) as [E|_]; [lia|].
    repeat split.
    + f_equal. lia.
    + intros k Hk. now rewrite lookup_insert_ne.
Qed.

Lemma incrementUserViolationCount_restarts_ttl_witness :
  let key := RedisManager.createGuardKey "violations" "G" "U1" None in
  let s := set_now 100000
             (set_redis (fun r => <[key := ("1", Some 3600000)]> r)
                (Scenario.started Scenario.audited)) in
  exists s',
    RedisManager.incrementUserViolationCount "U1" "G" 3600 Scenario.world0 s
    = (Val (Some (1 + 1)), s', [RedisGet key; RedisSetEx key 3600 (JS.toString (1 + 1))])
    /\ RedisManager.live s' key = Some (JS.toString (1 + 1))
    /\ RedisManager.pttl s' key = Some (1000 * 3600)
    /\ now s' = now s
    /\ forall k, k <> key -> redis s' !! k = redis s !! k.
Proof.
  intros key s.
  apply (incrementUserViolationCount_restarts_ttl Scenario.world0 s "U1" "G" 3600 1).
  - reflexivity.
  - reflexivity.
  - lia.
  - lia.
  - vm_compute. reflexivity.
Defined.

(** The other half of the store's contract: an absent (or expired) key is
    set to 1 with the TTL of the call. *)
Lemma incrementUserViolationCount_absent
    (w : World) (s : State) (userId guildId : string) (ttl : Z) :
  let key := RedisManager.createGuardKey "violations" guildId userId None in
  fails w (RedisGet key) = None ->
  fails w (RedisSetEx key ttl "1") = None ->
  0 < ttl ->
  RedisManager.live s key = None ->
  RedisManager.incrementUserViolationCount userId guildId ttl w s
  = (Val (Some 1),
     set_redis (fun r => <[key := ("1", Some (now s + 1000 * ttl))]> r) s,
     [RedisGet key; RedisSetEx key ttl "1"]).
Proof.
  intros key Hget Hset Httl Hlive.
  apply (incrementUserViolationCount_run w s userId guildId ttl 0); try assumption.
  fold key. rewrite Hlive. reflexivity.
Qed.

(** ** Running the primitives *)

Lemma call_run (e : Effect) (w : World) (s : State) :
  call e w s
  = (match fails w e with Some err => Exn err | None => Val tt end, s, [e]).
Proof.
  unfold call, bind, emit, ask, throw, ret. cbn.
  destruct (fails w e); reflexivity.
Qed.

Lemma bind_val {A B} (m : M A) (f : A -> M B) (w : World) (s s1 s2 : State)
    (a : A) (r : Res B) (t1 t2 : list Effect) :
  m w s = (Val a, s1, t1) ->
  f a w s1 = (r, s2, t2) ->
  bind m f w s = (r, s2, t1 ++ t2).
Proof. intros H1 H2. unfold bind. rewrite H1, H2. reflexivity. Qed.

Lemma bind_exn {A B} (m : M A) (f : A -> M B) (w : World) (s s1 : State)
    (e : Err) (t1 : list Effect) :
  m w s = (Exn e, s1, t1) ->
  bind m f w s = (Exn e, s1, t1).
Proof. intros H1. unfold bind. rewrite H1. reflexivity. Qed.

(** ** Bulk role assignment *)

Section FastAssign.

Local Open Scope nat_scope.

Import BackupManager.

Lemma chunks_from_concat {A} (size : nat) (arr : list A) :
  0 < size ->
  forall fuel i, length arr - i <= fuel ->
  concat (chunks_from fuel size i arr) = skipn i arr.
Proof.
  intros Hsize fuel. induction fuel as [|fuel IH]; intros i Hfuel; cbn [chunks_from].
  - symmetry. apply skipn_all2. lia.
  - destruct (Nat.ltb_spec i (length arr)) as [Hi|Hi].
    + cbn [concat]. rewrite IH by lia. unfold slice.
      replace (i + size - i) with size by lia.
      replace (i + size) with (size + i) by lia.
      rewrite <- skipn_skipn. apply firstn_skipn.
    + symmetry. apply skipn_all2. lia.
Qed.

(** The batches, put end to end, are the array: the loop drops no member and
    repeats none. *)
Lemma chunks_concat {A} (size : nat) (arr : list A) :
  0 < size -> concat (chunks size arr) = arr.
Proof.
  intros Hsize. unfold chunks. rewrite chunks_from_concat by lia. reflexivity.
Qed.

Variable w : World.
Variables guildId liveRoleId : string.

Local Abbreviation grant_call := (Vocabulary.grant_call guildId liveRoleId).
Local Abbreviation granted := (Vocabulary.granted w guildId liveRoleId).
Local Abbreviation count_granted := (Vocabulary.count_granted w guildId liveRoleId).
Local Abbreviation add_counts := (Vocabulary.add_counts w guildId liveRoleId).

Lemma grant_run (member : Member) (s : State) :
  grant guildId liveRoleId member w s = (Val (granted member), s, [grant_call member]).
Proof.
  unfold grant, try_catch, bind, ret, granted, grant_call. rewrite call_run.
  destruct (fails w _); reflexivity.
Qed.

Lemma map_m_grant_run (batch : list Member) (s : State) :
  map_m (grant guildId liveRoleId) batch w s
  = (Val (map granted batch), s, map grant_call batch).
Proof.
  induction batch as [|member batch IH]; [reflexivity|].
  cbn [map_m map]. unfold bind at 1. rewrite grant_run.
  unfold bind at 1. rewrite IH. unfold ret. cbn. now rewrite app_nil_r.
Qed.

Lemma count_granted_le (l : list Member) : count_granted l <= length l.
Proof. unfold count_granted. apply List.filter_length_le. Qed.

Lemma count_granted_app (l1 l2 : list Member) :
  count_granted (l1 ++ l2) = count_granted l1 + count_granted l2.
Proof. unfold count_granted. rewrite List.filter_app. apply length_app. Qed.

Lemma filter_id_map_granted (l : list Member) :
  length (List.filter (fun r : bool => r) (map granted l)) = count_granted l.
Proof.
  unfold count_granted. induction l as [|m l IH]; [reflexivity|].
  cbn. destruct (granted m); cbn; now rewrite IH.
Qed.

Lemma add_counts_app (c : Counters) (l1 l2 : list Member) :
  add_counts (add_counts c l1) l2 = add_counts c (l1 ++ l2).
Proof.
  unfold add_counts. cbn. rewrite count_granted_app, length_app.
  pose proof (count_granted_le l1). pose proof (count_granted_le l2).
  f_equal; lia.
Qed.

Lemma add_counts_nil (c : Counters) : add_counts c [] = c.
Proof. destruct c. unfold add_counts. cbn. f_equal; lia. Qed.

Lemma run_batch_run (c : Counters) (batch : list Member) (s : State) :
  run_batch guildId liveRoleId c batch w s
  = (Val (add_counts c batch), s, map grant_call batch).
Proof.
  unfold run_batch, bind, ret. rewrite map_m_grant_run.
  rewrite filter_id_map_granted, length_map, app_nil_r. reflexivity.
Qed.

Lemma fold_batches_run (batches : list (list Member)) (c : Counters) (s : State) :
  fold_m (run_batch guildId liveRoleId) c batches w s
  = (Val (add_counts c (concat batches)), s, map grant_call (concat batches)).
Proof.
  revert c. induction batches as [|batch batches IH]; intros c.
  - cbn. now rewrite add_counts_nil.
  - cbn [fold_m concat]. unfold bind. rewrite run_batch_run, IH.
    now rewrite add_counts_app, map_app.
Qed.

Lemma fold_groups_run (groups : list (list (list Member))) (c : Counters) (s : State) :
  fold_m (fun c currentBatches => fold_m (run_batch guildId liveRoleId) c currentBatches)
    c groups w s
  = (Val (add_counts c (concat (concat groups))), s,
     map grant_call (concat (concat groups))).
Proof.
  revert c. induction groups as [|group groups IH]; intros c.
  - cbn. now rewrite add_counts_nil.
  - cbn [fold_m concat]. unfold bind. rewrite fold_batches_run, IH.
    now rewrite add_counts_app, concat_app, map_app.
Qed.

Lemma includes_elem_of (l : list string) (x : string) :
  includes l x = true <-> x ∈ l.
Proof.
  unfold includes. rewrite existsb_exists, list_elem_of_In. split.
  - intros (y & Hin & Heq). apply String.eqb_eq in Heq. now subst.
  - intros Hin. exists x. split; [exact Hin | apply String.eqb_refl].
Qed.

Lemma has_role_elem_of (member : Member) (roleId : string) :
  has_role member roleId = true <-> roleId ∈ (m_roles member).*1.
Proof.
  unfold has_role. rewrite existsb_exists, list_elem_of_fmap. split.
  - intros (r & Hin & Heq). apply String.eqb_eq in Heq.
    exists r. split; [now symmetry | now apply list_elem_of_In].
  - intros (r & Heq & Hin). exists r. split; [now apply list_elem_of_In|].
    apply String.eqb_eq. now symmetry.
Qed.

(** The filter of the code selects the members the specification speaks
    of, in the same order. *)
Lemma select_members_spec (membersWithRole : list string) (cache : list Member) :
  select_members membersWithRole liveRoleId cache
  = Vocabulary.spec_targets membersWithRole liveRoleId cache.
Proof.
  unfold select_members, Vocabulary.spec_targets.
  induction cache as [|member cache IH]; [reflexivity|].
  cbn [List.filter]. rewrite filter_cons, IH.
  destruct (decide _) as [[Hl Hr]|Hn].
  - apply includes_elem_of in Hl. rewrite Hl.
    destruct (has_role member liveRoleId) eqn:E; [|reflexivity].
    apply has_role_elem_of in E. contradiction.
  - destruct (includes membersWithRole (m_id member)) eqn:El; [|reflexivity].
    destruct (has_role member liveRoleId) eqn:Er; [reflexivity|].
    exfalso. apply Hn. split; [now apply includes_elem_of|].
    intros Hin. apply has_role_elem_of in Hin. congruence.
Qed.


End FastAssign.


Example fastAssign_example :
  let cache := [Scenario.member "a" []; Scenario.member "b" [("R2", "mods")];
                Scenario.member "c" []] in
  let w := Scenario.with_fails (Scenario.refuse_grant_to "c")
             (Scenario.with_members ["a"; "b"; "c"] cache Scenario.world0) in
  BackupManager.fastAssignRoleToMembers "G" "R2" "S3" "R" w
    (Scenario.started Scenario.audited)
  = (Val (BackupManager.Completed 2 1 1), Scenario.started Scenario.audited,
     [MemberRoleAdd "G" "a" "R2"; MemberRoleAdd "G" "c" "R2"]).
Proof. vm_compute. reflexivity. Qed.

(** ** The handlers, step by step *)

Lemma getAuditLog_run (guild : Guild) (action : AuditLogEvent) (w : World) (s : State) :
  getAuditLog guild action w s
  = (Val (match fetchAuditLogs w (g_id guild) action with
          | inl _ => None
          | inr entries => head entries
          end), s, [FetchAuditLogs (g_id guild) action]).
Proof.
  unfold getAuditLog, try_catch, bind, emit, ask, lift_sum, throw, ret. cbn.
  destruct (fetchAuditLogs w (g_id guild) action); reflexivity.
Qed.

(** ** The echo of a restore of the server's settings *)

(** C1 fails on the code.  The first delivery is a change of the settings by
    [U1]: the guard restores them and marks [G:guild_settings].  Half a second
    later the echo of its own edit arrives while the audit trail still names
    [U1].  The marker is in the set, yet [handleGuildUpdate] does not look at
    it: it asks the audit trail, edits the server again and records a second
    violation. *)
Theorem guild_settings_echo_not_dropped :
  let change := guildUpdate Scenario.guildG Scenario.guildG in
  match deliver Scenario.world0 0 change (Scenario.started Scenario.audited) with
  | (_, s1, tr1) =>
      In (GuildEdit "G" "server") tr1
      /\ isSelfAction (advance 500 s1) "G" "guild_settings" = true
      /\ match deliver Scenario.world0 500 change s1 with
         | (_, _, tr2) =>
             List.filter Trace.acts tr2 = List.filter Trace.acts tr1
             /\ In (FetchAuditLogs "G" GuildUpdate) tr2
             /\ In (GuildEdit "G" "server") tr2
             /\ length (Trace.logged_violations tr2) = 1%nat
         end
  end.
Proof. vm_compute. intuition. Qed.

(** The handlers that do have the gate drop the echo there: an update of a
    role whose key is marked stops before the audit lookup. *)
Lemma handleRoleUpdate_self_check (oldRole newRole : Role) (w : World) (s : State) :
  isSelfAction s (g_id (role_guild newRole)) (role_id newRole) = true ->
  handleRoleUpdate oldRole newRole w s = (Val tt, s, []).
Proof.
  intros H. unfold handleRoleUpdate. rewrite bind_get, bind_ask.
  destruct (configs s !! g_id (role_guild newRole)) as [config|]; [|reflexivity].
  destruct (negb (enabled config) || negb (p_roles (protection config))); [reflexivity|].
  rewrite H. reflexivity.
Qed.

Lemma handleGenericEvent_self_check (guild : Guild) (target eventType : string)
    (auditEvent : AuditLogEvent) (action : M unit) (w : World) (s : State) :
  isSelfAction s (g_id guild) target = true ->
  handleGenericEvent guild target eventType auditEvent action w s = (Val tt, s, []).
Proof.
  intros H. unfold handleGenericEvent. rewrite bind_get, bind_ask.
  destruct (configs s !! g_id guild) as [config|]; [|reflexivity].
  destruct (negb (enabled config)); [reflexivity|].
  rewrite H. reflexivity.
Qed.

(** ** The whitelist of the database *)

(** C4 fails on the code.  [U1] is on the whitelist of the database, as a
    user and through the action, and deletes an emoji: [handleGenericEvent]
    consults the lists of the configuration only, so the guard goes on to the
    restore and records a violation.  The same actor deleting a role is
    dropped at the check, which [handleRoleDelete] does make. *)
Theorem emoji_delete_ignores_database_whitelist :
  db_isWhitelisted Scenario.world_whitelisted (Scenario.started Scenario.audited)
    "G" "user" "U1" = true
  /\ db_isWhitelisted Scenario.world_whitelisted (Scenario.started Scenario.audited)
       "G" "action" "emoji_delete" = true
  /\ match dispatch (emojiDelete (Scenario.emoji Scenario.guildG "E" "party"))
             Scenario.world_whitelisted (Scenario.started Scenario.audited) with
     | (_, _, tr) =>
         map v_violationType (Trace.logged_violations tr) = ["emoji_delete_blocked"]
         /\ In (SendRestoreEmbed "audit" "emoji" "E" false) tr
     end
  /\ match dispatch (roleDelete (Scenario.role Scenario.guildG "R" "mods" 0))
             Scenario.world_whitelisted (Scenario.started Scenario.audited) with
     | (_, _, tr) => tr = [FetchAuditLogs "G" RoleDelete]
     end.
Proof. vm_compute. intuition. Qed.

(** ** Falling back to older backups *)

(** C5 fails on the code for emojis (and, by the same text, stickers).  The
    emoji is missing from the latest backup [S3] and present in [S1], from
    which [restoreEmoji] would bring it back; [restoreDeletedEmoji] tries [S3]
    only and reports the failure.  A role in the same position is restored:
    [performRestore] goes on to [S1]. *)
Theorem emoji_restore_has_no_fallback :
  match restoreDeletedEmoji Scenario.guildG None (Some "E")
          Scenario.world_emoji_in_S1 (Scenario.started Scenario.audited) with
  | (r, _, tr) => r = Val tt /\ tr = [SendRestoreEmbed "audit" "emoji" "E" false]
  end
  /\ match BackupManager.restoreEmoji "S1" "E"
             Scenario.world_emoji_in_S1 (Scenario.started Scenario.audited) with
     | (r, _, tr) => r = Val true /\ tr = [EmojiCreateCall "G" "party"]
     end
  /\ match restoreDeletedRole Scenario.guildG None (Some "R")
             Scenario.world_role_in_S1 (Scenario.started Scenario.audited) with
     | (r, _, tr) =>
         r = Val tt
         /\ tr = [BmRestoreRole "S3" "R"; BmRestoreRole "S1" "R";
                  SendRestoreEmbed "audit" "role" "R" true]
     end.
Proof. vm_compute. intuition. Qed.

(** ** Exceptions that leave a handler *)

(** C6 fails on the code.  [handleInviteCreate] reads the counter store
    outside any [try]: once the gates are passed, an error of that read leaves
    the handler, and the listener does not catch it either. *)
Theorem handleInviteCreate_throws
    (invite : Invite) (w : World) (s : State) (config : GuardConfig)
    (entry : AuditEntry) (entries : list AuditEntry) (err : Err) :
  let guild := invite_guild invite in
  let key := RedisManager.createGuardKey "violations" (g_id guild)
               (executorOrUnknown entry) None in
  configs s !! g_id guild = Some config ->
  enabled config = true ->
  p_invites (protection config) = true ->
  fetchAuditLogs w (g_id guild) InviteCreate = inr (entry :: entries) ->
  isBotAction w (executorOf entry) = false ->
  isWhitelisted w s (executorOf entry) (g_id guild) = false ->
  fails w (RedisGet key) = Some err ->
  handleInviteCreate invite w s
  = (Exn err, s, [FetchAuditLogs (g_id guild) InviteCreate; RedisGet key]).
Proof.
  intros guild key Hc He Hp Ha Hb Hw Hf.
  unfold handleInviteCreate. fold guild.
  rewrite bind_get, bind_ask, Hc, He, Hp. cbn [negb orb].
  unfold bind at 1. rewrite getAuditLog_run, Ha. cbn [head].
  rewrite Hb, Hw.
  unfold getViolationCount, RedisManager.getUserViolationCount, RedisManager.get,
    RedisManager.executeRedisOperation, RedisManager.client_get.
  fold key.
  unfold bind, try_catch, throw. rewrite call_run, Hf. reflexivity.
Qed.

Lemma handleInviteCreate_throws_witness :
  dispatch (inviteCreate (GuildInvite {| invite_guild := Scenario.guildG |}))
    (Scenario.with_fails Scenario.redis_down Scenario.world0)
    (Scenario.started Scenario.audited)
  = (Exn RedisError, Scenario.started Scenario.audited,
     [FetchAuditLogs "G" InviteCreate; RedisGet "guard:violations:G:U1"]).
Proof.
  unfold dispatch. rewrite bind_get. cbn [Scenario.started targetGuildId].
  change (String.eqb (g_id (invite_guild {| invite_guild := Scenario.guildG |})) "G")
    with true. cbv iota.
  apply (handleInviteCreate_throws {| invite_guild := Scenario.guildG |}
           (Scenario.with_fails Scenario.redis_down Scenario.world0)
           (Scenario.started Scenario.audited) Scenario.audited
           (Scenario.entryBy "U1") [] RedisError); reflexivity.
Defined.

(** A handler with a [try] around its body, by contrast, never throws. *)
Lemma try_catch_ret_val {A} (m : M A) (a : A) (w : World) (s : State) :
  exists a' s' tr, try_catch m (fun _ => ret a) w s = (Val a', s', tr).
Proof.
  unfold try_catch, ret. destruct (m w s) as [[[a'|e] s1] t1]; eauto.
Qed.

Lemma handleRoleDelete_never_throws (role : Role) (w : World) (s : State) :
  exists s' tr, handleRoleDelete role w s = (Val tt, s', tr).
Proof.
  unfold handleRoleDelete. rewrite bind_get.
  destruct (negb _); [unfold ret; eauto|].
  match goal with |- context [try_catch ?m _ w s] =>
    destruct (try_catch_ret_val m tt w s) as ([] & s' & tr & H) end.
  eauto.
Qed.

(** ** What a computation keeps *)

Section Keeps.

Import Vocabulary.

Context (R : State -> State -> Prop) `{!PreOrder R} (P : Effect -> Prop).

Lemma keeps_ret {A} (a : A) : keeps R P (ret a).
Proof. intros w s. cbn. split; [reflexivity | constructor]. Qed.

Lemma keeps_throw {A} (e : Err) : keeps R P (@throw A e).
Proof. intros w s. cbn. split; [reflexivity | constructor]. Qed.

Lemma keeps_ask : keeps R P ask.
Proof. intros w s. cbn. split; [reflexivity | constructor]. Qed.

Lemma keeps_get : keeps R P get.
Proof. intros w s. cbn. split; [reflexivity | constructor]. Qed.

Lemma keeps_emit (e : Effect) : P e -> keeps R P (emit e).
Proof. intros H w s. cbn. split; [reflexivity | auto]. Qed.

Lemma keeps_modify (f : State -> State) : (forall s, R s (f s)) -> keeps R P (modify f).
Proof. intros H w s. cbn. auto. Qed.

Lemma keeps_bind {A B} (m : M A) (f : A -> M B) :
  keeps R P m -> (forall a, keeps R P (f a)) -> keeps R P (bind m f).
Proof.
  intros Hm Hf w s. unfold bind. specialize (Hm w s).
  destruct (m w s) as [[[a|e] s1] t1]; [|exact Hm].
  specialize (Hf a w s1). destruct (f a w s1) as [[r s2] t2].
  destruct Hm as [Hs1 Ht1], Hf as [Hs2 Ht2]. split; [etrans; eauto|].
  apply List.Forall_app. auto.
Qed.

Lemma keeps_try_catch {A} (m : M A) (h : Err -> M A) :
  keeps R P m -> (forall e, keeps R P (h e)) -> keeps R P (try_catch m h).
Proof.
  intros Hm Hh w s. unfold try_catch. specialize (Hm w s).
  destruct (m w s) as [[[a|e] s1] t1]; [exact Hm|].
  specialize (Hh e w s1). destruct (h e w s1) as [[r s2] t2].
  destruct Hm as [Hs1 Ht1], Hh as [Hs2 Ht2]. split; [etrans; eauto|].
  apply List.Forall_app. auto.
Qed.

Lemma keeps_try_finally {A} (m : M A) (f : M unit) :
  keeps R P m -> keeps R P f -> keeps R P (try_finally m f).
Proof.
  intros Hm Hf w s. unfold try_finally. specialize (Hm w s).
  destruct (m w s) as [[r s1] t1].
  specialize (Hf w s1). destruct (f w s1) as [[[u|e] s2] t2];
    destruct Hm as [Hs1 Ht1], Hf as [Hs2 Ht2];
    (split; [etrans; eauto | apply List.Forall_app; auto]).
Qed.

Lemma keeps_call (e : Effect) : P e -> keeps R P (call e).
Proof.
  intros H w s. rewrite call_run. split; [reflexivity | auto].
Qed.

Lemma keeps_lift_sum {A} (r : Err + A) : keeps R P (lift_sum r).
Proof. destruct r; [apply keeps_throw | apply keeps_ret]. Qed.

Lemma keeps_for_each {A} (l : list A) (f : A -> M unit) :
  (forall x, keeps R P (f x)) -> keeps R P (for_each l f).
Proof.
  intros Hf. induction l as [|x l IH]; cbn [for_each].
  - apply keeps_ret.
  - apply keeps_bind; auto.
Qed.

End Keeps.

Lemma keeps_weaken {A} (R : State -> State -> Prop) (P Q : Effect -> Prop) (m : M A) :
  (forall e, P e -> Q e) -> Vocabulary.keeps R P m -> Vocabulary.keeps R Q m.
Proof.
  intros H Hm w s. specialize (Hm w s). destruct (m w s) as [[r s'] tr].
  destruct Hm as [Hs Ht]. split; [exact Hs|].
  eapply List.Forall_impl; eauto.
Qed.

#[global] Instance stable_preorder : PreOrder Vocabulary.stable.
Proof.
  split.
  - intros s. repeat split.
  - intros s1 s2 s3 (a & b & c & d) (a' & b' & c' & d').
    repeat split; congruence.
Qed.

#[global] Instance cache_only_preorder : PreOrder Vocabulary.cache_only.
Proof.
  split.
  - intros s. destruct s. reflexivity.
  - intros s1 s2 s3 H1 H2. destruct s1, s2, s3.
    unfold Vocabulary.cache_only, set_whitelistCache in *. cbn in *. congruence.
Qed.

Lemma cache_only_stable (s s' : State) :
  Vocabulary.cache_only s s' -> Vocabulary.stable s s'.
Proof. intros H. rewrite H. repeat split. Qed.

(** One step of the proof that a method keeps something: follow the shape
    of its text. *)
Ltac keeps_step :=
  lazymatch goal with
  | |- Vocabulary.keeps _ _ (bind _ _) =>
      apply keeps_bind; [typeclasses eauto | | intros ?]
  | |- Vocabulary.keeps _ _ (try_catch _ _) =>
      apply keeps_try_catch; [typeclasses eauto | | intros ?]
  | |- Vocabulary.keeps _ _ (try_finally _ _) =>
      apply keeps_try_finally; [typeclasses eauto | | ]
  | |- Vocabulary.keeps _ _ (ret _) => apply keeps_ret; typeclasses eauto
  | |- Vocabulary.keeps _ _ (throw _) => apply keeps_throw; typeclasses eauto
  | |- Vocabulary.keeps _ _ ask => apply keeps_ask; typeclasses eauto
  | |- Vocabulary.keeps _ _ get => apply keeps_get; typeclasses eauto
  | |- Vocabulary.keeps _ _ (emit _) => apply keeps_emit; [typeclasses eauto | ]
  | |- Vocabulary.keeps _ _ (call _) => apply keeps_call; [typeclasses eauto | ]
  | |- Vocabulary.keeps _ _ (modify _) => apply keeps_modify; intros ?
  | |- Vocabulary.keeps _ _ (lift_sum _) => apply keeps_lift_sum; typeclasses eauto
  | |- Vocabulary.keeps _ _ (for_each _ _) =>
      apply keeps_for_each; [typeclasses eauto | intros ?]
  | |- Vocabulary.keeps _ _ (if ?c then _ else _) => destruct c
  | |- Vocabulary.keeps _ _ (match ?x with _ => _ end) => destruct x
  end.

Create HintDb keeps discriminated.

Ltac keeps_auto :=
  repeat first [ solve [auto with keeps] | keeps_step | progress cbv zeta ].

(** *** The methods that neither post a violation nor record one *)

Section Quiet.

Import Vocabulary.

Variable P : Effect -> Prop.
Hypothesis HP : forall e, plain e -> P e.

Local Hint Extern 1 (P _) => (apply HP; split; reflexivity) : keeps.
Local Hint Extern 1 (stable _ _) => (repeat split; reflexivity) : keeps.

Lemma setTimeout_keeps (a : TimerAction) (delay : Z) : keeps stable P (setTimeout a delay).
Proof. unfold setTimeout. keeps_auto. Qed.
Hint Resolve setTimeout_keeps : keeps.

Lemma markSelfAction_keeps (guildId target : string) :
  keeps stable P (markSelfAction guildId target).
Proof. unfold markSelfAction. keeps_auto. Qed.
Hint Resolve markSelfAction_keeps : keeps.

Lemma sendRestoreNotification_keeps (guild : Guild) (type id : string) (success : bool) :
  keeps stable P (sendRestoreNotification guild type id success).
Proof. unfold sendRestoreNotification. keeps_auto. Qed.
Hint Resolve sendRestoreNotification_keeps : keeps.

Lemma kickUser_keeps (guild : Guild) (userId : string) : keeps stable P (kickUser guild userId).
Proof. unfold kickUser. keeps_auto. Qed.

Lemma banUser_keeps (guild : Guild) (userId : string) : keeps stable P (banUser guild userId).
Proof. unfold banUser. keeps_auto. Qed.

Lemma removeRoles_keeps (guild : Guild) (userId : string) :
  keeps stable P (removeRoles guild userId).
Proof. unfold removeRoles. keeps_auto. Qed.

Lemma timeoutUser_keeps (guild : Guild) (userId : string) :
  keeps stable P (timeoutUser guild userId).
Proof. unfold timeoutUser. keeps_auto. Qed.

Lemma lockdownGuild_keeps (guild : Guild) : keeps stable P (lockdownGuild guild).
Proof. unfold lockdownGuild. keeps_auto. Qed.

Lemma getBackupsByGuild_keeps (guildId : string) (limit : nat) :
  keeps stable P (getBackupsByGuild guildId limit).
Proof. unfold getBackupsByGuild. keeps_auto. Qed.
Hint Resolve getBackupsByGuild_keeps : keeps.

Lemma tryOlderBackups_keeps (restoreMethod : string -> string -> M bool)
    (finalBackupId target : string) (recentBackups : list BackupRow) :
  (forall b t, keeps stable P (restoreMethod b t)) ->
  keeps stable P (tryOlderBackups restoreMethod finalBackupId target recentBackups).
Proof.
  intros H. induction recentBackups as [|backup rest IH]; cbn [tryOlderBackups];
    keeps_auto.
Qed.

Lemma performRestore_keeps (guild : Guild) (backupId target : option string)
    (restoreType : string) (restoreMethod : string -> string -> M bool) :
  (forall b t, keeps stable P (restoreMethod b t)) ->
  keeps stable P (performRestore guild backupId target restoreType restoreMethod).
Proof.
  intros H. pose proof (tryOlderBackups_keeps restoreMethod) as H'.
  unfold performRestore. keeps_auto.
Qed.

Lemma restoreRole_keeps (backupId roleId : string) :
  keeps stable P (BackupManager.restoreRole backupId roleId).
Proof. unfold BackupManager.restoreRole. keeps_auto. Qed.

Lemma restoreDeletedRole_keeps (guild : Guild) (backupId target : option string) :
  keeps stable P (restoreDeletedRole guild backupId target).
Proof. apply performRestore_keeps. apply restoreRole_keeps. Qed.

Lemma restoreRoleFromBackup_keeps (guild : Guild) (roleId : string) :
  keeps stable P (restoreRoleFromBackup guild roleId).
Proof. unfold restoreRoleFromBackup. keeps_auto. Qed.

Lemma restoreCategoryAndChildren_keeps (backupId categoryId : string) :
  keeps stable P (BackupManager.restoreCategoryAndChildren backupId categoryId).
Proof. unfold BackupManager.restoreCategoryAndChildren. keeps_auto. Qed.
Hint Resolve restoreCategoryAndChildren_keeps : keeps.

Lemma findChannelData_keeps (finalBackupId channelId : string)
    (recentBackups : list BackupRow) :
  keeps stable P (findChannelData finalBackupId channelId recentBackups).
Proof.
  induction recentBackups as [|backup rest IH]; cbn [findChannelData]; keeps_auto.
Qed.
Hint Resolve findChannelData_keeps : keeps.

Lemma retryCategory_keeps (foundBackupId categoryId : string)
    (recentBackups : list BackupRow) :
  keeps stable P (retryCategory foundBackupId categoryId recentBackups).
Proof.
  induction recentBackups as [|backup rest IH]; cbn [retryCategory]; keeps_auto.
Qed.
Hint Resolve retryCategory_keeps : keeps.

Lemma restoreDeletedChannel_keeps (guild : Guild) (backupId target : option string) :
  keeps stable P (restoreDeletedChannel guild backupId target).
Proof. unfold restoreDeletedChannel. keeps_auto. Qed.

Lemma restoreEmoji_keeps (backupId emojiId : string) :
  keeps stable P (BackupManager.restoreEmoji backupId emojiId).
Proof. unfold BackupManager.restoreEmoji. keeps_auto. Qed.
Hint Resolve restoreEmoji_keeps : keeps.

Lemma restoreSticker_keeps (backupId stickerId : string) :
  keeps stable P (BackupManager.restoreSticker backupId stickerId).
Proof. unfold BackupManager.restoreSticker. keeps_auto. Qed.
Hint Resolve restoreSticker_keeps : keeps.

Lemma restoreDeletedEmoji_keeps (guild : Guild) (backupId target : option string) :
  keeps stable P (restoreDeletedEmoji guild backupId target).
Proof. unfold restoreDeletedEmoji. keeps_auto. Qed.

Lemma restoreDeletedSticker_keeps (guild : Guild) (backupId target : option string) :
  keeps stable P (restoreDeletedSticker guild backupId target).
Proof. unfold restoreDeletedSticker. keeps_auto. Qed.

Lemma restoreChanges_keeps (guild : Guild) (violation : Violation) :
  keeps stable P (restoreChanges guild violation).
Proof.
  pose proof restoreDeletedRole_keeps. pose proof restoreDeletedChannel_keeps.
  pose proof restoreDeletedEmoji_keeps. pose proof restoreDeletedSticker_keeps.
  unfold restoreChanges. keeps_auto.
Qed.

End Quiet.

(** ** Violation notifications *)

Lemma violation_posts_app (t1 t2 : list Effect) :
  Trace.violation_posts (t1 ++ t2)
  = (Trace.violation_posts t1 + Trace.violation_posts t2)%nat.
Proof. unfold Trace.violation_posts. rewrite List.filter_app. apply length_app. Qed.

Lemma violation_posts_none (tr : list Effect) :
  Forall (fun e => Trace.is_violation_post e = false) tr -> Trace.violation_posts tr = 0%nat.
Proof.
  unfold Trace.violation_posts. induction 1 as [|e tr He _ IH]; [reflexivity|].
  cbn. now rewrite He.
Qed.

Lemma violation_posted_app (w : World) (t1 t2 : list Effect) :
  Trace.violation_posted w (t1 ++ t2)
  = (Trace.violation_posted w t1 + Trace.violation_posted w t2)%nat.
Proof. unfold Trace.violation_posted. rewrite List.filter_app. apply length_app. Qed.

Lemma violation_posted_none (w : World) (tr : list Effect) :
  Forall (fun e => Trace.is_violation_post e = false) tr ->
  Trace.violation_posted w tr = 0%nat.
Proof.
  unfold Trace.violation_posted. induction 1 as [|e tr He _ IH]; [reflexivity|].
  cbn. now rewrite He.
Qed.

Section Notification.

Variables (guild : Guild) (config : GuardConfig) (channel : LiveChannel).
Hypothesis Hset : JS.truthy (auditChannelId config) = true.
Hypothesis Hcached : find_channel guild (JS.str_or (auditChannelId config) "") = Some channel.
Hypothesis Htext : lc_text_based channel = true.

(** The embed of a violation, as a call on the audit channel. *)
Local Abbreviation post_of userId violation :=
  (SendViolationEmbed (lc_id channel) userId (v_violationType violation)
     (v_description violation) (severity_name (v_severity violation))).

(** With the audit channel set, in the cache and text-based,
    [sendNotification] makes one call to [send]; it returns whether or not the
    platform accepts the call. *)
Lemma sendNotification_run (userId violationType description : string)
    (severity : Severity) (w : World) (s : State) :
  configs s !! g_id guild = Some config ->
  sendNotification guild userId violationType description severity w s
  = (Val tt, s,
     [SendViolationEmbed (lc_id channel) userId violationType description
        (severity_name severity)]).
Proof.
  intros Hc. unfold sendNotification, try_catch. rewrite bind_get, Hc, Hset.
  cbn [negb]. rewrite Hcached, Htext, call_run.
  destruct (fails w _); reflexivity.
Qed.

Lemma executeAction_run (action : GuardAction) (userId : string) (violation : Violation)
    (w : World) (s : State) :
  configs s !! g_id guild = Some config ->
  exists s' tr,
    executeAction action guild userId violation w s = (Val tt, s', tr)
    /\ Vocabulary.stable s s'
    /\ Trace.violation_posts tr = (if decide (action = NOTIFY) then 1 else 0)%nat
    /\ Trace.violation_posted w tr
       = (if decide (action = NOTIFY)
          then if Trace.accepted w (post_of userId violation) then 1 else 0
          else 0)%nat.
Proof.
  intros Hc.
  destruct (decide (action = NOTIFY)) as [->|Hne].
  - exists s. eexists. unfold executeAction, try_catch.
    rewrite sendNotification_run by exact Hc.
    split; [reflexivity|]. split; [reflexivity|]. split; [reflexivity|].
    unfold Trace.violation_posted. cbn.
    destruct (Trace.accepted w _); reflexivity.
  - assert (Hk : Vocabulary.keeps Vocabulary.stable
                   (fun e => Trace.is_violation_post e = false)
                   (executeAction action guild userId violation)).
    { assert (HP : forall e, Vocabulary.plain e -> Trace.is_violation_post e = false)
        by (intros e [H _]; exact H).
      unfold executeAction. apply keeps_try_catch; [typeclasses eauto | | intros ?].
      - destruct action; try congruence;
          [ apply keeps_ret; typeclasses eauto
          | apply kickUser_keeps | apply banUser_keeps | apply removeRoles_keeps
          | apply timeoutUser_keeps | apply restoreChanges_keeps
          | apply lockdownGuild_keeps ]; exact HP.
      - apply keeps_ret; typeclasses eauto. }
    specialize (Hk w s).
    destruct (try_catch_ret_val
                (match action with
                 | LOG => ret tt
                 | NOTIFY =>
                     sendNotification guild userId (v_violationType violation)
                       (v_description violation) (v_severity violation)
                 | KICK => kickUser guild userId
                 | BAN => banUser guild userId
                 | REMOVE_ROLE => removeRoles guild userId
                 | TIMEOUT => timeoutUser guild userId
                 | RESTORE => restoreChanges guild violation
                 | LOCKDOWN => lockdownGuild guild
                 end) tt w s) as ([] & s' & tr & Hrun).
    fold (executeAction action guild userId violation) in Hrun.
    rewrite Hrun in Hk |- *. destruct Hk as [Hs Ht].
    exists s', tr. split; [reflexivity|]. split; [exact Hs|].
    split; [now apply violation_posts_none | now apply violation_posted_none].
Qed.

Lemma for_each_executeAction_run (list : list GuardAction) (userId : string)
    (violation : Violation) (w : World) (s : State) :
  configs s !! g_id guild = Some config ->
  exists s' tr,
    for_each list (fun action => executeAction action guild userId violation) w s
    = (Val tt, s', tr)
    /\ Vocabulary.stable s s'
    /\ Trace.violation_posts tr = count_occ GuardAction_eq_dec list NOTIFY
    /\ Trace.violation_posted w tr
       = if Trace.accepted w (post_of userId violation)
         then count_occ GuardAction_eq_dec list NOTIFY else 0%nat.
Proof.
  revert s. induction list as [|action list IH]; intros s Hc.
  - exists s, []. repeat split. now destruct (Trace.accepted w _).
  - destruct (executeAction_run action userId violation w s Hc)
      as (s1 & t1 & H1 & Hs1 & Hp1 & Hq1).
    assert (Hc1 : configs s1 !! g_id guild = Some config)
      by (destruct Hs1 as [E _]; rewrite E; exact Hc).
    destruct (IH s1 Hc1) as (s2 & t2 & H2 & Hs2 & Hp2 & Hq2).
    exists s2, (t1 ++ t2). split; [|split; [|split]].
    + cbn [for_each]. eapply bind_val; eauto.
    + etrans; eauto.
    + rewrite violation_posts_app, Hp1, Hp2. cbn [count_occ].
      destruct (decide (action = NOTIFY)) as [->|Hne].
      * destruct (GuardAction_eq_dec NOTIFY NOTIFY); [reflexivity | congruence].
      * destruct (GuardAction_eq_dec action NOTIFY); [congruence | reflexivity].
    + rewrite violation_posted_app, Hq1, Hq2. cbn [count_occ].
      destruct (decide (action = NOTIFY)) as [->|Hne].
      * destruct (GuardAction_eq_dec NOTIFY NOTIFY); [|congruence].
        now destruct (Trace.accepted w _).
      * destruct (GuardAction_eq_dec action NOTIFY); [congruence|].
        now destruct (Trace.accepted w _).
Qed.

(** C10, amended.  With the audit channel set in the configuration, present
    in the channel cache of the guild and text-based, so that it has [send],
    and with a platform that accepts the embed, [handleViolation] records the
    violation, posts the violation embed once for every [notify] of the
    action list while it runs the list, and posts it once more after the
    loop: twice in all when the list has [notify] once.  The posts counted
    are those the platform accepted. *)
Theorem handleViolation_posts
    (userId violationType description : string) (severity : Severity)
    (target : option string) (w : World) (s : State) :
  configs s !! g_id guild = Some config ->
  let violation :=
    {| v_guildId := g_id guild; v_userId := userId; v_violationType := violationType;
       v_description := description; v_severity := severity; v_targetId := target |} in
  let post :=
    SendViolationEmbed (lc_id channel) userId violationType description
      (severity_name severity) in
  let notifies := count_occ GuardAction_eq_dec (actionsFor config severity) NOTIFY in
  fails w post = None ->
  exists s' loop,
    handleViolation guild userId violationType description severity target w s
    = (Val tt, s', LogViolation violation :: loop ++ [post])
    /\ Trace.violation_posted w loop = notifies
    /\ Trace.violation_posted w (LogViolation violation :: loop ++ [post])
       = (notifies + 1)%nat
    /\ (notifies = 1%nat ->
        Trace.violation_posted w (LogViolation violation :: loop ++ [post]) = 2%nat).
Proof.
  intros Hc violation post notifies Hok.
  assert (Hacc : Trace.accepted w post = true) by (unfold Trace.accepted; now rewrite Hok).
  destruct (for_each_executeAction_run (actionsFor config severity) userId violation w s Hc)
    as (s1 & loop & Hrun & Hs1 & _ & Hposted).
  change (post_of userId violation) with post in Hposted. rewrite Hacc in Hposted.
  assert (Hc1 : configs s1 !! g_id guild = Some config)
    by (destruct Hs1 as [E _]; rewrite E; exact Hc).
  exists s1, loop.
  assert (Hcount : Trace.violation_posted w (LogViolation violation :: loop ++ [post])
                   = (notifies + 1)%nat).
  { change (LogViolation violation :: loop ++ [post])
      with ([LogViolation violation] ++ loop ++ [post]).
    rewrite !violation_posted_app, Hposted.
    unfold Trace.violation_posted at 1 2. cbn. rewrite Hacc. reflexivity. }
  split; [|split; [exact Hposted | split; [exact Hcount | intros E; rewrite Hcount, E; reflexivity]]].
  unfold handleViolation, try_catch. rewrite bind_get, Hc.
  match goal with
  | |- match ?x with _ => _ end = _ =>
      assert (Hinner : x = (Val tt, s1, [LogViolation violation] ++ loop ++ [post]))
  end.
  { eapply bind_val; [reflexivity|].
    eapply bind_val; [exact Hrun|].
    apply sendNotification_run; exact Hc1. }
  rewrite Hinner. reflexivity.
Qed.

End Notification.

Lemma handleViolation_posts_witness :
  let violation :=
    {| v_guildId := "G"; v_userId := "U1"; v_violationType := "role_update_blocked";
       v_description := "d"; v_severity := medium; v_targetId := Some "R" |} in
  let post := SendViolationEmbed "audit" "U1" "role_update_blocked" "d" "medium" in
  exists s' loop,
    handleViolation Scenario.guildG "U1" "role_update_blocked" "d" medium (Some "R")
      Scenario.world0 (Scenario.started Scenario.audited)
    = (Val tt, s', LogViolation violation :: loop ++ [post])
    /\ Trace.violation_posted Scenario.world0 loop = 1%nat
    /\ Trace.violation_posted Scenario.world0 (LogViolation violation :: loop ++ [post])
       = (1 + 1)%nat
    /\ (1%nat = 1%nat ->
        Trace.violation_posted Scenario.world0 (LogViolation violation :: loop ++ [post])
        = 2%nat).
Proof.
  intros violation post.
  apply (handleViolation_posts Scenario.guildG Scenario.audited Scenario.auditChannel
           eq_refl eq_refl eq_refl "U1" "role_update_blocked" "d" medium (Some "R")
           Scenario.world0 (Scenario.started Scenario.audited)).
  - reflexivity.
  - reflexivity.
Defined.

(** C10, as stated, fails in three ways.  When the channel named by the
    configuration is gone from the cache of the guild, nothing is posted
    although the list has [notify] and the audit channel is set; a list that
    names [notify] twice gives three posts; and when the channel named by the
    configuration is a category, which has no [send], nothing is posted
    either. *)
Lemma notification_twice_counterexample :
  (In NOTIFY (actionsFor Scenario.audited medium)
   /\ auditChannelId Scenario.audited = Some "audit"
   /\ match handleViolation Scenario.guildG_noAudit "U1" "role_update_blocked" "d" medium
              (Some "R") Scenario.world0 (Scenario.started Scenario.audited) with
      | (_, _, tr) => Trace.violation_posts tr = 0%nat
      end)
  /\ (In NOTIFY (actionsFor Scenario.notifiedTwice medium)
      /\ auditChannelId Scenario.notifiedTwice = Some "audit"
      /\ match handleViolation Scenario.guildG "U1" "role_update_blocked" "d" medium
                 (Some "R") Scenario.world0 (Scenario.started Scenario.notifiedTwice) with
         | (_, _, tr) => Trace.violation_posts tr = 3%nat
         end)
  /\ (In NOTIFY (actionsFor Scenario.audited medium)
      /\ auditChannelId Scenario.audited = Some "audit"
      /\ find_channel Scenario.guildG_categoryAudit "audit" <> None
      /\ match handleViolation Scenario.guildG_categoryAudit "U1" "role_update_blocked" "d"
                 medium (Some "R") Scenario.world0 (Scenario.started Scenario.audited) with
         | (_, _, tr) => Trace.violation_posts tr = 0%nat
         end).
Proof. vm_compute. intuition discriminate. Qed.

(** ** Bursts of role updates *)

Lemma logged_violations_app (t1 t2 : list Effect) :
  Trace.logged_violations (t1 ++ t2)
  = Trace.logged_violations t1 ++ Trace.logged_violations t2.
Proof. unfold Trace.logged_violations. apply omap_app. Qed.

Lemma logged_violations_none (tr : list Effect) :
  Forall (fun e => Trace.is_log e = false) tr -> Trace.logged_violations tr = [].
Proof.
  unfold Trace.logged_violations. induction 1 as [|e tr He _ IH]; [reflexivity|].
  cbn. destruct e; try discriminate He; exact IH.
Qed.

Lemma acts_none_of_logs (tr : list Effect) :
  List.filter Trace.acts tr = [] -> Trace.logged_violations tr = [].
Proof.
  induction tr as [|e tr IH]; [reflexivity|].
  cbn. destruct e; cbn; try discriminate; exact IH.
Qed.

(** *** Timers leave the map of recent changes alone *)

Lemma run_timer_stable (a : TimerAction) (s : State) : Vocabulary.stable s (run_timer a s).
Proof. destruct a; repeat split. Qed.

Lemma fold_timers_stable (due : list (Z * TimerAction)) (s : State) :
  Vocabulary.stable s (fold_left (fun s p => run_timer (snd p) s) due s).
Proof.
  revert s. induction due as [|p due IH]; intros s; [reflexivity|].
  cbn [fold_left]. etrans; [apply run_timer_stable | apply IH].
Qed.

Lemma advance_recentRoleChanges (t : Z) (s : State) :
  recentRoleChanges (advance t s) = recentRoleChanges s.
Proof.
  unfold advance. cbn.
  apply (fold_timers_stable _ s).
Qed.

Lemma advance_configs (t : Z) (s : State) : configs (advance t s) = configs s.
Proof. unfold advance. cbn. apply (fold_timers_stable _ s). Qed.

Lemma advance_now (t : Z) (s : State) : now (advance t s) = t.
Proof. reflexivity. Qed.

(** *** The whitelist check has no effect beyond its cache *)

Section CheckWhitelist.

Import Vocabulary.

Local Hint Extern 1 (cache_only _ _) => reflexivity : keeps.

Lemma cachedWhitelisted_keeps (type guildId target : string) :
  keeps cache_only (fun _ => False) (cachedWhitelisted type guildId target).
Proof. unfold cachedWhitelisted. keeps_auto. Qed.

Lemma anyRoleWhitelisted_keeps (guildId : string) (roleIds : list string) :
  keeps cache_only (fun _ => False) (anyRoleWhitelisted guildId roleIds).
Proof.
  pose proof cachedWhitelisted_keeps.
  induction roleIds as [|roleId rest IH]; cbn [anyRoleWhitelisted];
    unfold isRoleWhitelisted; keeps_auto.
Qed.

Lemma checkWhitelist_keeps (guildId executorId action : string) :
  keeps cache_only (fun _ => False) (checkWhitelist guildId executorId action).
Proof.
  pose proof cachedWhitelisted_keeps. pose proof anyRoleWhitelisted_keeps.
  unfold checkWhitelist, isUserWhitelisted, isActionWhitelisted. keeps_auto.
Qed.

Lemma checkWhitelist_run (guildId executorId action : string) (w : World) (s : State) :
  exists b s',
    checkWhitelist guildId executorId action w s = (Val b, s', [])
    /\ cache_only s s'.
Proof.
  pose proof (checkWhitelist_keeps guildId executorId action w s) as Hk.
  unfold checkWhitelist in *.
  match type of Hk with
  | context [try_catch ?m _ w s] =>
      destruct (try_catch_ret_val m false w s) as (b & s' & tr & Hrun)
  end.
  rewrite Hrun in Hk |- *. destruct Hk as [Hs Ht].
  exists b, s'. split; [|exact Hs].
  destruct tr as [|e tr]; [reflexivity|]. inversion Ht; contradiction.
Qed.

End CheckWhitelist.

(** *** A second update of the same fingerprint within five seconds *)

Lemma cache_only_recent (s s' : State) :
  Vocabulary.cache_only s s' ->
  recentRoleChanges s' = recentRoleChanges s /\ now s' = now s.
Proof. intros H. rewrite H. split; reflexivity. Qed.

(** While the map of recent changes holds, under the fingerprint of the
    update, a time less than five seconds old, [handleRoleUpdate] returns at
    one of its gates: it has asked the audit trail at most, and has changed
    nothing but the whitelist cache. *)
Lemma handleRoleUpdate_recent (oldRole newRole : Role) (w : World) (s : State)
    (executorId : string) (m : gmap string (Z * string)) (timestamp : Z) (by_ : string) :
  let guildId := g_id (role_guild newRole) in
  (forall e es, fetchAuditLogs w guildId RoleUpdate = inr (e :: es) ->
                executorOf e = executorId) ->
  recentRoleChanges s = Some m ->
  m !! key3 guildId (role_id newRole) executorId = Some (timestamp, by_) ->
  now s - timestamp < 5000 ->
  exists s' tr,
    handleRoleUpdate oldRole newRole w s = (Val tt, s', tr)
    /\ Vocabulary.cache_only s s'
    /\ (tr = [] \/ tr = [FetchAuditLogs guildId RoleUpdate]).
Proof.
  intros guildId Haudit Hmap Hkey Hfresh.
  assert (Hnow : forall s',
            Vocabulary.cache_only s s' ->
            recentlyChanged s' (key3 guildId (role_id newRole) executorId) = true).
  { intros s' Hs'. apply cache_only_recent in Hs'. destruct Hs' as [E1 E2].
    unfold recentlyChanged. rewrite E1, Hmap, Hkey, E2.
    apply Z.ltb_lt. exact Hfresh. }
  assert (Hhere : exists s' tr,
            (Val tt, s, @nil Effect) = (Val tt, s', tr)
            /\ Vocabulary.cache_only s s'
            /\ (tr = [] \/ tr = [FetchAuditLogs guildId RoleUpdate])).
  { exists s, []. split; [reflexivity|]. split; [reflexivity | left; reflexivity]. }
  unfold handleRoleUpdate. cbv zeta. fold guildId.
  rewrite bind_get, bind_ask.
  destruct (configs s !! guildId) as [config|]; [|exact Hhere].
  destruct (negb (enabled config) || negb (p_roles (protection config))); [exact Hhere|].
  destruct (isSelfAction s guildId (role_id newRole)); [exact Hhere|].
  destruct (bool_decide _); [exact Hhere|].
  destruct (bool_decide _); [exact Hhere|].
  rewrite (bind_run _ _ _ _ _ _ _ (getAuditLog_run _ _ _ _)). fold guildId.
  assert (Hthere : forall s',
            Vocabulary.cache_only s s' ->
            exists s'' tr,
              Vocabulary.after [FetchAuditLogs guildId RoleUpdate] (Val tt, s', @nil Effect)
              = (Val tt, s'', tr)
              /\ Vocabulary.cache_only s s''
              /\ (tr = [] \/ tr = [FetchAuditLogs guildId RoleUpdate])).
  { intros s' Hs'. exists s', [FetchAuditLogs guildId RoleUpdate].
    split; [reflexivity|]. split; [exact Hs' | right; reflexivity]. }
  destruct (fetchAuditLogs w guildId RoleUpdate) as [err|[|entry entries]] eqn:Hfetch;
    cbn [head]; try (apply Hthere; reflexivity).
  specialize (Haudit entry entries eq_refl).
  destruct (isBotAction w (executorOf entry)); [apply Hthere; reflexivity|].
  destruct (isWhitelisted w s (executorOf entry) guildId); [apply Hthere; reflexivity|].
  destruct (checkWhitelist_run guildId (executorOf entry) "role_update" w s)
    as (b & s' & Hrun & Hs').
  rewrite (bind_run _ _ _ _ _ _ _ Hrun), after_nil.
  destruct b; [apply Hthere; exact Hs'|].
  destruct (negb _); [apply Hthere; exact Hs'|].
  destruct (otherTarget entry (role_id newRole)); [apply Hthere; exact Hs'|].
  rewrite bind_get, Haudit, (Hnow s' Hs').
  apply Hthere; exact Hs'.
Qed.

(** *** Who records a violation *)

Section NoLog.

Import Vocabulary.

Local Abbreviation nolog := (fun e : Effect => Trace.is_log e = false).

Lemma plain_nolog (e : Effect) : plain e -> nolog e.
Proof. intros [_ H]. exact H. Qed.

Local Hint Extern 1 (Trace.is_log _ = false) => reflexivity : keeps.
Local Hint Extern 1 (stable _ _) => (repeat split; reflexivity) : keeps.

Lemma sendNotification_nolog (guild : Guild) (userId violationType description : string)
    (severity : Severity) :
  keeps stable nolog (sendNotification guild userId violationType description severity).
Proof. unfold sendNotification. keeps_auto. Qed.

Lemma executeAction_nolog (action : GuardAction) (guild : Guild) (userId : string)
    (violation : Violation) :
  keeps stable nolog (executeAction action guild userId violation).
Proof.
  unfold executeAction. apply keeps_try_catch; [typeclasses eauto | | intros ?].
  - destruct action;
      [ apply keeps_ret; typeclasses eauto
      | apply sendNotification_nolog
      | apply kickUser_keeps | apply banUser_keeps | apply removeRoles_keeps
      | apply timeoutUser_keeps | apply restoreChanges_keeps
      | apply lockdownGuild_keeps ]; exact plain_nolog.
  - apply keeps_ret; typeclasses eauto.
Qed.

Lemma try_catch_unit (m : M unit) (w : World) (s s' : State) (r : Res unit)
    (tr : list Effect) :
  m w s = (r, s', tr) ->
  try_catch m (fun _ => ret tt) w s = (Val tt, s', tr).
Proof.
  intros H. unfold try_catch, ret. rewrite H.
  destruct r as [[]|e]; [reflexivity | now rewrite app_nil_r].
Qed.

(** [handleViolation] records the violation once, and only when the
    configuration of the guild is loaded. *)
Lemma handleViolation_logged (guild : Guild) (userId violationType description : string)
    (severity : Severity) (target : option string) (w : World) (s : State)
    (config : GuardConfig) :
  configs s !! g_id guild = Some config ->
  exists s' tr,
    handleViolation guild userId violationType description severity target w s
    = (Val tt, s', tr)
    /\ stable s s'
    /\ Trace.logged_violations tr
       = [ {| v_guildId := g_id guild; v_userId := userId;
              v_violationType := violationType; v_description := description;
              v_severity := severity; v_targetId := target |} ].
Proof.
  intros Hc. unfold handleViolation.
  match goal with
  | |- context [try_catch ?m _ w s] =>
      destruct (m w s) as [[r s'] tr] eqn:Hrun;
      exists s', tr; split; [apply (try_catch_unit m w s s' r tr Hrun)|]
  end.
  rewrite bind_get, Hc in Hrun.
  rewrite (bind_run (emit _) _ w s s tt [LogViolation _] eq_refl) in Hrun.
  match type of Hrun with
  | Vocabulary.after _ (?k w s) = _ =>
      assert (Hk : keeps stable nolog k);
      [ | specialize (Hk w s); destruct (k w s) as [[r2 s2] t2] ]
  end.
  { apply keeps_bind; [typeclasses eauto | | intros ?].
    - apply keeps_for_each; [typeclasses eauto|]. intros action.
      apply executeAction_nolog.
    - apply sendNotification_nolog. }
  cbn in Hrun. injection Hrun as <- <- <-. destruct Hk as [Hs Ht].
  split; [exact Hs|]. cbn. now rewrite logged_violations_none.
Qed.

Lemma restoreRoleFromBackup_run (guild : Guild) (roleId : string) (w : World) (s : State) :
  exists s' tr,
    restoreRoleFromBackup guild roleId w s = (Val tt, s', tr)
    /\ stable s s'
    /\ Trace.logged_violations tr = [].
Proof.
  pose proof (restoreRoleFromBackup_keeps nolog plain_nolog guild roleId w s) as Hk.
  unfold restoreRoleFromBackup in *.
  match type of Hk with
  | context [try_catch ?m _ w s] =>
      destruct (m w s) as [[r s'] tr] eqn:Hrun;
      rewrite (try_catch_unit m w s s' r tr Hrun) in Hk |- *
  end.
  destruct Hk as [Hs Ht]. exists s', tr.
  split; [reflexivity|]. split; [exact Hs|]. now apply logged_violations_none.
Qed.

(** The remediation of a role update: the lock, the marker, the restore, the
    violation, and the timer that releases the lock. *)
Lemma role_remediation_run (guild : Guild) (roleId executorId description : string)
    (restorationKey recentRestoreKey : string) (w : World) (s : State)
    (config : GuardConfig) :
  configs s !! g_id guild = Some config ->
  exists s' tr,
    try_finally
      (try_catch
         (bind (modify (set_restorationInProgress (fun x => {[restorationKey]} ∪ x)))
            (fun _ =>
             bind (modify (set_selfActions (fun x => {[recentRestoreKey]} ∪ x)))
               (fun _ =>
                bind (setTimeout (DeleteSelfAction recentRestoreKey) 30000)
                  (fun _ =>
                   bind (restoreRoleFromBackup guild roleId)
                     (fun _ =>
                      handleViolation guild executorId "role_update_blocked" description
                        medium (Some roleId))))))
         (fun _ => ret tt))
      (setTimeout (DeleteRestoration restorationKey) 5000) w s
    = (Val tt, s', tr)
    /\ stable s s'
    /\ Trace.logged_violations tr
       = [ {| v_guildId := g_id guild; v_userId := executorId;
              v_violationType := "role_update_blocked"; v_description := description;
              v_severity := medium; v_targetId := Some roleId |} ].
Proof.
  intros Hc.
  set (s1 := set_restorationInProgress (fun x => {[restorationKey]} ∪ x) s).
  set (s2 := set_selfActions (fun x => {[recentRestoreKey]} ∪ x) s1).
  set (s3 := set_timers (fun l => l ++ [(now s2 + 30000, DeleteSelfAction recentRestoreKey)]) s2).
  destruct (restoreRoleFromBackup_run guild roleId w s3) as (s4 & t4 & H4 & Hs4 & Hl4).
  assert (Hc4 : configs s4 !! g_id guild = Some config)
    by (destruct Hs4 as [E _]; rewrite E; exact Hc).
  destruct (handleViolation_logged guild executorId "role_update_blocked" description
              medium (Some roleId) w s4 config Hc4) as (s5 & t5 & H5 & Hs5 & Hl5).
  exists (set_timers (fun l => l ++ [(now s5 + 5000, DeleteRestoration restorationKey)]) s5),
         (t4 ++ t5).
  split; [|split].
  - unfold try_finally.
    erewrite try_catch_unit.
    2:{ rewrite (bind_run
                   (modify (set_restorationInProgress (fun x => {[restorationKey]} ∪ x)))
                   _ w s s1 tt [] eq_refl), after_nil.
        rewrite (bind_run
                   (modify (set_selfActions (fun x => {[recentRestoreKey]} ∪ x)))
                   _ w s1 s2 tt [] eq_refl), after_nil.
        rewrite (bind_run (setTimeout (DeleteSelfAction recentRestoreKey) 30000)
                   _ w s2 s3 tt [] eq_refl), after_nil.
        rewrite (bind_run _ _ w s3 s4 tt t4 H4), H5. reflexivity. }
    cbn. now rewrite app_nil_r.
  - destruct Hs4 as (a1 & a2 & a3 & a4), Hs5 as (b1 & b2 & b3 & b4).
    unfold s3, s2, s1 in *. cbn in *.
    repeat split; cbn; congruence.
  - now rewrite logged_violations_app, Hl4, Hl5.
Qed.

End NoLog.

(** *** The update that is remediated *)

(** When [handleRoleUpdate] records a violation, it has passed every gate:
    the audit trail named an executor, the map of recent changes now holds the
    time of this event under the fingerprint, and the violation on record is
    the one of this event. *)
Lemma handleRoleUpdate_fired (oldRole newRole : Role) (w : World) (s s1 : State)
    (r : Res unit) (tr1 : list Effect) :
  let guildId := g_id (role_guild newRole) in
  handleRoleUpdate oldRole newRole w s = (r, s1, tr1) ->
  Trace.logged_violations tr1 <> [] ->
  exists entry entries m,
    fetchAuditLogs w guildId RoleUpdate = inr (entry :: entries)
    /\ recentRoleChanges s1 = Some m
    /\ m !! key3 guildId (role_id newRole) (executorOf entry)
       = Some (now s, executorOf entry)
    /\ Trace.logged_violations tr1
       = [Vocabulary.roleUpdateViolation newRole (executorOf entry)].
Proof.
  intros guildId.
  assert (Hdead : forall s' tr,
            Trace.logged_violations tr = [] ->
            (Val tt, s', tr) = (r, s1, tr1) ->
            Trace.logged_violations tr1 <> [] ->
            exists entry entries m,
              fetchAuditLogs w guildId RoleUpdate = inr (entry :: entries)
              /\ recentRoleChanges s1 = Some m
              /\ m !! key3 guildId (role_id newRole) (executorOf entry)
                 = Some (now s, executorOf entry)
              /\ Trace.logged_violations tr1
                 = [Vocabulary.roleUpdateViolation newRole (executorOf entry)]).
  { intros s' tr Htr E Hne. exfalso. injection E as <- <- <-. contradiction. }
  unfold handleRoleUpdate. cbv zeta. fold guildId.
  rewrite bind_get, bind_ask.
  destruct (configs s !! guildId) as [config|] eqn:Hc; [|now apply Hdead].
  destruct (negb (enabled config) || negb (p_roles (protection config)));
    [now apply Hdead|].
  destruct (isSelfAction s guildId (role_id newRole)); [now apply Hdead|].
  destruct (bool_decide _); [now apply Hdead|].
  destruct (bool_decide _); [now apply Hdead|].
  rewrite (bind_run _ _ _ _ _ _ _ (getAuditLog_run _ _ _ _)). fold guildId.
  destruct (fetchAuditLogs w guildId RoleUpdate) as [err|[|entry entries]] eqn:Hfetch;
    cbn [head]; try (now apply Hdead).
  destruct (isBotAction w (executorOf entry)); [now apply Hdead|].
  destruct (isWhitelisted w s (executorOf entry) guildId); [now apply Hdead|].
  destruct (checkWhitelist_run guildId (executorOf entry) "role_update" w s)
    as (b & s' & Hrun & Hs').
  rewrite (bind_run _ _ _ _ _ _ _ Hrun), after_nil.
  destruct b; [now apply Hdead|].
  destruct (negb _); [now apply Hdead|].
  destruct (otherTarget entry (role_id newRole)); [now apply Hdead|].
  rewrite bind_get.
  destruct (recentlyChanged s' _); [now apply Hdead|].
  set (changeKey := key3 guildId (role_id newRole) (executorOf entry)).
  set (base := match recentRoleChanges s' with Some m => m | None => ∅ end).
  set (s2 := set_recentRoleChanges
               (Some (<[changeKey := (now s', executorOf entry)]> base)) s').
  rewrite (bind_run (recordChange changeKey (executorOf entry)) _ w s' s2 tt [] eq_refl),
    after_nil.
  assert (Hc2 : configs s2 !! g_id (role_guild newRole) = Some config).
  { unfold s2. cbn. rewrite Hs'. exact Hc. }
  destruct (role_remediation_run (role_guild newRole) (role_id newRole)
              (executorOf entry)
              ("Yetkisiz rol " +:+ quoted (role_name newRole)
               +:+ " degistirildi ve otomatik olarak geri yuklendi")
              (key3 guildId (role_id newRole) "restoration")
              (key3 guildId (role_id newRole) "recent_restore")
              w s2 config Hc2) as (s3 & t3 & H3 & Hs3 & Hl3).
  rewrite H3. cbn [Vocabulary.after]. intros E _. injection E as <- <- <-.
  exists entry, entries, (<[changeKey := (now s', executorOf entry)]> base).
  split; [reflexivity|]. split; [|split].
  - destruct Hs3 as (_ & E & _). rewrite E. reflexivity.
  - rewrite lookup_insert_eq. apply cache_only_recent in Hs'.
    destruct Hs' as [_ ->]. reflexivity.
  - change ([FetchAuditLogs guildId RoleUpdate] ++ t3)
      with (FetchAuditLogs guildId RoleUpdate :: t3).
    cbn [Trace.logged_violations omap]. exact Hl3.
Qed.

(** *** The burst *)

Lemma dispatch_roleUpdate (oldRole newRole : Role) (w : World) (s : State) :
  dispatch (roleUpdate oldRole newRole) w s
  = if String.eqb (g_id (role_guild newRole)) (targetGuildId s)
    then handleRoleUpdate oldRole newRole w s
    else (Val tt, s, []).
Proof.
  unfold dispatch. rewrite bind_get.
  destruct (String.eqb _ _); reflexivity.
Qed.

(** Once the map of recent changes holds the time [t1] under a fingerprint,
    every update of that fingerprint delivered before [t1 + 5000] is dropped
    without an action. *)
Lemma burst_rest_dropped (guildId roleId executorId : string) (t1 : Z)
    (rest : list (World * Z * (Role * Role))) :
  Forall (fun x =>
            Vocabulary.same_fingerprint guildId roleId executorId (fst (fst x)) (snd (snd x))
            /\ snd (fst x) < t1 + 5000) rest ->
  forall s m by_,
    recentRoleChanges s = Some m ->
    m !! key3 guildId roleId executorId = Some (t1, by_) ->
    match deliver_all (map Vocabulary.roleUpdateAt rest) s with
    | (_, trs) =>
        length trs = length rest
        /\ Forall (fun tr => List.filter Trace.acts tr = []) trs
    end.
Proof.
  induction 1 as [|[[w t] [oldRole newRole]] rest [Hfp Ht] _ IH]; intros s m by_ Hm Hk.
  - cbn. auto.
  - cbn [map Vocabulary.roleUpdateAt deliver_all fst snd] in *.
    unfold deliver. rewrite dispatch_roleUpdate.
    destruct Hfp as (Hg & Hr & Haudit).
    assert (Hm' : recentRoleChanges (advance t s) = Some m)
      by (rewrite advance_recentRoleChanges; exact Hm).
    destruct (String.eqb _ _).
    + destruct (handleRoleUpdate_recent oldRole newRole w (advance t s) executorId
                  m t1 by_) as (s' & tr & Hrun & Hs' & Htr).
      * rewrite Hg. exact Haudit.
      * exact Hm'.
      * rewrite Hg, Hr. exact Hk.
      * rewrite advance_now. lia.
      * rewrite Hrun.
        apply cache_only_recent in Hs'. destruct Hs' as [E _].
        specialize (IH s' m by_ (eq_trans E Hm') Hk).
        destruct (deliver_all _ s') as [s2 trs]. destruct IH as [Hlen Hall].
        split; [cbn; congruence|].
        constructor; [|exact Hall].
        destruct Htr as [-> | ->]; reflexivity.
    + specialize (IH (advance t s) m by_ Hm' Hk).
      destruct (deliver_all _ (advance t s)) as [s2 trs]. destruct IH as [Hlen Hall].
      split; [cbn; congruence|].
      constructor; [reflexivity | exact Hall].
Qed.

(** The first delivery of a burst, when it is remediated, leaves the
    violation of its own event on record and closes the gate for the rest. *)
Lemma burst_first_fired
    (guildId roleId executorId : string) (w1 : World) (t1 : Z)
    (oldRole1 newRole1 : Role) (rest : list (World * Z * (Role * Role)))
    (s s1 : State) (r : Res unit) (tr1 : list Effect) :
  Vocabulary.same_fingerprint guildId roleId executorId w1 newRole1 ->
  Forall (fun x =>
            Vocabulary.same_fingerprint guildId roleId executorId (fst (fst x)) (snd (snd x))
            /\ snd (fst x) < t1 + 5000) rest ->
  deliver w1 t1 (roleUpdate oldRole1 newRole1) s = (r, s1, tr1) ->
  Trace.logged_violations tr1 <> [] ->
  Trace.logged_violations tr1 = [Vocabulary.roleUpdateViolation newRole1 executorId]
  /\ match deliver_all (map Vocabulary.roleUpdateAt rest) s1 with
     | (_, trs) =>
         length trs = length rest
         /\ Forall (fun tr => List.filter Trace.acts tr = []) trs
     end.
Proof.
  intros (Hg & Hr & Haudit) Hrest.
  unfold deliver. rewrite dispatch_roleUpdate.
  destruct (String.eqb _ _).
  - intros Hrun Hne.
    destruct (handleRoleUpdate_fired _ _ _ _ _ _ _ Hrun Hne)
      as (entry & entries & m & Hfetch & Hm & Hk & Hlog).
    rewrite Hg in Hfetch. specialize (Haudit entry entries Hfetch).
    rewrite Haudit in Hk, Hlog. rewrite Hg, Hr, advance_now in Hk.
    split; [exact Hlog|].
    exact (burst_rest_dropped guildId roleId executorId t1 rest Hrest s1 m executorId Hm Hk).
  - intros E Hne. exfalso. apply Hne. injection E as <- <- <-. reflexivity.
Qed.

(** C2, amended.  Take a burst of role updates with one fingerprint (server,
    role, executor named by the audit trail), each delivered less than five
    seconds after the first.  If the first one is remediated, the violation
    on record is the one of the first event, and every later event of the
    burst is dropped without any action: one remediation, for the first
    state seen. *)
Theorem role_update_burst_first_wins
    (guildId roleId executorId : string) (w1 : World) (t1 : Z)
    (oldRole1 newRole1 : Role) (rest : list (World * Z * (Role * Role)))
    (s s1 : State) (r : Res unit) (tr1 : list Effect) :
  Vocabulary.same_fingerprint guildId roleId executorId w1 newRole1 ->
  Forall (fun x =>
            Vocabulary.same_fingerprint guildId roleId executorId (fst (fst x)) (snd (snd x))
            /\ t1 <= snd (fst x) < t1 + 5000) rest ->
  deliver w1 t1 (roleUpdate oldRole1 newRole1) s = (r, s1, tr1) ->
  Trace.logged_violations tr1 <> [] ->
  Trace.logged_violations tr1 = [Vocabulary.roleUpdateViolation newRole1 executorId]
  /\ match deliver_all (map Vocabulary.roleUpdateAt rest) s1 with
     | (_, trs) =>
         length trs = length rest
         /\ Forall (fun tr => List.filter Trace.acts tr = []) trs
     end.
Proof.
  intros Hfirst Hrest.
  apply (burst_first_fired guildId roleId executorId); [exact Hfirst|].
  eapply List.Forall_impl; [|exact Hrest].
  intros x [Hfp Ht]. split; [exact Hfp | lia].
Qed.

(** Whichever event of a burst is the first to pass the gates, it is the only
    one: within a window of five seconds the updates of one fingerprint lead
    to no remediation, or to one, after which the rest of the burst is
    dropped. *)
Lemma role_update_burst_at_most_once
    (guildId roleId executorId : string) (t0 : Z)
    (burst : list (World * Z * (Role * Role))) :
  Forall (fun x =>
            Vocabulary.same_fingerprint guildId roleId executorId (fst (fst x)) (snd (snd x))
            /\ t0 <= snd (fst x) < t0 + 5000) burst ->
  forall s,
    match deliver_all (map Vocabulary.roleUpdateAt burst) s with
    | (_, trs) =>
        Forall (fun tr => Trace.logged_violations tr = []) trs
        \/ exists pre x post pre_trs tr post_trs,
             burst = pre ++ x :: post
             /\ trs = pre_trs ++ tr :: post_trs
             /\ length pre_trs = length pre
             /\ Forall (fun tr => Trace.logged_violations tr = []) pre_trs
             /\ Trace.logged_violations tr
                = [Vocabulary.roleUpdateViolation (snd (snd x)) executorId]
             /\ Forall (fun tr => List.filter Trace.acts tr = []) post_trs
    end.
Proof.
  induction 1 as [|[[w t] [oldRole newRole]] rest [Hfp Ht] Hrest IH]; intros s.
  - left. constructor.
  - cbn [map Vocabulary.roleUpdateAt deliver_all fst snd] in *.
    destruct (deliver w t (roleUpdate oldRole newRole) s) as [[r s1] tr1] eqn:Hrun.
    destruct (Trace.logged_violations tr1) as [|v vs] eqn:Hlog.
    + specialize (IH s1). destruct (deliver_all _ s1) as [s2 trs].
      destruct IH as [Hnone | (pre & x & post & pre_trs & tr & post_trs & IH)].
      * left. constructor; assumption.
      * destruct IH as (-> & -> & Hlen & Hpre & Hx & Hpost).
        right. exists ((w, t, (oldRole, newRole)) :: pre), x, post, (tr1 :: pre_trs), tr,
                 post_trs.
        repeat split; try assumption; [cbn; congruence | constructor; assumption].
    + assert (Hne : Trace.logged_violations tr1 <> []) by (rewrite Hlog; discriminate).
      assert (Hrest' : Forall (fun x =>
                  Vocabulary.same_fingerprint guildId roleId executorId
                    (fst (fst x)) (snd (snd x))
                  /\ snd (fst x) < t + 5000) rest).
      { eapply List.Forall_impl; [|exact Hrest].
        intros x [Hfp' Ht']. split; [exact Hfp' | lia]. }
      destruct (burst_first_fired guildId roleId executorId w t oldRole newRole rest
                  s s1 r tr1 Hfp Hrest' Hrun Hne) as [Hfirst Hlater].
      destruct (deliver_all _ s1) as [s2 trs]. destruct Hlater as [_ Hlater].
      right. exists [], (w, t, (oldRole, newRole)), rest, [], tr1, trs.
      repeat split; try assumption; constructor.
Qed.

Lemma world0_names_U1 (newRole : Role) :
  g_id (role_guild newRole) = "G" ->
  role_id newRole = "R" ->
  Vocabulary.same_fingerprint "G" "R" "U1" Scenario.world0 newRole.
Proof.
  intros Hg Hr. split; [exact Hg|]. split; [exact Hr|].
  intros e es H. cbn in H. injection H as <- _. reflexivity.
Qed.

Lemma role_update_burst_first_wins_witness :
  match deliver Scenario.world0 0 (roleUpdate Scenario.mods Scenario.renamed1)
          (Scenario.started Scenario.audited) with
  | (_, s1, tr1) =>
      Trace.logged_violations tr1
      = [Vocabulary.roleUpdateViolation Scenario.renamed1 "U1"]
      /\ match deliver_all (map Vocabulary.roleUpdateAt Scenario.laterRenames) s1 with
         | (_, trs) =>
             length trs = length Scenario.laterRenames
             /\ Forall (fun tr => List.filter Trace.acts tr = []) trs
         end
  end.
Proof.
  destruct (deliver Scenario.world0 0 (roleUpdate Scenario.mods Scenario.renamed1)
              (Scenario.started Scenario.audited)) as [[r s1] tr1] eqn:E.
  apply (role_update_burst_first_wins "G" "R" "U1" Scenario.world0 0
           Scenario.mods Scenario.renamed1 Scenario.laterRenames
           (Scenario.started Scenario.audited) s1 r tr1).
  - apply world0_names_U1; reflexivity.
  - repeat (apply List.Forall_cons;
              [split; [apply world0_names_U1; reflexivity | cbn; lia]|]).
    apply List.Forall_nil.
  - exact E.
  - vm_compute in E. injection E as <- <- <-. vm_compute. discriminate.
Defined.

(** C2, as stated, fails.  Of three renames of one role by one executor
    within a second, the one remediation is for the first: the violation on
    record carries the name the first event brought, not the last one's, and
    the last two events are dropped. *)
Lemma debounce_last_state_counterexample :
  match deliver_all (map Vocabulary.roleUpdateAt Scenario.renameBurst)
          (Scenario.started Scenario.audited) with
  | (_, trs) =>
      concat (map Trace.logged_violations trs)
      = [Vocabulary.roleUpdateViolation Scenario.renamed1 "U1"]
      /\ concat (map Trace.logged_violations trs)
         <> [Vocabulary.roleUpdateViolation Scenario.renamed3 "U1"]
      /\ map (fun tr => List.filter Trace.acts tr) (tl trs) = [[]; []]
  end.
Proof. vm_compute. split; [reflexivity|]. split; [discriminate | reflexivity]. Qed.

(** ** The fallback of the role path *)

Lemma restoreRole_run (backupId roleId : string) (w : World) (s : State) :
  BackupManager.restoreRole backupId roleId w s
  = (Val (bm_restoreRole w backupId roleId), s, [BmRestoreRole backupId roleId]).
Proof. reflexivity. Qed.

(** The loop of [performRestore] stops at the first of the older backups from
    which the role can be restored, and answers [true]; it has tried the
    backups before that one, in order, and none after it. *)
Lemma tryOlderBackups_first_success (finalBackupId roleId : string)
    (before : list BackupRow) (hit : BackupRow) (after_ : list BackupRow)
    (w : World) (s : State) :
  Forall (fun b => String.eqb (b_id b) finalBackupId = true
                   \/ bm_restoreRole w (b_id b) roleId = false) before ->
  String.eqb (b_id hit) finalBackupId = false ->
  bm_restoreRole w (b_id hit) roleId = true ->
  tryOlderBackups BackupManager.restoreRole finalBackupId roleId
    (before ++ hit :: after_) w s
  = (Val true, s,
     map (fun b => BmRestoreRole (b_id b) roleId)
       (List.filter (fun b => negb (String.eqb (b_id b) finalBackupId)) before
        ++ [hit])).
Proof.
  intros Hbefore Hne Hhit.
  induction Hbefore as [|b before [Hb|Hb] _ IH]; cbn [app tryOlderBackups List.filter].
  - rewrite Hne. unfold bind. rewrite restoreRole_run, Hhit. reflexivity.
  - rewrite Hb. cbn [negb]. exact IH.
  - destruct (String.eqb (b_id b) finalBackupId); cbn [negb]; [exact IH|].
    unfold bind. rewrite restoreRole_run, Hb, IH. reflexivity.
Qed.

(** ** The guild-update handler and the markers *)

Section GuildUpdate.

Import Vocabulary.

Local Hint Extern 1 (Trace.is_log _ = false) => reflexivity : keeps.
Local Hint Extern 1 (stable _ _) => (repeat split; reflexivity) : keeps.

Lemma restoreGuildSettings_run (guild : Guild) (w : World) (s : State) :
  exists s' tr,
    restoreGuildSettings guild w s = (Val tt, s', tr)
    /\ stable s s'
    /\ Trace.logged_violations tr = [].
Proof.
  assert (Hk : keeps stable (fun e => Trace.is_log e = false) (restoreGuildSettings guild)).
  { pose proof (markSelfAction_keeps (fun e => Trace.is_log e = false)).
    unfold restoreGuildSettings. keeps_auto. }
  specialize (Hk w s). unfold restoreGuildSettings in *.
  match type of Hk with
  | context [try_catch ?m _ w s] =>
      destruct (m w s) as [[r s'] tr] eqn:Hrun;
      rewrite (try_catch_unit m w s s' r tr Hrun) in Hk |- *
  end.
  destruct Hk as [Hs Ht]. exists s', tr.
  split; [reflexivity|]. split; [exact Hs|]. now apply logged_violations_none.
Qed.

(** Whatever markers are set, a change of the settings that the audit trail
    puts on somebody who is neither the bot nor on the configured lists is
    taken to the restore and recorded: [handleGuildUpdate] has no gate on
    the set of self-actions. *)
Lemma handleGuildUpdate_has_no_self_check (oldGuild newGuild : Guild) (w : World)
    (s : State) (config : GuardConfig) (entry : AuditEntry) (entries : list AuditEntry) :
  configs s !! g_id newGuild = Some config ->
  enabled config = true ->
  p_guild (protection config) = true ->
  fetchAuditLogs w (g_id newGuild) GuildUpdate = inr (entry :: entries) ->
  isBotAction w (executorOf entry) = false ->
  isWhitelisted w s (executorOf entry) (g_id newGuild) = false ->
  exists s' tr,
    handleGuildUpdate oldGuild newGuild w s
    = (Val tt, s', FetchAuditLogs (g_id newGuild) GuildUpdate :: tr)
    /\ map v_violationType (Trace.logged_violations tr) = ["guild_update_blocked"].
Proof.
  intros Hc He Hp Ha Hb Hw.
  unfold handleGuildUpdate. rewrite bind_get, bind_ask, Hc, He, Hp. cbn [negb orb].
  rewrite (bind_run _ _ _ _ _ _ _ (getAuditLog_run _ _ _ _)), Ha. cbn [head].
  rewrite Hb, Hw.
  destruct (restoreGuildSettings_run newGuild w s) as (s1 & t1 & H1 & Hs1 & Hl1).
  assert (Hc1 : configs s1 !! g_id newGuild = Some config)
    by (destruct Hs1 as [E _]; rewrite E; exact Hc).
  destruct (handleViolation_logged newGuild (executorOrUnknown entry) "guild_update_blocked"
              "Sunucu ayarlari degistirildi ve otomatik olarak geri yuklendi"
              high None w s1 config Hc1) as (s2 & t2 & H2 & Hs2 & Hl2).
  exists s2, (t1 ++ t2).
  erewrite try_catch_unit.
  2:{ rewrite (bind_run _ _ w s s1 tt t1 H1), H2. reflexivity. }
  split; [reflexivity|].
  rewrite logged_violations_app, Hl1, Hl2. reflexivity.
Qed.

End GuildUpdate.

(** ** The role handlers do consult the whitelist of the database *)

Lemma cachedWhitelisted_miss (type guildId target : string) (w : World) (s : State) :
  let cacheKey := type +:+ ":" +:+ guildId +:+ ":" +:+ target in
  whitelistCache s !! cacheKey = None ->
  cachedWhitelisted type guildId target w s
  = (Val (db_isWhitelisted w s guildId type target),
     set_whitelistCache
       (fun c => <[cacheKey := (db_isWhitelisted w s guildId type target, now s)]> c) s,
     []).
Proof.
  intros cacheKey H. unfold cachedWhitelisted. fold cacheKey.
  rewrite bind_get, bind_ask, H. reflexivity.
Qed.

(** An answer cached less than thirty seconds ago is served as it is, be it
    positive or negative. *)
Lemma cachedWhitelisted_fresh (type guildId target : string) (w : World) (s : State)
    (result : bool) (timestamp : Z) :
  whitelistCache s !! (type +:+ ":" +:+ guildId +:+ ":" +:+ target)
  = Some (result, timestamp) ->
  now s - timestamp < WHITELIST_CACHE_TTL ->
  cachedWhitelisted type guildId target w s = (Val result, s, []).
Proof.
  intros H Hfresh. unfold cachedWhitelisted.
  rewrite bind_get, bind_ask, H.
  destruct (Z.ltb_spec (now s - timestamp) WHITELIST_CACHE_TTL); [reflexivity | lia].
Qed.

Lemma checkWhitelist_user (guildId executorId action : string) (w : World) (s : State) :
  whitelistCache s !! ("user" +:+ ":" +:+ guildId +:+ ":" +:+ executorId) = None ->
  db_isWhitelisted w s guildId "user" executorId = true ->
  exists s',
    checkWhitelist guildId executorId action w s = (Val true, s', [])
    /\ Vocabulary.cache_only s s'.
Proof.
  intros Hmiss Hdb. eexists. split.
  - unfold checkWhitelist, try_catch, isUserWhitelisted.
    rewrite (bind_run _ _ _ _ _ _ _ (cachedWhitelisted_miss "user" guildId executorId w s Hmiss)).
    rewrite Hdb. reflexivity.
  - reflexivity.
Qed.

(** The deletion of a role by an executor whom the whitelist table lists as a
    user stops at the whitelist check, right after the audit lookup, when no
    answer for that user is cached. *)
Lemma handleRoleDelete_database_whitelist (role : Role) (w : World) (s : State)
    (entry : AuditEntry) (entries : list AuditEntry) (userId : string) :
  let guildId := g_id (role_guild role) in
  guildId = targetGuildId s ->
  isSelfAction s guildId (role_id role) = false ->
  fetchAuditLogs w guildId RoleDelete = inr (entry :: entries) ->
  executor entry = Some userId ->
  userId <> "" ->
  whitelistCache s !! ("user" +:+ ":" +:+ guildId +:+ ":" +:+ userId) = None ->
  db_isWhitelisted w s guildId "user" userId = true ->
  exists s',
    handleRoleDelete role w s = (Val tt, s', [FetchAuditLogs guildId RoleDelete])
    /\ Vocabulary.cache_only s s'.
Proof.
  intros guildId Htarget Hself Hfetch Hexec Hne Hmiss Hdb.
  destruct (checkWhitelist_user guildId userId "role_delete" w s Hmiss Hdb)
    as (s' & Hrun & Hs').
  exists s'. split; [|exact Hs'].
  unfold handleRoleDelete. fold guildId. rewrite bind_get.
  rewrite <- Htarget, String.eqb_refl. cbn [negb].
  apply try_catch_unit with (r := Val tt).
  rewrite Hself.
  rewrite (bind_run _ _ _ _ _ _ _ (getAuditLog_run _ _ _ _)). fold guildId.
  rewrite Hfetch. cbn [head]. rewrite Hexec.
  assert (Htruthy : JS.truthy (Some userId) = true).
  { cbn. destruct (String.eqb_spec userId ""); [contradiction | reflexivity]. }
  assert (Hor : JS.str_or (Some userId) "" = userId).
  { cbn. destruct (String.eqb_spec userId ""); [contradiction | reflexivity]. }
  rewrite Htruthy, Hor.
  rewrite (bind_run _ _ _ _ _ _ _ Hrun). reflexivity.
Qed.

(** ** The two action lists, seen from outside *)

(** With the default lists, a violation of type [role_delete] is followed by
    a restore of the role when its severity is critical, and by none when it
    is high. *)
Example restore_runs_for_critical_only :
  match handleViolation Scenario.guildG "U1" "role_delete" "d" critical (Some "R")
          Scenario.world_role_in_S1 (Scenario.started Scenario.audited),
        handleViolation Scenario.guildG "U1" "role_delete" "d" high (Some "R")
          Scenario.world_role_in_S1 (Scenario.started Scenario.audited) with
  | (_, _, tr_critical), (_, _, tr_high) =>
      In (BmRestoreRole "S3" "R") tr_critical
      /\ ~ In (BmRestoreRole "S3" "R") tr_high
      /\ Trace.violation_posts tr_high = 2%nat
  end.
Proof.
  vm_compute. split; [auto|]. split; [|reflexivity].
  intros H. repeat (destruct H as [H|H]; [discriminate H|]). exact H.
Qed.

(** * Further properties of the code *)

(** ** The counter store: what is written can be read until it expires *)

Lemma set_run (key value : string) (ttl : option Z) (w : World) (s : State) :
  (forall e, fails w e = None) ->
  match ttl with Some n => 0 <= n | None => True end ->
  RedisManager.set key value ttl w s
  = match ttl with
    | Some n =>
        if n =? 0
        then (Val tt, set_redis (fun r => <[key := (value, None)]> r) s, [RedisSet key value])
        else (Val tt,
              set_redis (fun r => <[key := (value, Some (now s + 1000 * n))]> r) s,
              [RedisSetEx key n value])
    | None => (Val tt, set_redis (fun r => <[key := (value, None)]> r) s, [RedisSet key value])
    end.
Proof.
  intros Hok Httl.
  unfold RedisManager.set, RedisManager.executeRedisOperation, try_catch,
    RedisManager.client_set, RedisManager.client_setEx, bind, modify.
  destruct ttl as [n|]; [destruct (Z.eqb_spec n 0) as [E|E]|];
    rewrite call_run, Hok; try reflexivity.
  destruct (Z.leb_spec n 0); [lia | reflexivity].
Qed.

Lemma get_run (key : string) (w : World) (s : State) :
  fails w (RedisGet key) = None ->
  RedisManager.get key w s = (Val (RedisManager.live s key), s, [RedisGet key]).
Proof.
  intros Hok.
  unfold RedisManager.get, RedisManager.executeRedisOperation, try_catch,
    RedisManager.client_get, bind.
  rewrite call_run, Hok. reflexivity.
Qed.

(** X1.  While the store answers, a value written by [set] is what [get]
    returns at any moment before the key expires, and [null] from the moment
    of expiry on.  A [ttl] that is absent or 0 is falsy: the key is written
    without an expiry and stays. *)
Theorem set_then_get (w : World) (s : State) (key value : string) (ttl : option Z) (t : Z) :
  (forall e, fails w e = None) ->
  match ttl with Some n => 0 <= n | None => True end ->
  exists s1 write,
    RedisManager.set key value ttl w s = (Val tt, s1, [write])
    /\ RedisManager.get key w (set_now t s1)
       = (Val (match ttl with
               | Some n => if (n =? 0) || (t <? now s + 1000 * n) then Some value else None
               | None => Some value
               end),
          set_now t s1, [RedisGet key]).
Proof.
  intros Hok Httl. rewrite (set_run key value ttl w s Hok Httl).
  destruct ttl as [n|]; [destruct (Z.eqb_spec n 0) as [E|E]|];
    eexists; eexists; (split; [reflexivity|]);
    rewrite get_run by apply Hok; unfold RedisManager.live; cbn;
    rewrite lookup_insert_eq; try reflexivity.
  destruct (Z.leb_spec (now s + 1000 * n) t), (Z.ltb_spec t (now s + 1000 * n));
    try lia; reflexivity.
Qed.

Lemma set_then_get_witness :
  exists s1 write,
    RedisManager.set "k" "v" (Some 60) Scenario.world0 (Scenario.started Scenario.audited)
    = (Val tt, s1, [write])
    /\ RedisManager.get "k" Scenario.world0 (set_now 59999 s1)
       = (Val (if (60 =? 0) || (59999 <? now (Scenario.started Scenario.audited) + 1000 * 60)
               then Some "v" else None),
          set_now 59999 s1, [RedisGet "k"]).
Proof.
  apply (set_then_get Scenario.world0 (Scenario.started Scenario.audited) "k" "v" (Some 60) 59999).
  - reflexivity.
  - lia.
Defined.

(** X2.  A count written by [setUserViolationCount] is the number
    [getUserViolationCount] reads back while the key lives, and 0 once it has
    expired: the decimal text written is parsed back to the same integer.
    [count] is taken in the range where JavaScript numbers are exact. *)
Theorem violation_count_roundtrip
    (w : World) (s : State) (userId guildId : string) (count ttl t : Z) :
  (forall e, fails w e = None) ->
  0 < ttl ->
  - 2 ^ 53 <= count < 2 ^ 53 ->
  let key := RedisManager.createGuardKey "violations" guildId userId None in
  exists s1,
    RedisManager.setUserViolationCount userId guildId count ttl w s
    = (Val tt, s1, [RedisSetEx key ttl (JS.toString count)])
    /\ RedisManager.getUserViolationCount userId guildId w (set_now t s1)
       = (Val (Some (if t <? now s + 1000 * ttl then count else 0)),
          set_now t s1, [RedisGet key]).
Proof.
  intros Hok Httl _ key.
  unfold RedisManager.setUserViolationCount, RedisManager.getUserViolationCount. fold key.
  rewrite (set_run key (JS.toString count) (Some ttl) w s Hok) by lia.
  destruct (Z.eqb_spec ttl 0) as [E|_]; [lia|].
  eexists. split; [reflexivity|].
  rewrite (bind_run _ _ _ _ _ _ _ (get_run key w _ (Hok _))).
  unfold Vocabulary.after, ret, RedisManager.live. cbn. rewrite lookup_insert_eq.
  destruct (Z.leb_spec (now s + 1000 * ttl) t), (Z.ltb_spec t (now s + 1000 * ttl));
    try lia.
  - reflexivity.
  - now rewrite count_of_toString.
Qed.

Lemma violation_count_roundtrip_witness :
  let key := RedisManager.createGuardKey "violations" "G" "U1" None in
  exists s1,
    RedisManager.setUserViolationCount "U1" "G" 7 3600 Scenario.world0
      (Scenario.started Scenario.audited)
    = (Val tt, s1, [RedisSetEx key 3600 (JS.toString 7)])
    /\ RedisManager.getUserViolationCount "U1" "G" Scenario.world0 (set_now 3600000 s1)
       = (Val (Some (if 3600000 <? now (Scenario.started Scenario.audited) + 1000 * 3600
                     then 7 else 0)),
          set_now 3600000 s1, [RedisGet key]).
Proof.
  apply (violation_count_roundtrip Scenario.world0 (Scenario.started Scenario.audited)
           "U1" "G" 7 3600 3600000).
  - reflexivity.
  - lia.
  - lia.
Defined.

(** *** Counting across several events *)

Lemma last_cons_default {A} (l : list A) (x d d' : A) :
  List.last (x :: l) d = List.last (x :: l) d'.
Proof.
  revert x. induction l as [|y l IH]; intros x; [reflexivity|].
  change (List.last (y :: l) d = List.last (y :: l) d'). apply IH.
Qed.

Lemma last_cons_self {A} (l : list A) (x d : A) :
  List.last (x :: l) d = List.last l x.
Proof.
  destruct l as [|y l]; [reflexivity|].
  change (List.last (y :: l) d = List.last (y :: l) x). apply last_cons_default.
Qed.

Lemma increments_chain (w : World) (userId guildId : string) (ttl : Z) :
  let key := RedisManager.createGuardKey "violations" guildId userId None in
  (forall e, fails w e = None) ->
  0 < ttl ->
  forall (times : list Z) (s : State) (n t : Z),
    redis s !! key = Some (JS.toString n, Some (t + 1000 * ttl)) ->
    Vocabulary.within (1000 * ttl) t times ->
    let s' := Vocabulary.increments w userId guildId ttl times s in
    redis s' !! key
    = Some (JS.toString (n + Z.of_nat (length times)), Some (List.last times t + 1000 * ttl))
    /\ (times <> [] -> now s' = List.last times t).
Proof.
  intros key Hok Httl times.
  induction times as [|t1 rest IH]; intros s n t Hkey Hwithin; cbn [Vocabulary.increments].
  - cbn. rewrite Z.add_0_r. split; [exact Hkey | congruence].
  - destruct Hwithin as [Ht1 Hrest].
    rewrite (incrementUserViolationCount_run w (set_now t1 s) userId guildId ttl n);
      try apply Hok; try assumption.
    2:{ fold key. unfold RedisManager.live.
        change (redis (set_now t1 s)) with (redis s).
        change (now (set_now t1 s)) with t1. rewrite Hkey.
        destruct (Z.leb_spec (t + 1000 * ttl) t1); [lia|]. apply count_of_toString. }
    fold key. cbn [now set_now].
    match goal with
    | |- context [Vocabulary.increments _ _ _ _ _ ?s1] =>
        specialize (IH s1 (n + 1) t1)
    end.
    destruct IH as [IH1 IH2].
    + unfold set_redis. cbn [redis]. apply lookup_insert_eq.
    + exact Hrest.
    + split.
      * rewrite IH1. f_equal. f_equal.
        -- f_equal. cbn [length]. lia.
        -- f_equal. f_equal. symmetry. apply last_cons_self.
      * intros _. rewrite last_cons_self. destruct rest as [|t2 rest'].
        -- reflexivity.
        -- apply IH2. discriminate.
Qed.

(** X3.  Events counted one after another, each less than [ttl] seconds after
    the one before, add up: after the last of them the counter reads their
    number, although more than [ttl] seconds may lie between the first and
    the last.  The window slides with every increment. *)
Theorem increments_accumulate
    (w : World) (s : State) (userId guildId : string) (ttl t0 : Z) (times : list Z) :
  let key := RedisManager.createGuardKey "violations" guildId userId None in
  (forall e, fails w e = None) ->
  0 < ttl ->
  RedisManager.live (set_now t0 s) key = None ->
  Vocabulary.within (1000 * ttl) t0 times ->
  let s' := Vocabulary.increments w userId guildId ttl (t0 :: times) s in
  RedisManager.getUserViolationCount userId guildId w s'
  = (Val (Some (1 + Z.of_nat (length times))), s', [RedisGet key])
  /\ RedisManager.pttl s' key = Some (1000 * ttl)
  /\ now s' = List.last times t0.
Proof.
  intros key Hok Httl Habsent Hwithin s'.
  subst s'. cbn [Vocabulary.increments].
  rewrite (incrementUserViolationCount_absent w (set_now t0 s) userId guildId ttl);
    try apply Hok; try assumption.
  fold key. cbn [now set_now].
  match goal with
  | |- context [Vocabulary.increments _ _ _ _ _ ?s1] =>
      destruct (increments_chain w userId guildId ttl Hok Httl times s1 1 t0) as [H1 H2];
      [ unfold set_redis; cbn [redis]; apply lookup_insert_eq | exact Hwithin | ];
      set (s' := Vocabulary.increments w userId guildId ttl times s1) in *
  end.
  fold key in H1. change (JS.toString 1) with "1" in H1.
  assert (Hnow : now s' = List.last times t0).
  { destruct times as [|t1 rest]; [reflexivity|]. apply H2. discriminate. }
  unfold RedisManager.getUserViolationCount. fold key.
  rewrite (bind_run _ _ _ _ _ _ _ (get_run key w s' (Hok _))).
  unfold Vocabulary.after, ret, RedisManager.live, RedisManager.pttl. rewrite H1, Hnow.
  destruct (Z.leb_spec (List.last times t0 + 1000 * ttl) (List.last times t0)); [lia|].
  rewrite count_of_toString. repeat split. f_equal. lia.
Qed.

Lemma increments_accumulate_witness :
  let key := RedisManager.createGuardKey "violations" "G" "U1" None in
  let s' := Vocabulary.increments Scenario.world0 "U1" "G" 3600 [0; 3000000; 6000000]
              (Scenario.started Scenario.audited) in
  RedisManager.getUserViolationCount "U1" "G" Scenario.world0 s'
  = (Val (Some (1 + Z.of_nat (length [3000000; 6000000]))), s', [RedisGet key])
  /\ RedisManager.pttl s' key = Some (1000 * 3600)
  /\ now s' = List.last [3000000; 6000000] 0.
Proof.
  apply (increments_accumulate Scenario.world0 (Scenario.started Scenario.audited)
           "U1" "G" 3600 0 [3000000; 6000000]).
  - reflexivity.
  - lia.
  - reflexivity.
  - cbn. lia.
Defined.

(** X4.  When the store accepts the read and refuses the write,
    [incrementUserViolationCount] throws the error of the write and the store
    is as it was: the event is not counted, and the key keeps its old value
    and its old expiry.  The counter stands at [n], written by the code
    itself or absent, with [n] in the range where JavaScript numbers are
    exact. *)
Theorem increment_refused_write_counts_nothing
    (w : World) (s : State) (userId guildId : string) (ttl n : Z) (err : Err) :
  let key := RedisManager.createGuardKey "violations" guildId userId None in
  fails w (RedisGet key) = None ->
  fails w (RedisSetEx key ttl (JS.toString (n + 1))) = Some err ->
  ttl <> 0 ->
  Vocabulary.stands_at s key n ->
  RedisManager.incrementUserViolationCount userId guildId ttl w s
  = (Exn err, s, [RedisGet key; RedisSetEx key ttl (JS.toString (n + 1))])
  /\ RedisManager.getUserViolationCount userId guildId w s = (Val (Some n), s, [RedisGet key]).
Proof.
  intros key Hget Hset Httl Hcount. apply stands_at_count_of in Hcount. split.
  - unfold RedisManager.incrementUserViolationCount. fold key.
    rewrite (bind_run _ _ _ _ _ _ _ (get_run key w s Hget)), Hcount.
    cbn [option_map RedisManager.num_toString].
    unfold RedisManager.set, RedisManager.executeRedisOperation, try_catch,
      RedisManager.client_setEx, bind, throw.
    destruct (Z.eqb_spec ttl 0) as [E|_]; [contradiction|].
    rewrite call_run, Hset. reflexivity.
  - unfold RedisManager.getUserViolationCount. fold key.
    rewrite (bind_run _ _ _ _ _ _ _ (get_run key w s Hget)), Hcount. reflexivity.
Qed.

Lemma increment_refused_write_counts_nothing_witness :
  let key := RedisManager.createGuardKey "violations" "G" "U1" None in
  let w := Scenario.with_fails Scenario.redis_read_only Scenario.world0 in
  RedisManager.incrementUserViolationCount "U1" "G" 3600 w (Scenario.started Scenario.audited)
  = (Exn RedisError, Scenario.started Scenario.audited,
     [RedisGet key; RedisSetEx key 3600 (JS.toString (0 + 1))])
  /\ RedisManager.getUserViolationCount "U1" "G" w (Scenario.started Scenario.audited)
     = (Val (Some 0), Scenario.started Scenario.audited, [RedisGet key]).
Proof.
  intros key w.
  apply (increment_refused_write_counts_nothing w (Scenario.started Scenario.audited)
           "U1" "G" 3600 0 RedisError).
  - reflexivity.
  - reflexivity.
  - lia.
  - split; [lia | right; split; reflexivity].
Defined.

(** ** The batching loop and the failures of the bulk assignment *)

Section Chunks.

Local Open Scope nat_scope.

Import BackupManager.

Lemma chunks_from_shape {A} (size : nat) (arr : list A) :
  0 < size ->
  forall fuel i, length arr - i <= fuel ->
  Forall (fun b => 1 <= length b <= size) (chunks_from fuel size i arr)
  /\ length arr - i <= length (chunks_from fuel size i arr) * size < length arr - i + size.
Proof.
  intros Hsize fuel. induction fuel as [|fuel IH]; intros i Hfuel; cbn [chunks_from].
  - split; [constructor | cbn; lia].
  - destruct (Nat.ltb_spec i (length arr)) as [Hi|Hi].
    + destruct (IH (i + size)) as [IH1 IH2]; [lia|].
      split.
      * constructor; [|exact IH1].
        unfold slice. rewrite length_firstn, length_skipn.
        replace (i + size - i) with size by lia.
        destruct (Nat.min_spec size (length arr - i)) as [[? ->]|[? ->]]; lia.
      * cbn [length].
        destruct (length (chunks_from fuel size (i + size) arr)) as [|n];
          rewrite ?Nat.mul_succ_l, ?Nat.mul_0_l in *; lia.
    + split; [constructor | cbn; lia].
Qed.

(** X5.  The loop that cuts an array into batches of [size]: the batches put
    end to end are the array, no batch is empty, none is longer than [size],
    and their number is the length of the array divided by [size], rounded
    up. *)
Theorem chunks_shape {A} (size : nat) (arr : list A) :
  0 < size ->
  concat (chunks size arr) = arr
  /\ Forall (fun b => 1 <= length b <= size) (chunks size arr)
  /\ length arr <= length (chunks size arr) * size < length arr + size.
Proof.
  intros Hsize. split; [now apply chunks_concat|].
  destruct (chunks_from_shape size arr Hsize (length arr) 0) as [H1 H2]; [lia|].
  unfold chunks. split; [exact H1 | lia].
Qed.

Lemma chunks_shape_witness :
  concat (chunks BATCH_SIZE (seq 0 120)) = seq 0 120
  /\ Forall (fun b => 1 <= length b <= BATCH_SIZE) (chunks BATCH_SIZE (seq 0 120))
  /\ length (seq 0 120) <= length (chunks BATCH_SIZE (seq 0 120)) * BATCH_SIZE
     < length (seq 0 120) + BATCH_SIZE.
Proof.
  apply (chunks_shape BATCH_SIZE (seq 0 120)). unfold BATCH_SIZE. lia.
Defined.

End Chunks.

(** X6.  When the list of the members that held the role cannot be read from
    the backup, or the members of the server cannot be fetched,
    [fastAssignRoleToMembers] gives up before it touches a member: no role is
    granted, the state is as it was, and the error stays inside the method. *)
Theorem fastAssignRoleToMembers_aborts_cleanly
    (w : World) (s : State) (guildId liveRoleId backupId roleId : string) (e : Err) :
  db_members_with_role w backupId roleId = inl e
  \/ ((exists ids, db_members_with_role w backupId roleId = inr ids)
      /\ members_fetch_all w guildId = inl e) ->
  BackupManager.fastAssignRoleToMembers guildId liveRoleId backupId roleId w s
  = (Val (BackupManager.Aborted e), s, []).
Proof.
  intros [Hdb|[[ids Hdb] Hfetch]];
    unfold BackupManager.fastAssignRoleToMembers, try_catch;
    rewrite bind_ask, Hdb; cbn [lift_sum].
  - reflexivity.
  - rewrite bind_ret, Hfetch. reflexivity.
Qed.

Lemma fastAssignRoleToMembers_aborts_cleanly_witness :
  BackupManager.fastAssignRoleToMembers "G" "R2" "S3" "R"
    (Scenario.members_unreachable Scenario.world0) (Scenario.started Scenario.audited)
  = (Val (BackupManager.Aborted NetworkError), Scenario.started Scenario.audited, []).
Proof.
  apply fastAssignRoleToMembers_aborts_cleanly.
  right. split; [exists []|]; reflexivity.
Defined.

(** X7.  [restoreEmoji] never throws and leaves the state alone; it makes at
    most one call, the creation of the emoji, and it answers [true] exactly
    when the backup has the emoji, the server the row names is in the cache,
    the image could be downloaded and the platform accepted the creation. *)
Theorem restoreEmoji_true_iff_created (backupId emojiId : string) (w : World) (s : State) :
  exists (b : bool) (tr : list Effect),
    BackupManager.restoreEmoji backupId emojiId w s = (Val b, s, tr)
    /\ (b = true <->
        exists emojiData guild,
          db_emoji_data w backupId emojiId = inr (Some emojiData)
          /\ client_guild w (ad_guildId emojiData) = Some guild
          /\ http_fetch w (ad_url emojiData) = None
          /\ tr = [EmojiCreateCall (g_id guild) (ad_name emojiData)]
          /\ fails w (EmojiCreateCall (g_id guild) (ad_name emojiData)) = None)
    /\ (b = false -> tr = [] \/ exists guildId name, tr = [EmojiCreateCall guildId name]).
Proof.
  unfold BackupManager.restoreEmoji, try_catch. rewrite bind_ask.
  destruct (db_emoji_data w backupId emojiId) as [e|[emojiData|]] eqn:Hdb; cbn [lift_sum].
  - exists false, []. split; [reflexivity|]. split; [|auto].
    split; [discriminate|]. intros (d & g & H & _). discriminate H.
  - rewrite bind_ret.
    destruct (client_guild w (ad_guildId emojiData)) as [guild|] eqn:Hg.
    + destruct (http_fetch w (ad_url emojiData)) as [e|] eqn:Hf.
      * exists false, []. split; [reflexivity|]. split; [|auto].
        split; [discriminate|]. intros (d & g & H & Hg' & Hf' & _).
        injection H as <-. congruence.
      * unfold bind, ret. rewrite call_run.
        destruct (fails w (EmojiCreateCall (g_id guild) (ad_name emojiData))) eqn:Hc.
        -- exists false, [EmojiCreateCall (g_id guild) (ad_name emojiData)].
           split; [reflexivity|]. split; [|eauto].
           split; [discriminate|]. intros (d & g & H & Hg' & _ & _ & Hc').
           injection H as <-. rewrite Hg in Hg'. injection Hg' as <-. congruence.
        -- exists true, [EmojiCreateCall (g_id guild) (ad_name emojiData)].
           split; [reflexivity|]. split; [|discriminate].
           split; [|reflexivity]. intros _. exists emojiData, guild. auto.
    + exists false, []. split; [reflexivity|]. split; [|auto].
      split; [discriminate|]. intros (d & g & H & Hg' & _).
      injection H as <-. congruence.
  - rewrite bind_ret. exists false, []. split; [reflexivity|]. split; [|auto].
    split; [discriminate|]. intros (d & g & H & _). discriminate H.
Qed.

(** ** What a listener's promise can do *)

Section Returns.

Import Vocabulary.

Lemma returns_ret {A} (a : A) : returns (ret a).
Proof. intros w s. now exists a, s, []. Qed.

Lemma returns_get : returns get.
Proof. intros w s. now exists s, s, []. Qed.

Lemma returns_ask : returns ask.
Proof. intros w s. now exists w, s, []. Qed.

Lemma returns_modify (f : State -> State) : returns (modify f).
Proof. intros w s. now exists tt, (f s), []. Qed.

Lemma returns_emit (e : Effect) : returns (emit e).
Proof. intros w s. now exists tt, s, [e]. Qed.

Lemma returns_bind {A B} (m : M A) (f : A -> M B) :
  returns m -> (forall a, returns (f a)) -> returns (bind m f).
Proof.
  intros Hm Hf w s. unfold bind.
  destruct (Hm w s) as (a & s1 & t1 & ->).
  destruct (Hf a w s1) as (b & s2 & t2 & ->). now exists b, s2, (t1 ++ t2).
Qed.

(** A [try] whose [catch] does not throw does not throw, whatever its body
    does. *)
Lemma returns_try_catch {A} (m : M A) (h : Err -> M A) :
  (forall e, returns (h e)) -> returns (try_catch m h).
Proof.
  intros Hh w s. unfold try_catch.
  destruct (m w s) as [[[a|e] s1] t1].
  - now exists a, s1, t1.
  - destruct (Hh e w s1) as (b & s2 & t2 & ->). now exists b, s2, (t1 ++ t2).
Qed.

Lemma returns_try_finally {A} (m : M A) (f : M unit) :
  returns m -> returns f -> returns (try_finally m f).
Proof.
  intros Hm Hf w s. unfold try_finally.
  destruct (Hm w s) as (a & s1 & t1 & ->).
  destruct (Hf w s1) as (u & s2 & t2 & ->).
  now exists a, s2, (t1 ++ t2).
Qed.

End Returns.

Ltac returns_step :=
  lazymatch goal with
  | |- Vocabulary.returns (bind _ _) => apply returns_bind; [ | intros ?]
  | |- Vocabulary.returns (try_catch _ _) => apply returns_try_catch; intros ?
  | |- Vocabulary.returns (try_finally _ _) => apply returns_try_finally
  | |- Vocabulary.returns (ret _) => apply returns_ret
  | |- Vocabulary.returns get => apply returns_get
  | |- Vocabulary.returns ask => apply returns_ask
  | |- Vocabulary.returns (modify _) => apply returns_modify
  | |- Vocabulary.returns (emit _) => apply returns_emit
  | |- Vocabulary.returns (if ?c then _ else _) => destruct c
  | |- Vocabulary.returns (match ?x with _ => _ end) => destruct x
  end.

Ltac returns_auto := repeat first [ returns_step | progress cbv zeta ].

Lemma returns_handleViolation (guild : Guild) (userId violationType description : string)
    (severity : Severity) (target : option string) :
  Vocabulary.returns (handleViolation guild userId violationType description severity target).
Proof. unfold handleViolation. returns_auto. Qed.

Lemma returns_getAuditLog (guild : Guild) (action : AuditLogEvent) :
  Vocabulary.returns (getAuditLog guild action).
Proof. unfold getAuditLog. returns_auto. Qed.

Lemma returns_handleGenericEvent (guild : Guild) (target eventType : string)
    (auditEvent : AuditLogEvent) (action : M unit) :
  Vocabulary.returns (handleGenericEvent guild target eventType auditEvent action).
Proof. unfold handleGenericEvent, getAuditLog. returns_auto. Qed.

Lemma returns_handleRoleUpdate (oldRole newRole : Role) :
  Vocabulary.returns (handleRoleUpdate oldRole newRole).
Proof.
  unfold handleRoleUpdate, getAuditLog, checkWhitelist, recordChange, setTimeout.
  returns_auto.
Qed.

Lemma returns_handleRoleDelete (role : Role) : Vocabulary.returns (handleRoleDelete role).
Proof. unfold handleRoleDelete. returns_auto. Qed.

Lemma returns_handleChannelUpdate (oldChannel newChannel : Channel) :
  Vocabulary.returns (handleChannelUpdate oldChannel newChannel).
Proof. unfold handleChannelUpdate, getAuditLog, recordChange. returns_auto. Qed.

Lemma returns_handleChannelDelete (channel : Channel) :
  Vocabulary.returns (handleChannelDelete channel).
Proof. unfold handleChannelDelete, setTimeout. returns_auto. Qed.

Lemma returns_handleWebhookUpdate (channel : Channel) :
  Vocabulary.returns (handleWebhookUpdate channel).
Proof. unfold handleWebhookUpdate, getAuditLog. returns_auto. Qed.

Lemma returns_handleGuildUpdate (oldGuild newGuild : Guild) :
  Vocabulary.returns (handleGuildUpdate oldGuild newGuild).
Proof. unfold handleGuildUpdate, getAuditLog. returns_auto. Qed.

Lemma returns_handleGuildDelete (guild : Guild) : Vocabulary.returns (handleGuildDelete guild).
Proof.
  pose proof returns_handleViolation.
  unfold handleGuildDelete, getAuditLog. returns_auto; auto.
Qed.

Lemma returns_handleMemberJoin (member : GuildMember) :
  Vocabulary.returns (handleMemberJoin member).
Proof.
  pose proof returns_handleViolation.
  unfold handleMemberJoin. returns_auto; auto.
Qed.

Lemma returns_handleMemberUpdate (oldMember newMember : GuildMember) :
  Vocabulary.returns (handleMemberUpdate oldMember newMember).
Proof.
  pose proof returns_handleViolation.
  unfold handleMemberUpdate, getAuditLog. returns_auto; auto.
Qed.

Lemma returns_handleMemberLeave (member : GuildMember) :
  Vocabulary.returns (handleMemberLeave member).
Proof.
  pose proof returns_handleViolation.
  unfold handleMemberLeave, getAuditLog. returns_auto; auto.
Qed.

(** X8.  The promise of a listener is never rejected, whatever the platform,
    the database and the backup manager answer, for every event but the
    creation of an invite, whose handler calls the counter store outside a
    [try]. *)
Theorem dispatch_never_throws (ev : GatewayEvent) (w : World) (s : State) :
  Vocabulary.counts_invites ev = false ->
  exists s' tr, dispatch ev w s = (Val tt, s', tr).
Proof.
  intros Hev.
  assert (H : Vocabulary.returns (dispatch ev)).
  { unfold dispatch. apply returns_bind; [apply returns_get | intros s0].
    destruct ev as [o n|g|c|o c|c|r|o r|r|m|o m|m|e|o e|e|x|o x|x|c|i|i];
      try destruct c; try destruct x; try destruct i; try discriminate Hev;
      try apply returns_ret;
      match goal with
      | |- Vocabulary.returns (if ?c then _ else _) => destruct c; [|apply returns_ret]
      end;
      first [ apply returns_handleGuildUpdate | apply returns_handleGuildDelete
            | apply returns_handleGenericEvent | apply returns_handleChannelUpdate
            | apply returns_handleChannelDelete | apply returns_handleRoleUpdate
            | apply returns_handleRoleDelete | apply returns_handleMemberJoin
            | apply returns_handleMemberUpdate | apply returns_handleMemberLeave
            | apply returns_handleWebhookUpdate | apply returns_ret ]. }
  destruct (H w s) as ([] & s' & tr & Hrun). now exists s', tr.
Qed.

Lemma dispatch_never_throws_witness :
  exists s' tr,
    dispatch (roleDelete (Scenario.role Scenario.guildG "R" "mods" 0))
      (Scenario.with_fails (fun _ => Some (PlatformError 50013)) Scenario.world0)
      (Scenario.started Scenario.audited)
    = (Val tt, s', tr).
Proof.
  apply dispatch_never_throws. reflexivity.
Defined.

(** ** Echoes *)

Lemma handleRoleDelete_self_check (role : Role) (w : World) (s : State) :
  isSelfAction s (g_id (role_guild role)) (role_id role) = true ->
  handleRoleDelete role w s = (Val tt, s, []).
Proof.
  intros H. unfold handleRoleDelete. rewrite bind_get.
  destruct (negb _); [reflexivity|].
  unfold try_catch. rewrite H. reflexivity.
Qed.

Lemma handleChannelUpdate_self_check (oldChannel newChannel : Channel) (w : World)
    (s : State) :
  isSelfAction s (g_id (channel_guild newChannel)) (channel_id newChannel) = true ->
  handleChannelUpdate oldChannel newChannel w s = (Val tt, s, []).
Proof.
  intros H. unfold handleChannelUpdate. rewrite bind_get, bind_ask, H. reflexivity.
Qed.

Lemma handleChannelDelete_self_check (channel : Channel) (w : World) (s : State) :
  isSelfAction s (g_id (channel_guild channel)) (channel_id channel) = true ->
  handleChannelDelete channel w s = (Val tt, s, []).
Proof.
  intros H. unfold handleChannelDelete. rewrite bind_get, bind_ask, H. reflexivity.
Qed.

(** X9.  An event about a role, a channel, an emoji or a sticker whose key
    is in the set of self-actions is dropped by its handler before the audit
    trail is read: no state change, no call. *)
Theorem marked_event_is_dropped (ev : GatewayEvent) (w : World) (s : State)
    (guildId id : string) :
  Vocabulary.echo_target ev = Some (guildId, id) ->
  isSelfAction s guildId id = true ->
  dispatch ev w s = (Val tt, s, []).
Proof.
  intros Hev Hself. unfold dispatch. rewrite bind_get.
  destruct ev as [o n|g|c|o c|c|r|o r|r|m|o m|m|e|o e|e|x|o x|x|c|i|i];
    try destruct c; try destruct x; try discriminate Hev;
    cbn [Vocabulary.echo_target] in Hev; injection Hev as <- <-;
    match goal with
    | |- (if ?c then _ else _) w s = _ => destruct c; [|reflexivity]
    end;
    first [ now apply handleGenericEvent_self_check
          | now apply handleRoleUpdate_self_check
          | now apply handleRoleDelete_self_check
          | now apply handleChannelUpdate_self_check
          | now apply handleChannelDelete_self_check ].
Qed.

Lemma marked_event_is_dropped_witness :
  let s := set_selfActions (fun x => {["G:E"]} ∪ x) (Scenario.started Scenario.audited) in
  dispatch (emojiDelete (Scenario.emoji Scenario.guildG "E" "party")) Scenario.world0 s
  = (Val tt, s, []).
Proof.
  intros s.
  apply (marked_event_is_dropped _ Scenario.world0 s "G" "E"); reflexivity.
Defined.

(** X10.  A member update in which the old or the new member is partial, and
    the removal of a partial member, never reach their handler. *)
Theorem partial_member_event_is_ignored (ev : GatewayEvent) (w : World) (s : State) :
  Vocabulary.partial_member ev = true ->
  dispatch ev w s = (Val tt, s, []).
Proof.
  intros Hev. unfold dispatch. rewrite bind_get.
  destruct ev; try discriminate Hev; cbn [Vocabulary.partial_member] in Hev.
  - apply orb_true_iff in Hev.
    destruct (String.eqb _ _); [|reflexivity]. cbn [andb].
    destruct Hev as [-> | ->]; [reflexivity|].
    destruct (member_partial oldMember); reflexivity.
  - rewrite Hev. destruct (String.eqb _ _); reflexivity.
Qed.

Lemma partial_member_event_is_ignored_witness :
  let member :=
    {| member_id := "U2"; member_guild := Scenario.guildG; member_tag := "u2";
       member_createdTimestamp := 0; member_partial := true; member_roles := [] |} in
  dispatch (guildMemberRemove member) Scenario.world0 (Scenario.started Scenario.audited)
  = (Val tt, Scenario.started Scenario.audited, []).
Proof.
  intros member. apply partial_member_event_is_ignored. reflexivity.
Defined.

(** ** The life of a marker *)

Lemma fold_timers_selfActions_subseteq (l : list (Z * TimerAction)) (s : State) :
  selfActions (fold_left (fun s p => run_timer (snd p) s) l s) ⊆ selfActions s.
Proof.
  revert s. induction l as [|[d a] l IH]; intros s; cbn [fold_left]; [reflexivity|].
  etrans; [apply IH|]. destruct a as [k|k]; cbn; [|reflexivity].
  intros x Hx. apply elem_of_difference in Hx. tauto.
Qed.

Lemma fold_timers_deletes (l : list (Z * TimerAction)) (s : State) (d : Z) (key : string) :
  In (d, DeleteSelfAction key) l ->
  key ∉ selfActions (fold_left (fun s p => run_timer (snd p) s) l s).
Proof.
  revert s. induction l as [|p l IH]; intros s; [intros []|].
  intros [->|Hin]; cbn [fold_left].
  - intros H. apply fold_timers_selfActions_subseteq in H. cbn in H.
    apply elem_of_difference in H. destruct H as [_ H]. apply H. now apply elem_of_singleton.
  - now apply IH.
Qed.

Lemma fold_timers_spares (l : list (Z * TimerAction)) (s : State) (key : string) :
  Forall (fun p => snd p <> DeleteSelfAction key) l ->
  key ∈ selfActions s ->
  key ∈ selfActions (fold_left (fun s p => run_timer (snd p) s) l s).
Proof.
  revert s. induction l as [|[d a] l IH]; intros s Hl Hs; [exact Hs|].
  apply List.Forall_cons_iff in Hl. destruct Hl as [Ha Hl]. cbn [fold_left].
  apply IH; [exact Hl|].
  destruct a as [k|k]; cbn in *; [|exact Hs].
  apply elem_of_difference. split; [exact Hs|].
  rewrite elem_of_singleton. congruence.
Qed.

Lemma selfActions_advance (t : Z) (s : State) :
  selfActions (advance t s)
  = selfActions (fold_left (fun s p => run_timer (snd p) s)
                   (List.filter (fun p => Z.leb (fst p) t) (timers s)) s).
Proof. reflexivity. Qed.

(** A timer that is due by [T] has taken its key out of the set at [T],
    whatever was added to the set in between. *)
Lemma pending_timer_clears (s : State) (d T : Z) (key : string) :
  In (d, DeleteSelfAction key) (timers s) ->
  d <= T ->
  key ∉ selfActions (advance T s).
Proof.
  intros Hin Hd. rewrite selfActions_advance.
  apply (fold_timers_deletes _ _ d). apply List.filter_In. split; [exact Hin|].
  cbn. now apply Z.leb_le.
Qed.

Lemma markSelfAction_run (guildId targetId : string) (w : World) (s : State) :
  markSelfAction guildId targetId w s
  = (Val tt,
     set_timers
       (fun l => l ++ [(now s + SELF_ACTION_TIMEOUT, DeleteSelfAction (key2 guildId targetId))])
       (set_selfActions (fun x => {[key2 guildId targetId]} ∪ x) s),
     []).
Proof. reflexivity. Qed.

Lemma tick_selfActions_subseteq (x : Vocabulary.Tick) (s : State) :
  selfActions (Vocabulary.tick x s) ⊆ selfActions s.
Proof.
  destruct x as [t| |]; cbn [Vocabulary.tick].
  - rewrite selfActions_advance. apply fold_timers_selfActions_subseteq.
  - cbn. apply empty_subseteq.
  - reflexivity.
Qed.

Lemma ticks_selfActions_subseteq (l : list Vocabulary.Tick) (s : State) :
  selfActions (Vocabulary.ticks l s) ⊆ selfActions s.
Proof.
  revert s. induction l as [|x l IH]; intros s; [reflexivity|].
  unfold Vocabulary.ticks. cbn [fold_left].
  etrans; [apply IH | apply tick_selfActions_subseteq].
Qed.

(** Whatever happens in between, a key is out of the set or its timer is
    still pending. *)
Lemma ticks_gone_or_pending (l : list Vocabulary.Tick) (s : State) (d : Z) (key : string) :
  key ∉ selfActions s \/ In (d, DeleteSelfAction key) (timers s) ->
  key ∉ selfActions (Vocabulary.ticks l s)
  \/ In (d, DeleteSelfAction key) (timers (Vocabulary.ticks l s)).
Proof.
  revert s. induction l as [|x l IH]; intros s H; [exact H|].
  unfold Vocabulary.ticks. cbn [fold_left]. apply IH.
  destruct H as [H|H].
  - left. intros Hin. apply H. revert Hin. apply tick_selfActions_subseteq.
  - destruct x as [t| |]; cbn [Vocabulary.tick].
    + destruct (Z.leb_spec d t) as [Hd|Hd].
      * left. now apply (pending_timer_clears s d t).
      * right. cbn. apply List.filter_In. split; [exact H|].
        cbn. apply negb_true_iff, Z.leb_gt. exact Hd.
    + left. cbn. apply not_elem_of_empty.
    + right. exact H.
Qed.

(** Ticks that spare the key leave it in the set. *)
Lemma ticks_spare (l : list Vocabulary.Tick) (s : State) (due : Z) (key : string)
    (older : list (Z * TimerAction)) :
  Forall (Vocabulary.spares key due older) l ->
  (forall p, In p (timers s) -> In p older \/ p = (due, DeleteSelfAction key)) ->
  key ∈ selfActions s ->
  key ∈ selfActions (Vocabulary.ticks l s).
Proof.
  revert s. induction l as [|x l IH]; intros s Hl Ht Hs; [exact Hs|].
  apply List.Forall_cons_iff in Hl. destruct Hl as [Hx Hl].
  unfold Vocabulary.ticks. cbn [fold_left]. apply IH; [exact Hl | |].
  - intros p Hp. apply Ht. destruct x as [t| |]; cbn in Hp; [|exact Hp|exact Hp].
    apply List.filter_In in Hp. tauto.
  - destruct x as [t| |]; cbn [Vocabulary.tick]; [|destruct Hx|exact Hs].
    destruct Hx as [Hdue Hold].
    rewrite selfActions_advance. apply fold_timers_spares; [|exact Hs].
    apply List.Forall_forall. intros [d a] Hin Ha.
    apply List.filter_In in Hin. destruct Hin as [Hin Hd].
    cbn in Hd, Ha. apply Z.leb_le in Hd. subst a.
    destruct (Ht _ Hin) as [Hp|Hp].
    + rewrite List.Forall_forall in Hold. specialize (Hold _ Hp eq_refl). cbn in Hold. lia.
    + injection Hp as ->. lia.
Qed.

(** X11.  The life of a marker set by [markSelfAction], with [between] what
    happens to the state after the mark while no listener runs.  Ten seconds
    after the mark the marker is gone, whatever happened in between.  A full
    cleanup, which [startMonitoring] runs every five minutes, takes the marker
    away at once, however young it is.  And the marker is there as long as
    everything in between spares it: no full cleanup, and time passing only to
    moments before the ten seconds are over at which no timer armed earlier
    for the same key is due. *)
Theorem marker_lifetime (guildId targetId : string) (w : World) (s : State)
    (between : list Vocabulary.Tick) (T : Z) :
  let key := key2 guildId targetId in
  let due := now s + SELF_ACTION_TIMEOUT in
  exists s1,
    markSelfAction guildId targetId w s = (Val tt, s1, [])
    /\ (due <= T ->
        isSelfAction (advance T (Vocabulary.ticks between s1)) guildId targetId = false)
    /\ (In Vocabulary.fullCleanup between ->
        isSelfAction (Vocabulary.ticks between s1) guildId targetId = false)
    /\ (Forall (Vocabulary.spares key due (timers s)) between ->
        isSelfAction (Vocabulary.ticks between s1) guildId targetId = true).
Proof.
  intros key due.
  eexists. split; [apply markSelfAction_run|]. fold key. fold due.
  match goal with |- context [Vocabulary.ticks between ?x] => set (s1 := x) end.
  assert (Hpending : In (due, DeleteSelfAction key) (timers s1))
    by (cbn; apply in_or_app; right; now left).
  split; [|split].
  - intros HT. unfold isSelfAction. apply bool_decide_eq_false. fold key.
    destruct (ticks_gone_or_pending between s1 due key (or_intror Hpending)) as [H|H].
    + intros Hin. apply H. revert Hin.
      rewrite selfActions_advance. apply fold_timers_selfActions_subseteq.
    + now apply (pending_timer_clears _ due).
  - intros Hin. unfold isSelfAction. apply bool_decide_eq_false. fold key.
    apply in_split in Hin. destruct Hin as (l1 & l2 & ->).
    unfold Vocabulary.ticks. rewrite fold_left_app. cbn [fold_left Vocabulary.tick].
    intros H. apply (ticks_selfActions_subseteq l2) in H. cbn in H.
    now apply not_elem_of_empty in H.
  - intros Hspare. unfold isSelfAction. apply bool_decide_eq_true. fold key.
    apply (ticks_spare between s1 due key (timers s)); [exact Hspare | |].
    + intros p Hp. cbn in Hp. apply in_app_or in Hp.
      destruct Hp as [Hp|[Hp|[]]]; [now left | now right].
    + cbn. apply elem_of_union_l. now apply elem_of_singleton.
Qed.

(** A marker set at 0: still there at 9999 after a sweep of the cache, gone
    at 10000, and gone at 5000 when the full cleanup ran. *)
Example life_of_a_marker_example :
  match markSelfAction "G" "R" Scenario.world0 (Scenario.started Scenario.audited) with
  | (_, s1, _) =>
      now (Scenario.started Scenario.audited) = 0
      /\ isSelfAction
           (Vocabulary.ticks
              [Vocabulary.passes 3000; Vocabulary.cacheSweep; Vocabulary.passes 9999] s1)
           "G" "R" = true
      /\ isSelfAction (advance 10000 s1) "G" "R" = false
      /\ isSelfAction
           (Vocabulary.ticks [Vocabulary.passes 5000; Vocabulary.fullCleanup] s1)
           "G" "R" = false
  end.
Proof. vm_compute. intuition. Qed.

(** X12.  Marking a key again does not put off the timer of the first mark:
    ten seconds after the first mark the key is gone, however young the
    second mark is. *)
Theorem remark_does_not_extend (guildId targetId : string) (w w' : World) (s : State)
    (t1 T : Z) :
  t1 < now s + SELF_ACTION_TIMEOUT <= T ->
  T < t1 + SELF_ACTION_TIMEOUT ->
  match markSelfAction guildId targetId w s with
  | (_, s1, _) =>
      match markSelfAction guildId targetId w' (advance t1 s1) with
      | (_, s2, _) => isSelfAction (advance T s2) guildId targetId = false
      end
  end.
Proof.
  intros Ht1 _. rewrite !markSelfAction_run.
  unfold isSelfAction. apply bool_decide_eq_false.
  apply (pending_timer_clears _ (now s + SELF_ACTION_TIMEOUT)); [|lia].
  cbn [timers set_timers set_selfActions advance set_now].
  apply in_or_app. left. apply List.filter_In. split.
  - apply in_or_app. right. now left.
  - cbn. apply negb_true_iff, Z.leb_gt. lia.
Qed.

Lemma remark_does_not_extend_witness :
  match markSelfAction "G" "R" Scenario.world0 (Scenario.started Scenario.audited) with
  | (_, s1, _) =>
      match markSelfAction "G" "R" Scenario.world0 (advance 9000 s1) with
      | (_, s2, _) => isSelfAction (advance 10000 s2) "G" "R" = false
      end
  end.
Proof.
  apply (remark_does_not_extend "G" "R" Scenario.world0 Scenario.world0
           (Scenario.started Scenario.audited) 9000 10000).
  - unfold SELF_ACTION_TIMEOUT. cbn. lia.
  - unfold SELF_ACTION_TIMEOUT. lia.
Defined.

(** ** The cache of whitelist answers *)

Lemma cleanupWhitelistCache_lookup (s : State) (key : string) :
  whitelistCache (cleanupWhitelistCache s) !! key
  = match whitelistCache s !! key with
    | Some (result, timestamp) =>
        if WHITELIST_CACHE_TTL <? now s - timestamp then None else Some (result, timestamp)
    | None => None
    end.
Proof.
  unfold cleanupWhitelistCache. cbn [whitelistCache set_whitelistCache].
  destruct (whitelistCache s !! key) as [[result timestamp]|] eqn:E.
  - destruct (Z.ltb_spec WHITELIST_CACHE_TTL (now s - timestamp)) as [H|H].
    + apply map_lookup_filter_None. right. intros x Hx. rewrite E in Hx.
      injection Hx as <-. cbn. intros Hn. apply Hn. exact H.
    + apply map_lookup_filter_Some. split; [exact E|]. cbn. lia.
  - apply map_lookup_filter_None. left. exact E.
Qed.

(** X13.  The sweep of the whitelist cache changes no answer: what
    [cleanupWhitelistCache] deletes is older than the time to live, and an
    entry that old is not served by the lookup either.  (An entry whose age
    is the time to live to the millisecond survives the sweep, and is not
    served.) *)
Theorem cleanupWhitelistCache_keeps_answers
    (type guildId targetId : string) (w : World) (s : State) :
  fst (fst (cachedWhitelisted type guildId targetId w (cleanupWhitelistCache s)))
  = fst (fst (cachedWhitelisted type guildId targetId w s))
  /\ (forall key result timestamp,
        whitelistCache (cleanupWhitelistCache s) !! key = Some (result, timestamp) ->
        whitelistCache s !! key = Some (result, timestamp)
        /\ now s - timestamp <= WHITELIST_CACHE_TTL)
  /\ (forall key result timestamp,
        whitelistCache s !! key = Some (result, timestamp) ->
        now s - timestamp <= WHITELIST_CACHE_TTL ->
        whitelistCache (cleanupWhitelistCache s) !! key = Some (result, timestamp)).
Proof.
  split; [|split].
  - unfold cachedWhitelisted. rewrite !bind_get, !bind_ask.
    rewrite cleanupWhitelistCache_lookup.
    change (now (cleanupWhitelistCache s)) with (now s).
    change (db_isWhitelisted w (cleanupWhitelistCache s)) with (db_isWhitelisted w s).
    destruct (whitelistCache s !! _) as [[result timestamp]|]; [|reflexivity].
    destruct (Z.ltb_spec WHITELIST_CACHE_TTL (now s - timestamp)) as [H|H].
    + destruct (Z.ltb_spec (now s - timestamp) WHITELIST_CACHE_TTL); [lia | reflexivity].
    + destruct (Z.ltb_spec (now s - timestamp) WHITELIST_CACHE_TTL); reflexivity.
  - intros key result timestamp. rewrite cleanupWhitelistCache_lookup.
    destruct (whitelistCache s !! key) as [[r ts]|]; [|discriminate].
    destruct (Z.ltb_spec WHITELIST_CACHE_TTL (now s - ts)) as [Hold|Hage]; [discriminate|].
    intros E. injection E as <- <-. split; [reflexivity | lia].
  - intros key result timestamp H Hage. rewrite cleanupWhitelistCache_lookup, H.
    destruct (Z.ltb_spec WHITELIST_CACHE_TTL (now s - timestamp)); [lia | reflexivity].
Qed.

(** X14.  An answer that says yes for the executor, cached less than thirty
    seconds ago, settles [checkWhitelist]: the table is not read, so an entry
    removed from the table in the meantime still counts. *)
Theorem checkWhitelist_trusts_fresh_cache
    (guildId executorId action : string) (w : World) (s : State) (timestamp : Z) :
  whitelistCache s !! ("user" +:+ ":" +:+ guildId +:+ ":" +:+ executorId)
  = Some (true, timestamp) ->
  now s - timestamp < WHITELIST_CACHE_TTL ->
  checkWhitelist guildId executorId action w s = (Val true, s, []).
Proof.
  intros Hcache Hfresh.
  unfold checkWhitelist, try_catch, isUserWhitelisted.
  rewrite (bind_run _ _ _ _ _ _ _
             (cachedWhitelisted_fresh "user" guildId executorId w s true timestamp
                Hcache Hfresh)).
  reflexivity.
Qed.

Lemma checkWhitelist_trusts_fresh_cache_witness :
  let s := set_now 29999
             (set_whitelistCache (fun c => <["user:G:U1" := (true, 0)]> c)
                (Scenario.started Scenario.audited)) in
  checkWhitelist "G" "U1" "role_delete" Scenario.world0 s = (Val true, s, []).
Proof.
  intros s.
  apply (checkWhitelist_trusts_fresh_cache "G" "U1" "role_delete" Scenario.world0 s 0).
  - reflexivity.
  - unfold WHITELIST_CACHE_TTL. cbn. lia.
Defined.

(** *** When the table cannot be read *)

Section DatabaseDown.

Variable w : World.
Variable err : Err.
Hypothesis Hdown : db_whitelist w = inl err.

Local Abbreviation all_no :=
  (fun s : State => forall key result timestamp,
     whitelistCache s !! key = Some (result, timestamp) -> result = false).

Lemma db_isWhitelisted_down (s : State) (guildId type targetId : string) :
  db_isWhitelisted w s guildId type targetId = false.
Proof. unfold db_isWhitelisted. now rewrite Hdown. Qed.

Lemma cachedWhitelisted_down (type guildId targetId : string) (s : State) :
  all_no s ->
  exists s',
    cachedWhitelisted type guildId targetId w s = (Val false, s', [])
    /\ Vocabulary.cache_only s s' /\ all_no s'.
Proof.
  intros Hno. unfold cachedWhitelisted. rewrite bind_get, bind_ask.
  set (cacheKey := type +:+ ":" +:+ guildId +:+ ":" +:+ targetId).
  rewrite db_isWhitelisted_down.
  assert (Hins : all_no (set_whitelistCache (fun c => <[cacheKey := (false, now s)]> c) s)).
  { intros key result timestamp. cbn.
    destruct (decide (cacheKey = key)) as [<-|Hne].
    - rewrite lookup_insert_eq. congruence.
    - rewrite lookup_insert_ne by exact Hne. apply Hno. }
  destruct (whitelistCache s !! cacheKey) as [[result timestamp]|] eqn:E.
  - pose proof (Hno _ _ _ E) as ->.
    destruct (now s - timestamp <? WHITELIST_CACHE_TTL).
    + exists s. repeat split; try reflexivity. exact Hno.
    + eexists. split; [reflexivity|]. split; [reflexivity | exact Hins].
  - eexists. split; [reflexivity|]. split; [reflexivity | exact Hins].
Qed.

Lemma anyRoleWhitelisted_down (guildId : string) (roleIds : list string) (s : State) :
  all_no s ->
  exists s',
    anyRoleWhitelisted guildId roleIds w s = (Val false, s', [])
    /\ Vocabulary.cache_only s s' /\ all_no s'.
Proof.
  revert s. induction roleIds as [|roleId rest IH]; intros s Hno; cbn [anyRoleWhitelisted].
  - exists s. repeat split; try reflexivity. exact Hno.
  - destruct (cachedWhitelisted_down "role" guildId roleId s Hno) as (s1 & H1 & Hc1 & Hno1).
    destruct (IH s1 Hno1) as (s2 & H2 & Hc2 & Hno2).
    exists s2. unfold isRoleWhitelisted.
    rewrite (bind_run _ _ _ _ _ _ _ H1), H2.
    split; [reflexivity|]. split; [etrans; eassumption | exact Hno2].
Qed.

(** X15.  While the whitelist table cannot be read, [checkWhitelist] says no
    for everybody to whom the cache does not still say yes: the failed query
    counts as a negative answer, and that answer goes into the cache like any
    other.  Nothing is thrown. *)
Theorem checkWhitelist_database_down (guildId executorId action : string) (s : State) :
  (forall key result timestamp,
     whitelistCache s !! key = Some (result, timestamp) -> result = false) ->
  exists s',
    checkWhitelist guildId executorId action w s = (Val false, s', [])
    /\ Vocabulary.cache_only s s'
    /\ forall key result timestamp,
         whitelistCache s' !! key = Some (result, timestamp) -> result = false.
Proof.
  intros Hno.
  destruct (cachedWhitelisted_down "user" guildId executorId s Hno) as (s1 & H1 & Hc1 & Hno1).
  destruct (cachedWhitelisted_down "action" guildId action s1 Hno1) as (s2 & H2 & Hc2 & Hno2).
  assert (Hrest : exists s3,
             (w0 ← ask ;
              match client_guild w0 guildId with
              | None => ret false
              | Some guild =>
                  match members_fetch w0 guildId executorId with
                  | None => ret false
                  | Some member => anyRoleWhitelisted guildId (map fst (m_roles member))
                  end
              end) w s2 = (Val false, s3, [])
             /\ Vocabulary.cache_only s2 s3 /\ all_no s3).
  { rewrite bind_ask.
    destruct (client_guild w guildId); [|exists s2; repeat split; try reflexivity; exact Hno2].
    destruct (members_fetch w guildId executorId);
      [|exists s2; repeat split; try reflexivity; exact Hno2].
    now apply anyRoleWhitelisted_down. }
  destruct Hrest as (s3 & H3 & Hc3 & Hno3).
  exists s3. split; [|split].
  - unfold checkWhitelist, try_catch, isUserWhitelisted, isActionWhitelisted.
    rewrite (bind_run _ _ _ _ _ _ _ H1). cbn [Vocabulary.after].
    rewrite (bind_run _ _ _ _ _ _ _ H2). cbn [Vocabulary.after].
    rewrite H3. reflexivity.
  - etrans; [exact Hc1|]. etrans; eassumption.
  - exact Hno3.
Qed.

End DatabaseDown.

Lemma checkWhitelist_database_down_witness :
  exists s',
    checkWhitelist "G" "U1" "role_delete"
      (Scenario.whitelist_unreadable Scenario.world_whitelisted)
      (Scenario.started Scenario.audited)
    = (Val false, s', [])
    /\ Vocabulary.cache_only (Scenario.started Scenario.audited) s'
    /\ forall key result timestamp,
         whitelistCache s' !! key = Some (result, timestamp) -> result = false.
Proof.
  apply (checkWhitelist_database_down
           (Scenario.whitelist_unreadable Scenario.world_whitelisted) DatabaseError).
  - reflexivity.
  - intros key result timestamp H. discriminate H.
Defined.

(** ** Loops that stop at the first refusal *)

Lemma for_each_call_run {A} (l : list A) (f : A -> Effect) (w : World) (s : State) :
  exists r,
    for_each l (fun x => call (f x)) w s
    = (r, s, Vocabulary.upto_first_failure w (map f l))
    /\ (Forall (fun x => fails w (f x) = None) l -> r = Val tt).
Proof.
  induction l as [|x l IH]; cbn [for_each map Vocabulary.upto_first_failure].
  - exists (Val tt). split; reflexivity.
  - unfold bind at 1. rewrite call_run.
    destruct (fails w (f x)) as [e|] eqn:Hx.
    + exists (Exn e). split; [reflexivity|].
      intros H. apply List.Forall_cons_iff in H. destruct H as [H _]. congruence.
    + destruct IH as (r & -> & Hr). exists r. split; [reflexivity|].
      intros H. apply List.Forall_cons_iff in H. now apply Hr.
Qed.

(** X16.  [lockdownGuild] raises the verification level first and then closes
    the text channels the bot may manage, in the order of the cache; the
    first call the platform refuses ends the lockdown, so that the channels
    after it stay open.  Nothing is thrown and the state is as it was. *)
Theorem lockdownGuild_stops_at_first_refusal (guild : Guild) (w : World) (s : State) :
  lockdownGuild guild w s
  = (Val tt, s,
     Vocabulary.upto_first_failure w
       (SetVerificationLevel (g_id guild) 4
        :: map (fun c => PermissionOverwritesEdit (g_id guild) (lc_id c))
             (List.filter (fun c => (lc_type c =? 0) && lc_me_manage c) (g_channels guild)))).
Proof.
  unfold lockdownGuild. cbn [Vocabulary.upto_first_failure].
  apply try_catch_unit with
    (r := match fails w (SetVerificationLevel (g_id guild) 4) with
          | Some e => Exn e
          | None =>
              fst (fst (for_each
                          (List.filter (fun c => (lc_type c =? 0) && lc_me_manage c)
                             (g_channels guild))
                          (fun c => call (PermissionOverwritesEdit (g_id guild) (lc_id c)))
                          w s))
          end).
  unfold bind at 1. rewrite call_run.
  destruct (fails w (SetVerificationLevel (g_id guild) 4)); [reflexivity|].
  destruct (for_each_call_run
              (List.filter (fun c => (lc_type c =? 0) && lc_me_manage c) (g_channels guild))
              (fun c => PermissionOverwritesEdit (g_id guild) (lc_id c)) w s)
    as (r & -> & _).
  reflexivity.
Qed.

(** X17.  [removeRoles] takes the roles of the member away one by one, in the
    order of the member's cache and leaving out [@everyone]; the first
    removal the platform refuses ends the loop, so that the member keeps the
    roles after it.  A member that cannot be fetched loses nothing. *)
Theorem removeRoles_stops_at_first_refusal (guild : Guild) (userId : string)
    (w : World) (s : State) :
  removeRoles guild userId w s
  = (Val tt, s,
     match members_fetch w (g_id guild) userId with
     | None => []
     | Some member =>
         Vocabulary.upto_first_failure w
           (map (fun r => MemberRoleRemove (g_id guild) userId (fst r))
              (List.filter (fun r => negb (String.eqb (snd r) "@everyone")) (m_roles member)))
     end).
Proof.
  unfold removeRoles, try_catch. rewrite bind_ask.
  destruct (members_fetch w (g_id guild) userId) as [member|]; [|reflexivity].
  destruct (for_each_call_run
              (List.filter (fun r : string * string => negb (String.eqb (snd r) "@everyone"))
                 (m_roles member))
              (fun r => MemberRoleRemove (g_id guild) userId (fst r)) w s)
    as (r & -> & _).
  destruct r as [[]|e]; [reflexivity|]. unfold ret. now rewrite app_nil_r.
Qed.

(** ** Restoring a role from the backups *)

Lemma sendRestoreNotification_run (guild : Guild) (type id : string) (success : bool)
    (w : World) (s : State) :
  exists tr,
    sendRestoreNotification guild type id success w s = (Val tt, s, tr)
    /\ (tr = [] \/ exists channel, tr = [SendRestoreEmbed channel type id success]).
Proof.
  unfold sendRestoreNotification, try_catch. rewrite bind_get.
  destruct (configs s !! g_id guild) as [config|]; [|exists []; auto].
  destruct (negb _); [exists []; auto|].
  destruct (find_channel guild _) as [channel|]; [|exists []; auto].
  destruct (lc_text_based channel); [|exists []; auto].
  rewrite call_run. exists [SendRestoreEmbed (lc_id channel) type id success].
  split; [destruct (fails w _); reflexivity | eauto].
Qed.

Lemma tryOlderBackups_all_fail (finalBackupId roleId : string) (backups : list BackupRow)
    (w : World) (s : State) :
  Forall (fun b => String.eqb (b_id b) finalBackupId = true
                   \/ bm_restoreRole w (b_id b) roleId = false) backups ->
  tryOlderBackups BackupManager.restoreRole finalBackupId roleId backups w s
  = (Val false, s,
     map (fun b => BmRestoreRole (b_id b) roleId)
       (List.filter (fun b => negb (String.eqb (b_id b) finalBackupId)) backups)).
Proof.
  intros H. induction H as [|b backups [Hb|Hb] _ IH]; cbn [tryOlderBackups List.filter].
  - reflexivity.
  - rewrite Hb. exact IH.
  - destruct (String.eqb (b_id b) finalBackupId); cbn [negb]; [exact IH|].
    unfold bind. rewrite restoreRole_run, Hb, IH. reflexivity.
Qed.

Lemma getBackupsByGuild_run (guildId : string) (limit : nat) (rows : list BackupRow)
    (w : World) (s : State) :
  db_backups w = inr rows ->
  getBackupsByGuild guildId limit w s
  = (Val (firstn limit (List.filter (fun b => String.eqb (b_guild b) guildId) rows)), s, []).
Proof.
  intros H. unfold getBackupsByGuild. rewrite bind_ask, H. reflexivity.
Qed.

Section RoleFallback.

Variables (guild : Guild) (roleId final : string) (w : World) (s : State).
Variable rows : list BackupRow.
Hypothesis Hrole : roleId <> "".
Hypothesis Hfinal : final <> "".
Hypothesis Hfails : bm_restoreRole w final roleId = false.
Hypothesis Hrows : db_backups w = inr rows.

Local Abbreviation recent :=
  (firstn 10 (List.filter (fun b => String.eqb (b_guild b) (g_id guild)) rows)).

Lemma restoreDeletedRole_run (older : list Effect) (success : bool) :
  (forall s1,
     tryOlderBackups BackupManager.restoreRole final roleId recent w s1
     = (Val success, s1, older)) ->
  exists s' notice,
    restoreDeletedRole guild (Some final) (Some roleId) w s
    = (Val tt, s', BmRestoreRole final roleId :: older ++ notice)
    /\ (notice = [] \/ exists channel, notice = [SendRestoreEmbed channel "role" roleId success])
    /\ isSelfAction s' (g_id guild) roleId = true.
Proof.
  intros Holder.
  assert (Ht : forall x, x <> "" -> JS.truthy (Some x) = true /\ JS.str_or (Some x) "" = x).
  { intros x Hx. cbn. destruct (String.eqb_spec x ""); [contradiction | auto]. }
  destruct (Ht _ Hrole) as [Hr1 Hr2]. destruct (Ht _ Hfinal) as [Hf1 Hf2].
  unfold restoreDeletedRole, performRestore, extractIdFromViolation. rewrite Hr1.
  match goal with
  | |- context [markSelfAction ?g ?t] =>
      pose proof (markSelfAction_run g t w s) as Hmark
  end.
  match type of Hmark with _ = (_, ?x, _) => set (s1 := x) in * end.
  destruct (sendRestoreNotification_run guild "role" roleId success w s1)
    as (notice & Hnotice & Hshape).
  exists s1, notice. split; [|split; [exact Hshape|]].
  - apply try_catch_unit with (r := Val tt).
    rewrite (bind_run _ _ _ _ _ _ _ Hmark), after_nil, bind_ask, !Hf1. cbn [negb].
    rewrite Hf2.
    rewrite (bind_run _ _ _ _ _ _ _ (restoreRole_run final roleId w s1)), Hfails.
    unfold Vocabulary.after.
    erewrite bind_val; [reflexivity| |exact Hnotice].
    rewrite (bind_run _ _ _ _ _ _ _ (getBackupsByGuild_run (g_id guild) 10 rows w s1 Hrows)).
    rewrite after_nil. apply Holder.
  - unfold isSelfAction. apply bool_decide_eq_true. subst s1. cbn.
    apply elem_of_union_l. now apply elem_of_singleton.
Qed.

(** X18.  When the role cannot be restored from the backup it was asked
    from, [restoreDeletedRole] goes through the ten newest backups of the
    server, newest first, skipping the one already tried, and stops at the
    first from which the restore succeeds: the backups before it have been
    tried once each, those after it not at all, and a success is what the
    audit channel is told. *)
Theorem restoreDeletedRole_falls_back
    (before : list BackupRow) (hit : BackupRow) (after_ : list BackupRow) :
  recent = before ++ hit :: after_ ->
  Forall (fun b => String.eqb (b_id b) final = true
                   \/ bm_restoreRole w (b_id b) roleId = false) before ->
  String.eqb (b_id hit) final = false ->
  bm_restoreRole w (b_id hit) roleId = true ->
  exists s' notice,
    restoreDeletedRole guild (Some final) (Some roleId) w s
    = (Val tt, s',
       BmRestoreRole final roleId
       :: map (fun b => BmRestoreRole (b_id b) roleId)
            (List.filter (fun b => negb (String.eqb (b_id b) final)) before ++ [hit])
       ++ notice)
    /\ (notice = [] \/ exists channel, notice = [SendRestoreEmbed channel "role" roleId true])
    /\ isSelfAction s' (g_id guild) roleId = true.
Proof.
  intros Hrecent Hbefore Hne Hhit.
  apply (restoreDeletedRole_run _ true). intros s1. rewrite Hrecent.
  now apply tryOlderBackups_first_success.
Qed.

(** X19.  When the role can be restored from none of them,
    [restoreDeletedRole] has tried the backup it was asked from and each of
    the other backups among the ten newest once, no backup older than those,
    and tells the audit channel of the failure. *)
Theorem restoreDeletedRole_gives_up :
  Forall (fun b => String.eqb (b_id b) final = true
                   \/ bm_restoreRole w (b_id b) roleId = false) recent ->
  exists s' notice,
    restoreDeletedRole guild (Some final) (Some roleId) w s
    = (Val tt, s',
       BmRestoreRole final roleId
       :: map (fun b => BmRestoreRole (b_id b) roleId)
            (List.filter (fun b => negb (String.eqb (b_id b) final)) recent)
       ++ notice)
    /\ (notice = [] \/ exists channel, notice = [SendRestoreEmbed channel "role" roleId false])
    /\ isSelfAction s' (g_id guild) roleId = true.
Proof.
  intros Hall.
  apply (restoreDeletedRole_run _ false). intros s1.
  now apply tryOlderBackups_all_fail.
Qed.

End RoleFallback.

Lemma restoreDeletedRole_falls_back_witness :
  exists s' notice,
    restoreDeletedRole Scenario.guildG (Some "S3") (Some "R") Scenario.world_role_in_S1
      (Scenario.started Scenario.audited)
    = (Val tt, s',
       BmRestoreRole "S3" "R"
       :: map (fun b => BmRestoreRole (b_id b) "R")
            (List.filter (fun b => negb (String.eqb (b_id b) "S3"))
               [{| b_id := "S3"; b_guild := "G" |}]
             ++ [{| b_id := "S1"; b_guild := "G" |}])
       ++ notice)
    /\ (notice = [] \/ exists channel, notice = [SendRestoreEmbed channel "role" "R" true])
    /\ isSelfAction s' "G" "R" = true.
Proof.
  apply (restoreDeletedRole_falls_back Scenario.guildG "R" "S3" Scenario.world_role_in_S1
           (Scenario.started Scenario.audited)
           [{| b_id := "S3"; b_guild := "G" |}; {| b_id := "S1"; b_guild := "G" |}]
           ltac:(discriminate) ltac:(discriminate) eq_refl eq_refl
           [{| b_id := "S3"; b_guild := "G" |}] {| b_id := "S1"; b_guild := "G" |} []).
  - reflexivity.
  - apply List.Forall_cons; [left; reflexivity | apply List.Forall_nil].
  - reflexivity.
  - reflexivity.
Defined.

Lemma restoreDeletedRole_gives_up_witness :
  exists s' notice,
    restoreDeletedRole Scenario.guildG (Some "S3") (Some "R") Scenario.world0
      (Scenario.started Scenario.audited)
    = (Val tt, s',
       BmRestoreRole "S3" "R"
       :: map (fun b => BmRestoreRole (b_id b) "R")
            (List.filter (fun b => negb (String.eqb (b_id b) "S3"))
               (firstn 10
                  (List.filter (fun b => String.eqb (b_guild b) "G")
                     [{| b_id := "S3"; b_guild := "G" |}; {| b_id := "S1"; b_guild := "G" |}])))
       ++ notice)
    /\ (notice = [] \/ exists channel, notice = [SendRestoreEmbed channel "role" "R" false])
    /\ isSelfAction s' "G" "R" = true.
Proof.
  apply (restoreDeletedRole_gives_up Scenario.guildG "R" "S3" Scenario.world0
           (Scenario.started Scenario.audited)
           [{| b_id := "S3"; b_guild := "G" |}; {| b_id := "S1"; b_guild := "G" |}]
           ltac:(discriminate) ltac:(discriminate) eq_refl eq_refl).
  repeat (apply List.Forall_cons; [right; reflexivity|]). apply List.Forall_nil.
Defined.

(** ** Updating a role from the backup *)

(** X20.  [restoreRoleFromBackup] marks the role, never throws and makes at
    most one call, an edit of that role.  When it edits, the latest backup of
    the server has the role, the role is in the cache, the bot may manage
    roles and the role is below the bot's highest role. *)
Theorem restoreRoleFromBackup_edits_below_the_bot
    (guild : Guild) (roleId : string) (w : World) (s : State) :
  exists s' tr,
    restoreRoleFromBackup guild roleId w s = (Val tt, s', tr)
    /\ isSelfAction s' (g_id guild) roleId = true
    /\ (tr = []
        \/ exists latestBackup roleData role me,
             tr = [RoleEdit (g_id guild) roleId (rd_name roleData)]
             /\ getLatestBackup w (g_id guild) = Some latestBackup
             /\ db_role_backup w (b_id latestBackup) roleId = Some roleData
             /\ find_role guild roleId = Some role
             /\ g_me guild = Some me
             /\ me_manage_roles me = true
             /\ (forall position,
                   me_highest me = Some position -> lr_position role < position)).
Proof.
  pose proof (markSelfAction_run (g_id guild) roleId w s) as Hmark.
  match type of Hmark with _ = (_, ?x, _) => set (s1 := x) in * end.
  assert (Hself : isSelfAction s1 (g_id guild) roleId = true).
  { unfold isSelfAction. apply bool_decide_eq_true. subst s1. cbn.
    apply elem_of_union_l. now apply elem_of_singleton. }
  unfold restoreRoleFromBackup, try_catch.
  rewrite (bind_run _ _ _ _ _ _ _ Hmark), after_nil, bind_ask.
  destruct (getLatestBackup w (g_id guild)) as [latestBackup|] eqn:Hlatest;
    [|exists s1, []; auto].
  destruct (db_role_backup w (b_id latestBackup) roleId) as [roleData|] eqn:Hdata;
    [|exists s1, []; auto].
  destruct (find_role guild roleId) as [role|] eqn:Hrole; [|exists s1, []; auto].
  destruct (g_me guild) as [[manage highest]|] eqn:Hme; cbn [negb me_manage_roles];
    [|exists s1, []; auto].
  destruct manage; cbn [negb]; [|exists s1, []; auto].
  assert (Hbelow : (match highest with
                    | Some position => position <=? lr_position role
                    | None => false
                    end) = false ->
                   forall position, highest = Some position -> lr_position role < position).
  { intros H position ->. now apply Z.leb_gt in H. }
  destruct (match highest with Some position => position <=? lr_position role | None => false end)
    eqn:Hhigh.
  { destruct highest; exists s1, []; auto. }
  specialize (Hbelow eq_refl).
  destruct (negb (String.eqb (lr_name role) (rd_name roleData))
            || negb (lr_color role =? rd_color roleData)
            || negb (Bool.eqb (lr_hoist role) (rd_hoist roleData))
            || negb (Bool.eqb (lr_mentionable role) (rd_mentionable roleData))) eqn:Hneeds;
    [|exists s1, []; auto].
  exists s1, [RoleEdit (g_id guild) roleId (rd_name roleData)].
  split; [rewrite call_run; destruct (fails w _); reflexivity|].
  split; [exact Hself|]. right.
  exists latestBackup, roleData, role, {| me_manage_roles := true; me_highest := highest |}.
  repeat split; try reflexivity; try assumption.
Qed.

(** ** A deleted channel that is not a category *)

Lemma bind_bind_ret {A B C} (m : M A) (b : B) (g : B -> M C) (w : World) (s : State) :
  bind (bind m (fun _ => ret b)) g w s = bind m (fun _ => g b) w s.
Proof.
  unfold bind, ret. destruct (m w s) as [[[a|e] s1] t1]; [|reflexivity].
  destruct (g b w s1) as [[r s2] t2]. now rewrite app_nil_r.
Qed.

Section PlainChannel.

Import Vocabulary.

Variables (guild : Guild) (channelId : string) (channelData : ChannelData).

(** What the method may do for such a channel: ask the backup manager for
    the category the channel was in, and tell the audit channel that the
    restore failed. *)
Local Abbreviation allowed :=
  (fun e : Effect =>
     (exists backup,
        e = BmRestoreCategoryAndChildren backup (JS.str_or (cd_parent_id channelData) ""))
     \/ (exists channel, e = SendRestoreEmbed channel "channel" channelId false)).

Local Hint Extern 1 (_ \/ _) => (left; eexists; reflexivity) : keeps.
Local Hint Extern 1 (_ \/ _) => (right; eexists; reflexivity) : keeps.
Local Hint Extern 1 (stable _ _) => (repeat split; reflexivity) : keeps.

Lemma retryCategory_allowed (foundBackupId : string) (recentBackups : list BackupRow) :
  keeps stable allowed
    (retryCategory foundBackupId (JS.str_or (cd_parent_id channelData) "") recentBackups).
Proof.
  induction recentBackups as [|backup rest IH]; cbn [retryCategory];
    unfold BackupManager.restoreCategoryAndChildren; keeps_auto.
Qed.

Lemma restoreParent_allowed (foundBackupId : string) :
  keeps stable allowed
    (bind
       (if JS.truthy (cd_parent_id channelData)
        then
          let parentId := JS.str_or (cd_parent_id channelData) "" in
          match find_channel guild parentId with
          | Some _ => ret tt
          | None =>
              try_catch
                (BackupManager.restoreCategoryAndChildren foundBackupId parentId)
                (fun _ =>
                   bind (getBackupsByGuild (g_id guild) 10) (fun recentBackups =>
                   bind (retryCategory foundBackupId parentId recentBackups) (fun _ =>
                   ret tt)))
          end
        else ret tt)
       (fun _ => sendRestoreNotification guild "channel" channelId false)).
Proof.
  pose proof retryCategory_allowed.
  unfold BackupManager.restoreCategoryAndChildren, getBackupsByGuild, sendRestoreNotification.
  keeps_auto.
Qed.

(** X21.  When the backup has the deleted channel and the channel is not a
    category, [restoreDeletedChannel] looks after the channel's category only:
    whatever the backup manager answers, the channel itself is not asked
    for, and the audit channel is never told of a success. *)
Theorem restoreDeletedChannel_plain_channel_never_succeeds
    (backupId : option string) (w : World) (s : State) :
  channelId <> "" ->
  JS.truthy (finalBackupId w guild backupId) = true ->
  db_channel_data w (JS.str_or (finalBackupId w guild backupId) "") channelId
  = inr (Some channelData) ->
  cd_type channelData <> 4 ->
  exists s' tr,
    restoreDeletedChannel guild backupId (Some channelId) w s = (Val tt, s', tr)
    /\ Forall (fun e => reports_success e = false) tr
    /\ Forall allowed tr.
Proof.
  intros Hid Hfinal Hdata Htype.
  assert (Hid1 : JS.truthy (Some channelId) = true)
    by (cbn; destruct (String.eqb_spec channelId ""); [contradiction | reflexivity]).
  unfold restoreDeletedChannel, extractIdFromViolation. rewrite Hid1.
  match goal with
  | |- context [try_catch ?m _ w s] =>
      destruct (m w s) as [[r s'] tr] eqn:Hrun;
      rewrite (try_catch_unit m w s s' r tr Hrun)
  end.
  exists s', tr. split; [reflexivity|].
  rewrite (bind_run _ _ _ _ _ _ _ (markSelfAction_run (g_id guild) channelId w s)) in Hrun.
  rewrite after_nil, bind_ask in Hrun.
  fold (finalBackupId w guild backupId) in Hrun. rewrite Hfinal in Hrun. cbn [negb] in Hrun.
  rewrite Hdata in Hrun. cbn [lift_sum] in Hrun. rewrite !bind_ret in Hrun.
  destruct (Z.eqb_spec (cd_type channelData) 4) as [E|_]; [contradiction|].
  rewrite bind_bind_ret in Hrun.
  match type of Hrun with
  | _ _ _ ?s1 = _ =>
      pose proof (restoreParent_allowed (JS.str_or (finalBackupId w guild backupId) "") w s1)
        as Hk
  end.
  cbv zeta in Hk, Hrun. rewrite Hrun in Hk. destruct Hk as [_ Hall].
  split; [|exact Hall].
  eapply List.Forall_impl; [|exact Hall].
  intros e [[backup ->]|[channel ->]]; reflexivity.
Qed.

End PlainChannel.

Lemma restoreDeletedChannel_plain_channel_never_succeeds_witness :
  exists s' tr,
    restoreDeletedChannel Scenario.guildG None (Some "C") Scenario.world_channel_in_S3
      (Scenario.started Scenario.audited)
    = (Val tt, s', tr)
    /\ Forall (fun e => Vocabulary.reports_success e = false) tr
    /\ Forall (fun e =>
                 (exists backup,
                    e = BmRestoreCategoryAndChildren backup
                          (JS.str_or (cd_parent_id Scenario.generalChannel) ""))
                 \/ (exists channel, e = SendRestoreEmbed channel "channel" "C" false)) tr.
Proof.
  apply (restoreDeletedChannel_plain_channel_never_succeeds Scenario.guildG "C"
           Scenario.generalChannel None Scenario.world_channel_in_S3
           (Scenario.started Scenario.audited)).
  - discriminate.
  - reflexivity.
  - reflexivity.
  - discriminate.
Defined.

(** ** Members *)



Lemma includes_In (l : list string) (x : string) : In x l -> includes l x = true.
Proof.
  intros H. unfold includes. apply existsb_exists. exists x.
  split; [exact H | apply String.eqb_refl].
Qed.

(** X23.  A member update that adds no role (roles were taken away, or
    nothing about the roles changed) is never flagged: the handler reads the
    audit trail at most, and leaves the state alone. *)
Theorem handleMemberUpdate_ignores_removals
    (oldMember newMember : GuildMember) (w : World) (s : State) :
  (forall roleId, In roleId (member_roles newMember) -> In roleId (member_roles oldMember)) ->
  exists tr,
    handleMemberUpdate oldMember newMember w s = (Val tt, s, tr)
    /\ (tr = [] \/ tr = [FetchAuditLogs (g_id (member_guild newMember)) MemberUpdate]).
Proof.
  intros Hsub.
  assert (Hadded : List.filter (fun roleId => negb (includes (member_roles oldMember) roleId))
                     (member_roles newMember) = []).
  { induction (member_roles newMember) as [|x l IH]; [reflexivity|].
    cbn [List.filter]. rewrite (includes_In _ x) by (apply Hsub; now left).
    cbn [negb]. apply IH. intros r Hr. apply Hsub. now right. }
  unfold handleMemberUpdate. rewrite bind_get, bind_ask.
  destruct (configs s !! _) as [config|]; [|exists []; auto].
  destruct (negb (enabled config) || negb (p_members (protection config)));
    [exists []; auto|].
  rewrite (bind_run _ _ _ _ _ _ _ (getAuditLog_run _ _ _ _)).
  exists [FetchAuditLogs (g_id (member_guild newMember)) MemberUpdate].
  split; [|auto]. unfold Vocabulary.after.
  destruct (match fetchAuditLogs w _ _ with inl _ => None | inr entries => head entries end)
    as [auditLog|]; [|reflexivity].
  destruct (isBotAction w _); [reflexivity|].
  destruct (isWhitelisted w s _ _); [reflexivity|].
  rewrite Hadded. reflexivity.
Qed.

Lemma handleMemberUpdate_ignores_removals_witness :
  exists tr,
    handleMemberUpdate (Scenario.guildMember "U2" 0 ["R"; "R5"])
      (Scenario.guildMember "U2" 0 ["R"]) Scenario.world0 (Scenario.started Scenario.audited)
    = (Val tt, Scenario.started Scenario.audited, tr)
    /\ (tr = [] \/ tr = [FetchAuditLogs (g_id Scenario.guildG) MemberUpdate]).
Proof.
  apply (handleMemberUpdate_ignores_removals (Scenario.guildMember "U2" 0 ["R"; "R5"])
           (Scenario.guildMember "U2" 0 ["R"]) Scenario.world0
           (Scenario.started Scenario.audited)).
  intros roleId [<-|[]]. simpl. auto.
Defined.

(** ** Events nobody can be blamed for *)

(** X24.  When the audit trail cannot be read, or has no entry of the kind
    asked for, [handleGenericEvent] drops the event: the remediation it was
    given does not run and nothing is recorded. *)
Theorem handleGenericEvent_needs_an_audit_entry
    (guild : Guild) (target eventType : string) (auditEvent : AuditLogEvent)
    (action : M unit) (w : World) (s : State) :
  (forall entry entries, fetchAuditLogs w (g_id guild) auditEvent <> inr (entry :: entries)) ->
  exists tr,
    handleGenericEvent guild target eventType auditEvent action w s = (Val tt, s, tr)
    /\ (tr = [] \/ tr = [FetchAuditLogs (g_id guild) auditEvent]).
Proof.
  intros Hnone. unfold handleGenericEvent. rewrite bind_get, bind_ask.
  destruct (configs s !! _) as [config|]; [|exists []; auto].
  destruct (negb (enabled config)); [exists []; auto|].
  destruct (isSelfAction s _ _); [exists []; auto|].
  rewrite (bind_run _ _ _ _ _ _ _ (getAuditLog_run _ _ _ _)).
  exists [FetchAuditLogs (g_id guild) auditEvent]. split; [|auto].
  destruct (fetchAuditLogs w (g_id guild) auditEvent) as [e|[|entry entries]] eqn:E;
    try reflexivity.
  now destruct (Hnone entry entries).
Qed.

Lemma handleGenericEvent_needs_an_audit_entry_witness :
  exists tr,
    handleEmojiDelete (Scenario.emoji Scenario.guildG "E" "party")
      (Scenario.audit_unreadable Scenario.world_emoji_in_S1) (Scenario.started Scenario.audited)
    = (Val tt, Scenario.started Scenario.audited, tr)
    /\ (tr = [] \/ tr = [FetchAuditLogs (g_id Scenario.guildG) EmojiDelete]).
Proof.
  apply handleGenericEvent_needs_an_audit_entry. discriminate.
Defined.

(** ** A deleted role nobody can be blamed for *)

Section RoleDelete.

Import Vocabulary.

Local Abbreviation nolog := (fun e : Effect => Trace.is_log e = false).

Local Hint Extern 1 (Trace.is_log _ = false) => reflexivity : keeps.
Local Hint Extern 1 (stable _ _) => (repeat split; reflexivity) : keeps.

Lemma recreate_keeps (guild : Guild) (name : string) (members : list (string * string)) :
  keeps stable nolog
    (bind ask (fun w =>
     bind (distributeRoleToMembersFromData guild (created_role_id w (g_id guild) name) members)
       (fun _ =>
     bind (BackupManager.createBackup (g_id guild)) (fun _ =>
     sendRestoreNotification guild "role" (created_role_id w (g_id guild) name) true)))).
Proof.
  unfold distributeRoleToMembersFromData, BackupManager.createBackup, sendRestoreNotification.
  keeps_auto.
Qed.

(** The role is created again, or the attempt fails; either way the handler
    goes on. *)
Lemma recreate_run (guild : Guild) (id name : string) (members : list (string * string))
    (w : World) (s : State) :
  exists s' tr,
    try_catch
      (bind (call (RolesCreate (g_id guild) name)) (fun _ =>
       bind ask (fun w =>
       bind (distributeRoleToMembersFromData guild (created_role_id w (g_id guild) name)
               members) (fun _ =>
       bind (BackupManager.createBackup (g_id guild)) (fun _ =>
       sendRestoreNotification guild "role" (created_role_id w (g_id guild) name) true)))))
      (fun _ => sendRestoreNotification guild "role" id false) w s
    = (Val tt, s', RolesCreate (g_id guild) name :: tr)
    /\ stable s s'
    /\ Trace.logged_violations tr = [].
Proof.
  unfold try_catch. unfold bind at 1. rewrite call_run.
  destruct (fails w (RolesCreate (g_id guild) name)) as [e|].
  - destruct (sendRestoreNotification_run guild "role" id false w s) as (notice & -> & Hn).
    exists s, notice. split; [reflexivity|]. split; [repeat split|].
    destruct Hn as [->|[channel ->]]; reflexivity.
  - pose proof (recreate_keeps guild name members w s) as Hk.
    destruct (bind ask _ w s) as [[[[]|e] s1] t1]; destruct Hk as [Hs1 Ht1].
    + exists s1, t1. split; [reflexivity|]. split; [exact Hs1|].
      now apply logged_violations_none.
    + destruct (sendRestoreNotification_run guild "role" id false w s1) as (notice & -> & Hn).
      exists s1, (t1 ++ notice). split; [reflexivity|]. split; [exact Hs1|].
      rewrite logged_violations_app, (logged_violations_none t1 Ht1).
      destruct Hn as [->|[channel ->]]; reflexivity.
Qed.

(** X25.  When the audit trail has nothing on the deletion of a role,
    [handleRoleDelete] does not drop the event as the generic handler does:
    it asks the platform to create the role again and records the violation
    against the user [unknown]. *)
Theorem handleRoleDelete_without_audit_entry
    (role : Role) (w : World) (s : State) (config : GuardConfig) :
  let guild := role_guild role in
  g_id guild = targetGuildId s ->
  configs s !! g_id guild = Some config ->
  isSelfAction s (g_id guild) (role_id role) = false ->
  (forall entry entries, fetchAuditLogs w (g_id guild) RoleDelete <> inr (entry :: entries)) ->
  exists s' tr,
    handleRoleDelete role w s
    = (Val tt, s',
       FetchAuditLogs (g_id guild) RoleDelete :: RolesCreate (g_id guild) (role_name role) :: tr)
    /\ map (fun v => (v_userId v, v_violationType v, v_severity v))
         (Trace.logged_violations tr)
       = [("unknown", "role_delete_blocked", high)].
Proof.
  intros guild Htarget Hc Hself Hnone.
  unfold handleRoleDelete. fold guild. rewrite bind_get, Htarget, String.eqb_refl.
  cbn [negb]. rewrite <- Htarget, Hself.
  assert (Haudit : getAuditLog guild RoleDelete w s
                   = (Val None, s, [FetchAuditLogs (g_id guild) RoleDelete])).
  { rewrite getAuditLog_run.
    destruct (fetchAuditLogs w (g_id guild) RoleDelete) as [e|[|entry entries]] eqn:E;
      try reflexivity.
    now destruct (Hnone entry entries). }
  pose proof (markSelfAction_run (g_id guild) (role_id role) w s) as Hmark.
  match type of Hmark with _ = (_, ?x, _) => set (s1 := x) in * end.
  set (recentDeletionKey := key3 (g_id guild) (role_id role) "recent_deletion").
  set (s2 := set_selfActions (fun x => {[recentDeletionKey]} ∪ x) s1).
  set (s3 := set_timers (fun l => l ++ [(now s2 + 15000, DeleteSelfAction recentDeletionKey)]) s2).
  destruct (recreate_run guild (role_id role) (role_name role)
              (map (fun m => (m_id m, m_tag m)) (role_members role)) w s3)
    as (s4 & t4 & H4 & Hs4 & Hl4).
  assert (Hc4 : configs s4 !! g_id guild = Some config)
    by (destruct Hs4 as [E _]; rewrite E; exact Hc).
  destruct (handleViolation_logged guild "unknown" "role_delete_blocked"
              ("Rol " +:+ quoted (role_name role)
               +:+ " silindi ve otomatik olarak geri yuklendi")
              high (Some (role_id role)) w s4 config Hc4)
    as (s5 & t5 & H5 & _ & Hl5).
  exists s5, (t4 ++ t5). split.
  - apply try_catch_unit with (r := Val tt).
    rewrite (bind_run _ _ _ _ _ _ _ Haudit). cbn [JS.truthy]. rewrite bind_ret.
    cbv zeta.
    rewrite (bind_run _ _ _ _ _ _ _ Hmark), after_nil.
    rewrite (bind_run (modify (set_selfActions (fun x => {[recentDeletionKey]} ∪ x)))
               _ w s1 s2 tt [] eq_refl), after_nil.
    rewrite (bind_run (setTimeout (DeleteSelfAction recentDeletionKey) 15000)
               _ w s2 s3 tt [] eq_refl), after_nil.
    rewrite (bind_run _ _ _ _ _ _ _ H4). cbn [JS.str_or] in *. rewrite H5.
    reflexivity.
  - rewrite logged_violations_app, Hl4, Hl5. reflexivity.
Qed.

End RoleDelete.

Lemma handleRoleDelete_without_audit_entry_witness :
  exists s' tr,
    handleRoleDelete (Scenario.role Scenario.guildG "R" "mods" 0)
      (Scenario.audit_unreadable Scenario.world0) (Scenario.started Scenario.audited)
    = (Val tt, s',
       FetchAuditLogs (g_id Scenario.guildG) RoleDelete
       :: RolesCreate (g_id Scenario.guildG) "mods" :: tr)
    /\ map (fun v => (v_userId v, v_violationType v, v_severity v))
         (Trace.logged_violations tr)
       = [("unknown", "role_delete_blocked", high)].
Proof.
  apply (handleRoleDelete_without_audit_entry (Scenario.role Scenario.guildG "R" "mods" 0)
           (Scenario.audit_unreadable Scenario.world0) (Scenario.started Scenario.audited)
           Scenario.audited).
  - reflexivity.
  - reflexivity.
  - reflexivity.
  - discriminate.
Defined.

(** ** What the handlers leave alone *)

#[global] Instance same_now_preorder : PreOrder Vocabulary.same_now.
Proof.
  split.
  - intros s. reflexivity.
  - intros s1 s2 s3 H1 H2. unfold Vocabulary.same_now in *. congruence.
Qed.

#[global] Instance marks_only_preorder : PreOrder Vocabulary.marks_only.
Proof.
  split.
  - intros s. repeat split; try reflexivity. exists []. now rewrite app_nil_r.
  - intros s1 s2 s3 (a1 & a2 & a3 & a4 & a5 & a6 & a7 & a8 & [l1 a9])
                    (b1 & b2 & b3 & b4 & b5 & b6 & b7 & b8 & [l2 b9]).
    repeat split; try congruence.
    + etrans; eassumption.
    + exists (l1 ++ l2). rewrite b9, a9. now rewrite app_assoc.
Qed.

Section Frame.

Import Vocabulary.

Variable R : State -> State -> Prop.
Context `{!PreOrder R}.

(** The two writes the restore methods make. *)
Hypothesis R_mark : forall key s, R s (set_selfActions (fun x => {[key]} ∪ x) s).
Hypothesis R_arm :
  forall (entry : State -> Z * TimerAction) s,
    R s (set_timers (fun l => l ++ [entry s]) s).

(** The effects in question: all but, possibly, the record of a
    violation. *)
Variable P : Effect -> Prop.
Hypothesis P_nolog : forall e, Trace.is_log e = false -> P e.

Local Hint Extern 1 (P _) => (apply P_nolog; reflexivity) : keeps.
Local Hint Resolve R_mark : keeps.

Lemma setTimeout_frame (a : TimerAction) (delay : Z) : keeps R P (setTimeout a delay).
Proof.
  unfold setTimeout. apply keeps_modify. intros s.
  apply (R_arm (fun s => (now s + delay, a))).
Qed.
Hint Resolve setTimeout_frame : keeps.

Lemma markSelfAction_frame (guildId target : string) :
  keeps R P (markSelfAction guildId target).
Proof. unfold markSelfAction. keeps_auto. Qed.
Hint Resolve markSelfAction_frame : keeps.

Lemma sendRestoreNotification_frame (guild : Guild) (type id : string) (success : bool) :
  keeps R P (sendRestoreNotification guild type id success).
Proof. unfold sendRestoreNotification. keeps_auto. Qed.
Hint Resolve sendRestoreNotification_frame : keeps.

Lemma sendNotification_frame (guild : Guild) (userId violationType description : string)
    (severity : Severity) :
  keeps R P (sendNotification guild userId violationType description severity).
Proof. unfold sendNotification. keeps_auto. Qed.
Hint Resolve sendNotification_frame : keeps.

Lemma getAuditLog_frame (guild : Guild) (action : AuditLogEvent) :
  keeps R P (getAuditLog guild action).
Proof. unfold getAuditLog. keeps_auto. Qed.
Hint Resolve getAuditLog_frame : keeps.

Lemma kickUser_frame (guild : Guild) (userId : string) : keeps R P (kickUser guild userId).
Proof. unfold kickUser. keeps_auto. Qed.

Lemma banUser_frame (guild : Guild) (userId : string) : keeps R P (banUser guild userId).
Proof. unfold banUser. keeps_auto. Qed.

Lemma removeRoles_frame (guild : Guild) (userId : string) :
  keeps R P (removeRoles guild userId).
Proof. unfold removeRoles. keeps_auto. Qed.

Lemma timeoutUser_frame (guild : Guild) (userId : string) :
  keeps R P (timeoutUser guild userId).
Proof. unfold timeoutUser. keeps_auto. Qed.

Lemma lockdownGuild_frame (guild : Guild) : keeps R P (lockdownGuild guild).
Proof. unfold lockdownGuild. keeps_auto. Qed.

Lemma getBackupsByGuild_frame (guildId : string) (limit : nat) :
  keeps R P (getBackupsByGuild guildId limit).
Proof. unfold getBackupsByGuild. keeps_auto. Qed.
Hint Resolve getBackupsByGuild_frame : keeps.

Lemma restoreRole_frame (backupId roleId : string) :
  keeps R P (BackupManager.restoreRole backupId roleId).
Proof. unfold BackupManager.restoreRole. keeps_auto. Qed.
Hint Resolve restoreRole_frame : keeps.

Lemma tryOlderBackups_frame (finalBackupId target : string) (recentBackups : list BackupRow) :
  keeps R P (tryOlderBackups BackupManager.restoreRole finalBackupId target recentBackups).
Proof.
  induction recentBackups as [|backup rest IH]; cbn [tryOlderBackups]; keeps_auto.
Qed.
Hint Resolve tryOlderBackups_frame : keeps.

Lemma restoreDeletedRole_frame (guild : Guild) (backupId target : option string) :
  keeps R P (restoreDeletedRole guild backupId target).
Proof. unfold restoreDeletedRole, performRestore. keeps_auto. Qed.

Lemma restoreCategoryAndChildren_frame (backupId categoryId : string) :
  keeps R P (BackupManager.restoreCategoryAndChildren backupId categoryId).
Proof. unfold BackupManager.restoreCategoryAndChildren. keeps_auto. Qed.
Hint Resolve restoreCategoryAndChildren_frame : keeps.

Lemma findChannelData_frame (finalBackupId channelId : string)
    (recentBackups : list BackupRow) :
  keeps R P (findChannelData finalBackupId channelId recentBackups).
Proof.
  induction recentBackups as [|backup rest IH]; cbn [findChannelData]; keeps_auto.
Qed.
Hint Resolve findChannelData_frame : keeps.

Lemma retryCategory_frame (foundBackupId categoryId : string)
    (recentBackups : list BackupRow) :
  keeps R P (retryCategory foundBackupId categoryId recentBackups).
Proof.
  induction recentBackups as [|backup rest IH]; cbn [retryCategory]; keeps_auto.
Qed.
Hint Resolve retryCategory_frame : keeps.

Lemma restoreDeletedChannel_frame (guild : Guild) (backupId target : option string) :
  keeps R P (restoreDeletedChannel guild backupId target).
Proof. unfold restoreDeletedChannel. keeps_auto. Qed.

Lemma restoreDeletedEmoji_frame (guild : Guild) (backupId target : option string) :
  keeps R P (restoreDeletedEmoji guild backupId target).
Proof. unfold restoreDeletedEmoji, BackupManager.restoreEmoji. keeps_auto. Qed.

Lemma restoreDeletedSticker_frame (guild : Guild) (backupId target : option string) :
  keeps R P (restoreDeletedSticker guild backupId target).
Proof. unfold restoreDeletedSticker, BackupManager.restoreSticker. keeps_auto. Qed.

Lemma restoreChanges_frame (guild : Guild) (violation : Violation) :
  keeps R P (restoreChanges guild violation).
Proof.
  pose proof restoreDeletedRole_frame. pose proof restoreDeletedChannel_frame.
  pose proof restoreDeletedEmoji_frame. pose proof restoreDeletedSticker_frame.
  unfold restoreChanges. keeps_auto.
Qed.

Lemma executeAction_frame (action : GuardAction) (guild : Guild) (userId : string)
    (violation : Violation) :
  keeps R P (executeAction action guild userId violation).
Proof.
  pose proof kickUser_frame. pose proof banUser_frame. pose proof removeRoles_frame.
  pose proof timeoutUser_frame. pose proof restoreChanges_frame.
  pose proof lockdownGuild_frame.
  unfold executeAction. keeps_auto.
Qed.
Hint Resolve executeAction_frame : keeps.

Lemma handleViolation_frame (guild : Guild) (userId violationType description : string)
    (severity : Severity) (target : option string) :
  (forall v, v_severity v = severity -> P (LogViolation v)) ->
  keeps R P (handleViolation guild userId violationType description severity target).
Proof. intros H. unfold handleViolation. keeps_auto. Qed.

Lemma handleGenericEvent_frame (guild : Guild) (target eventType : string)
    (auditEvent : AuditLogEvent) (action : M unit) :
  keeps R P action ->
  keeps R P (handleGenericEvent guild target eventType auditEvent action).
Proof. intros H. unfold handleGenericEvent. keeps_auto. Qed.

Lemma restoreRoleFromBackup_frame (guild : Guild) (roleId : string) :
  keeps R P (restoreRoleFromBackup guild roleId).
Proof. unfold restoreRoleFromBackup. keeps_auto. Qed.

Lemma restoreChannelFromBackup_frame (guild : Guild) (channelId : string) :
  keeps R P (restoreChannelFromBackup guild channelId).
Proof. unfold restoreChannelFromBackup. keeps_auto. Qed.

Lemma restoreEmojiFromBackup_frame (guild : Guild) (emojiId : string) :
  keeps R P (restoreEmojiFromBackup guild emojiId).
Proof. unfold restoreEmojiFromBackup. keeps_auto. Qed.

Lemma restoreStickerFromBackup_frame (guild : Guild) (stickerId : string) :
  keeps R P (restoreStickerFromBackup guild stickerId).
Proof. unfold restoreStickerFromBackup. keeps_auto. Qed.

Lemma restoreGuildSettings_frame (guild : Guild) : keeps R P (restoreGuildSettings guild).
Proof. unfold restoreGuildSettings. keeps_auto. Qed.

Lemma dispatch_frame (ev : GatewayEvent) :
  (forall v, P (LogViolation v)) ->
  marks_at_most ev = true -> keeps R P (dispatch ev).
Proof.
  intros Hlog Hev.
  assert (forall guild userId violationType description severity target,
            keeps R P
              (handleViolation guild userId violationType description severity target))
    by (intros; apply handleViolation_frame; auto).
  pose proof restoreDeletedEmoji_frame. pose proof restoreDeletedSticker_frame.
  pose proof restoreEmojiFromBackup_frame. pose proof restoreStickerFromBackup_frame.
  pose proof restoreGuildSettings_frame.
  unfold dispatch. apply keeps_bind; [typeclasses eauto | apply keeps_get; typeclasses eauto|].
  intros s0.
  destruct ev as [o n|g|c|o c|c|r|o r|r|m|o m|m|e|o e|e|x|o x|x|c|i|i];
    try discriminate Hev; try destruct c; try destruct x; try destruct i;
    try (apply keeps_ret; typeclasses eauto);
    (destruct (String.eqb _ _); cbn [andb];
     [|apply keeps_ret; typeclasses eauto]);
    try (destruct (negb _); cbn [andb]; [|apply keeps_ret; typeclasses eauto]);
    try (destruct (negb _); cbn [andb]; [|apply keeps_ret; typeclasses eauto]);
    first [ apply handleGenericEvent_frame; keeps_auto
          | unfold handleGuildUpdate, handleGuildDelete, handleMemberJoin, handleMemberUpdate,
              handleMemberLeave, handleWebhookUpdate, handleInviteDelete; keeps_auto ].
Qed.

End Frame.

Lemma marks_only_mark (key : string) (s : State) :
  Vocabulary.marks_only s (set_selfActions (fun x => {[key]} ∪ x) s).
Proof.
  repeat split; try reflexivity.
  - cbn. apply union_subseteq_r.
  - exists []. cbn. now rewrite app_nil_r.
Qed.

Lemma marks_only_arm (entry : State -> Z * TimerAction) (s : State) :
  Vocabulary.marks_only s (set_timers (fun l => l ++ [entry s]) s).
Proof.
  repeat split; try reflexivity. now exists [entry s].
Qed.

(** X26.  The response to a violation, whatever actions the configuration
    lists and whatever the platform answers, never throws and changes nothing
    in the manager's state but the set of self-actions, to which it adds, and
    the list of pending timers, to which it appends: the configuration, the
    restoration locks, the whitelist cache, the map of recent changes and the
    counter store are as they were. *)
Theorem handleViolation_marks_only
    (guild : Guild) (userId violationType description : string) (severity : Severity)
    (target : option string) (w : World) (s : State) :
  exists s' tr,
    handleViolation guild userId violationType description severity target w s
    = (Val tt, s', tr)
    /\ Vocabulary.marks_only s s'.
Proof.
  destruct (returns_handleViolation guild userId violationType description severity target w s)
    as ([] & s' & tr & Hrun).
  exists s', tr. split; [exact Hrun|].
  pose proof (handleViolation_frame Vocabulary.marks_only marks_only_mark marks_only_arm
                (fun _ => True) (fun _ _ => I)
                guild userId violationType description severity target (fun _ _ => I) w s)
    as Hk.
  rewrite Hrun in Hk. apply Hk.
Qed.

(** X27.  The handlers of the creation of a role or a channel, of the emoji
    and sticker events, of the member events, of webhook updates and of the
    changes to the server keep no state of their own: whatever happens, the
    listener leaves the configuration, the locks, the whitelist cache, the
    map of recent changes and the counter store as they were, and at most
    adds markers and timers. *)
Theorem dispatch_marks_only (ev : GatewayEvent) (w : World) (s : State) :
  Vocabulary.marks_at_most ev = true ->
  match dispatch ev w s with
  | (_, s', _) => Vocabulary.marks_only s s'
  end.
Proof.
  intros Hev.
  pose proof (dispatch_frame Vocabulary.marks_only marks_only_mark marks_only_arm
                (fun _ => True) (fun _ _ => I) ev (fun _ => I) Hev w s) as Hk.
  destruct (dispatch ev w s) as [[r s'] tr]. apply Hk.
Qed.

Lemma dispatch_marks_only_witness :
  match dispatch (emojiDelete (Scenario.emoji Scenario.guildG "E" "party"))
          Scenario.world_emoji_in_S1 (Scenario.started Scenario.audited) with
  | (_, s', _) => Vocabulary.marks_only (Scenario.started Scenario.audited) s'
  end.
Proof.
  apply (dispatch_marks_only (emojiDelete (Scenario.emoji Scenario.guildG "E" "party"))).
  reflexivity.
Defined.

(** ** The allowance of invites *)

(** X28.  An invite by somebody who is neither the bot nor on the configured
    lists is counted against that user, and is no violation, as long as the
    counter is under [maxInviteCreations]; from then on each invite is
    handled as a violation of type [invite_create_limit_exceeded] and the
    counter is not written any more, so that it ends an hour after the last
    invite that was counted.  The counter stands at [n], written by the code
    itself or absent, with [n] in the range where JavaScript numbers are
    exact. *)
Theorem handleInviteCreate_allowance
    (invite : Invite) (w : World) (s : State) (config : GuardConfig)
    (entry : AuditEntry) (entries : list AuditEntry) (n : Z) :
  let guild := invite_guild invite in
  let user := executorOrUnknown entry in
  let key := RedisManager.createGuardKey "violations" (g_id guild) user None in
  configs s !! g_id guild = Some config ->
  enabled config = true ->
  p_invites (protection config) = true ->
  fetchAuditLogs w (g_id guild) InviteCreate = inr (entry :: entries) ->
  isBotAction w (executorOf entry) = false ->
  isWhitelisted w s (executorOf entry) (g_id guild) = false ->
  fails w (RedisGet key) = None ->
  fails w (RedisSetEx key 3600 (JS.toString (n + 1))) = None ->
  Vocabulary.stands_at s key n ->
  handleInviteCreate invite w s
  = if maxInviteCreations (limits config) <=? n
    then Vocabulary.after [FetchAuditLogs (g_id guild) InviteCreate; RedisGet key]
           (handleViolation guild user "invite_create_limit_exceeded"
              "Davet olusturuldu (limit asildi)" high None w s)
    else (Val tt,
          set_redis
            (fun r => <[key := (JS.toString (n + 1), Some (now s + 1000 * 3600))]> r) s,
          [FetchAuditLogs (g_id guild) InviteCreate; RedisGet key; RedisGet key;
           RedisSetEx key 3600 (JS.toString (n + 1))]).
Proof.
  intros guild user key Hc He Hp Ha Hb Hw Hget Hset Hn.
  apply stands_at_count_of in Hn.
  unfold handleInviteCreate. fold guild.
  rewrite bind_get, bind_ask, Hc, He, Hp. cbn [negb orb].
  rewrite (bind_run _ _ _ _ _ _ _ (getAuditLog_run _ _ _ _)), Ha. cbn [head].
  rewrite Hb, Hw. fold user.
  assert (Hcount : getViolationCount user (g_id guild) "invite_create" w s
                   = (Val (Some n), s, [RedisGet key])).
  { unfold getViolationCount, RedisManager.getUserViolationCount. fold key.
    rewrite (bind_run _ _ _ _ _ _ _ (get_run key w s Hget)), Hn. reflexivity. }
  rewrite (bind_run _ _ _ _ _ _ _ Hcount). cbn [num_ge].
  destruct (maxInviteCreations (limits config) <=? n).
  - destruct (handleViolation _ _ _ _ _ _ w s) as [[r s'] tr]. reflexivity.
  - unfold incrementViolationCount.
    rewrite (bind_run _ _ _ _ _ _ _
               (incrementUserViolationCount_run w s user (g_id guild) 3600 n
                  Hget Hset ltac:(lia) Hn)).
    reflexivity.
Qed.

Lemma handleInviteCreate_allowance_witness :
  let invite := {| invite_guild := Scenario.guildG |} in
  let key := RedisManager.createGuardKey "violations" "G" "U1" None in
  let s := set_redis (fun r => <[key := ("9", Some 3600000)]> r)
             (Scenario.started Scenario.audited) in
  handleInviteCreate invite Scenario.world0 s
  = if maxInviteCreations (limits Scenario.audited) <=? 9
    then Vocabulary.after [FetchAuditLogs "G" InviteCreate; RedisGet key]
           (handleViolation Scenario.guildG "U1" "invite_create_limit_exceeded"
              "Davet olusturuldu (limit asildi)" high None Scenario.world0 s)
    else (Val tt,
          set_redis (fun r => <[key := (JS.toString (9 + 1), Some (now s + 1000 * 3600))]> r) s,
          [FetchAuditLogs "G" InviteCreate; RedisGet key; RedisGet key;
           RedisSetEx key 3600 (JS.toString (9 + 1))]).
Proof.
  intros invite key s.
  apply (handleInviteCreate_allowance invite Scenario.world0 s Scenario.audited
           (Scenario.entryBy "U1") [] 9); try reflexivity.
  split; [lia | left; reflexivity].
Defined.

(** ** The lock of a channel deletion *)

Lemma fold_timers_restoration_subseteq (l : list (Z * TimerAction)) (s : State) :
  restorationInProgress (fold_left (fun s p => run_timer (snd p) s) l s)
  ⊆ restorationInProgress s.
Proof.
  revert s. induction l as [|[d a] l IH]; intros s; cbn [fold_left]; [reflexivity|].
  etrans; [apply IH|]. destruct a as [k|k]; cbn; [reflexivity|].
  intros x Hx. apply elem_of_difference in Hx. tauto.
Qed.

Lemma fold_timers_releases (l : list (Z * TimerAction)) (s : State) (d : Z) (key : string) :
  In (d, DeleteRestoration key) l ->
  key ∉ restorationInProgress (fold_left (fun s p => run_timer (snd p) s) l s).
Proof.
  revert s. induction l as [|p l IH]; intros s; [intros []|].
  intros [->|Hin]; cbn [fold_left].
  - intros H. apply fold_timers_restoration_subseteq in H. cbn in H.
    apply elem_of_difference in H. destruct H as [_ H]. apply H. now apply elem_of_singleton.
  - now apply IH.
Qed.

Lemma pending_timer_releases (s : State) (d T : Z) (key : string) :
  In (d, DeleteRestoration key) (timers s) ->
  d <= T ->
  key ∉ restorationInProgress (advance T s).
Proof.
  intros Hin Hd.
  change (restorationInProgress (advance T s))
    with (restorationInProgress
            (fold_left (fun s p => run_timer (snd p) s)
               (List.filter (fun p => Z.leb (fst p) T) (timers s)) s)).
  apply (fold_timers_releases _ _ d). apply List.filter_In. split; [exact Hin|].
  cbn. now apply Z.leb_le.
Qed.

Lemma same_now_mark (key : string) (s : State) :
  Vocabulary.same_now s (set_selfActions (fun x => {[key]} ∪ x) s).
Proof. reflexivity. Qed.

Lemma same_now_arm (entry : State -> Z * TimerAction) (s : State) :
  Vocabulary.same_now s (set_timers (fun l => l ++ [entry s]) s).
Proof. reflexivity. Qed.

Section ChannelDeleteLock.

Import Vocabulary.

Local Hint Extern 1 True => exact I : keeps.
Local Hint Extern 1 (same_now _ _) => reflexivity : keeps.

Lemma channelDelete_body_same_now (channel : Channel) (w0 : World) (s0 : State) :
  let guild := channel_guild channel in
  let restorationKey := key3 (g_id guild) (channel_id channel) "restoration" in
  let release := modify (set_restorationInProgress (fun x => x ∖ {[restorationKey]})) in
  keeps same_now (fun _ => True)
    (try_catch
       (auditLog ← getAuditLog guild ChannelDelete ;
        match auditLog with
        | None => release
        | Some auditLog =>
            if isBotAction w0 (executorOf auditLog) then release
            else if isWhitelisted w0 s0 (executorOf auditLog) (g_id guild) then release
            else if otherTarget auditLog (channel_id channel) then release
            else
              let changeKey := key3 (g_id guild) (channel_id channel) "delete" in
              modify (fun s => match recentRoleChanges s with
                               | Some _ => s
                               | None => set_recentRoleChanges (Some ∅) s
                               end) ;;
              s' ← get ;
              if recentlyChanged s' changeKey then release
              else
                recordChange changeKey (executorOf auditLog) ;;
                restoreDeletedChannel guild None (Some (channel_id channel)) ;;
                handleViolation guild (executorOrUnknown auditLog)
                  "channel_delete_blocked"
                  ("Kanal " +:+ quoted (channel_name channel)
                   +:+ " silindi ve otomatik olarak geri yuklendi")
                  high (Some (channel_id channel))
        end)
       (fun _ => ret tt)).
Proof.
  intros guild restorationKey release.
  pose proof (getAuditLog_frame same_now (fun _ => True) (fun _ _ => I)).
  pose proof (restoreDeletedChannel_frame same_now same_now_mark same_now_arm
                (fun _ => True) (fun _ _ => I)).
  assert (forall guild userId violationType description severity target,
            keeps same_now (fun _ => True)
              (handleViolation guild userId violationType description severity target))
    by (intros; apply (handleViolation_frame same_now same_now_mark same_now_arm);
        intros; exact I).
  subst release. unfold recordChange. keeps_auto.
  destruct (recentRoleChanges _); reflexivity.
Qed.

(** X29.  Once [handleChannelDelete] has taken the lock of a channel, the
    lock is gone five seconds later at the latest, on every path: whether the
    event is dropped, remediated, or the remediation throws, the timer that
    releases the lock is armed before the handler ends. *)
Theorem handleChannelDelete_lock_is_released
    (channel : Channel) (w : World) (s : State) (T : Z) :
  let guild := channel_guild channel in
  let restorationKey := key3 (g_id guild) (channel_id channel) "restoration" in
  isSelfAction s (g_id guild) (channel_id channel) = false ->
  restorationKey ∉ restorationInProgress s ->
  now s + 5000 <= T ->
  match handleChannelDelete channel w s with
  | (r, s', _) =>
      r = Val tt
      /\ In (now s + 5000, DeleteRestoration restorationKey) (timers s')
      /\ restorationKey ∉ restorationInProgress (advance T s')
  end.
Proof.
  intros guild restorationKey Hself Hfree HT.
  unfold handleChannelDelete. fold guild. fold restorationKey.
  rewrite bind_get, bind_ask, Hself.
  rewrite (bool_decide_eq_false_2 _ Hfree).
  set (s1 := set_restorationInProgress (fun x => {[restorationKey]} ∪ x) s).
  rewrite (bind_run (modify (set_restorationInProgress (fun x => {[restorationKey]} ∪ x)))
             _ w s s1 tt [] eq_refl), after_nil.
  pose proof (channelDelete_body_same_now channel w s w s1) as Hk.
  cbv zeta in Hk. fold guild in Hk. fold restorationKey in Hk.
  unfold try_finally.
  match type of Hk with
  | match try_catch ?m ?h w s1 with _ => _ end =>
      destruct (returns_try_catch m h (fun e => returns_ret tt) w s1)
        as ([] & s2 & tr & Hrun)
  end.
  rewrite Hrun in Hk |- *. destruct Hk as [Hnow _].
  set (s3 := set_timers
               (fun l => l ++ [(now s2 + 5000, DeleteRestoration restorationKey)]) s2).
  change (Val tt = Val tt
          /\ In (now s + 5000, DeleteRestoration restorationKey) (timers s3)
          /\ restorationKey ∉ restorationInProgress (advance T s3)).
  split; [reflexivity|].
  assert (Hin : In (now s + 5000, DeleteRestoration restorationKey) (timers s3)).
  { unfold s3. cbn [timers set_timers]. apply in_or_app. right. left.
    unfold same_now in Hnow. rewrite Hnow. reflexivity. }
  split; [exact Hin|].
  apply (pending_timer_releases _ (now s + 5000)); [exact Hin | exact HT].
Qed.

End ChannelDeleteLock.

Lemma handleChannelDelete_lock_is_released_witness :
  match handleChannelDelete (Scenario.channel Scenario.guildG "C" "general")
          Scenario.world_channel_in_S3 (Scenario.started Scenario.audited) with
  | (r, s', _) =>
      r = Val tt
      /\ In (now (Scenario.started Scenario.audited) + 5000,
             DeleteRestoration (key3 "G" "C" "restoration")) (timers s')
      /\ key3 "G" "C" "restoration" ∉ restorationInProgress (advance 5000 s')
  end.
Proof.
  apply (handleChannelDelete_lock_is_released (Scenario.channel Scenario.guildG "C" "general")
           Scenario.world_channel_in_S3 (Scenario.started Scenario.audited) 5000).
  - reflexivity.
  - vm_compute. intros H. discriminate H.
  - cbn. lia.
Defined.

(** ** The severities the handlers give *)

#[global] Instance any_state_preorder : PreOrder Vocabulary.any_state.
Proof. split; [intros s | intros s1 s2 s3 _ _]; exact I. Qed.

Lemma not_critical_nolog (e : Effect) : Trace.is_log e = false -> Vocabulary.not_critical e.
Proof. destruct e; try discriminate; intros _; exact I. Qed.

Lemma logged_not_critical (tr : list Effect) :
  Forall Vocabulary.not_critical tr ->
  Forall (fun v => v_severity v <> critical) (Trace.logged_violations tr).
Proof.
  intros H. induction H as [|e tr He _ IH]; [constructor|].
  destruct e; cbn; try exact IH. constructor; [exact He | exact IH].
Qed.

Section Severities.

Import Vocabulary.

Local Abbreviation keeps' := (keeps any_state not_critical).

Local Hint Extern 1 (any_state _ _) => exact I : keeps.
Local Hint Extern 1 (not_critical _) => exact I : keeps.

Lemma handleViolation_not_critical (guild : Guild)
    (userId violationType description : string) (severity : Severity)
    (target : option string) :
  severity <> critical ->
  keeps' (handleViolation guild userId violationType description severity target).
Proof.
  intros Hs.
  apply (handleViolation_frame any_state (fun _ _ => I) (fun _ _ => I)
           not_critical not_critical_nolog).
  intros v Hv. cbn. congruence.
Qed.

Local Hint Extern 1 (keeps _ _ (handleViolation _ _ _ _ medium _)) =>
  (apply handleViolation_not_critical; discriminate) : keeps.
Local Hint Extern 1 (keeps _ _ (handleViolation _ _ _ _ high _)) =>
  (apply handleViolation_not_critical; discriminate) : keeps.

Lemma checkWhitelist_not_critical (guildId executorId action : string) :
  keeps' (checkWhitelist guildId executorId action).
Proof.
  intros w s. pose proof (checkWhitelist_keeps guildId executorId action w s) as H.
  destruct (checkWhitelist guildId executorId action w s) as [[r s'] tr].
  destruct H as [_ H]. split; [exact I|].
  eapply List.Forall_impl; [|exact H]. intros e [].
Qed.

Lemma handleGenericEvent_not_critical (guild : Guild) (target eventType : string)
    (auditEvent : AuditLogEvent) (action : M unit) :
  keeps' action -> keeps' (handleGenericEvent guild target eventType auditEvent action).
Proof.
  apply (handleGenericEvent_frame any_state not_critical not_critical_nolog).
Qed.

Lemma dispatch_not_critical (ev : GatewayEvent) :
  deletes_server ev = false -> keeps' (dispatch ev).
Proof.
  intros Hev.
  pose proof (getAuditLog_frame any_state not_critical not_critical_nolog).
  pose proof checkWhitelist_not_critical.
  pose proof (restoreRoleFromBackup_frame any_state (fun _ _ => I) (fun _ _ => I)
                not_critical not_critical_nolog).
  pose proof (restoreChannelFromBackup_frame any_state (fun _ _ => I) (fun _ _ => I)
                not_critical not_critical_nolog).
  pose proof (restoreDeletedChannel_frame any_state (fun _ _ => I) (fun _ _ => I)
                not_critical not_critical_nolog).
  pose proof (restoreDeletedEmoji_frame any_state (fun _ _ => I) (fun _ _ => I)
                not_critical not_critical_nolog).
  pose proof (restoreDeletedSticker_frame any_state (fun _ _ => I) (fun _ _ => I)
                not_critical not_critical_nolog).
  pose proof (restoreEmojiFromBackup_frame any_state (fun _ _ => I) (fun _ _ => I)
                not_critical not_critical_nolog).
  pose proof (restoreStickerFromBackup_frame any_state (fun _ _ => I) (fun _ _ => I)
                not_critical not_critical_nolog).
  pose proof (restoreGuildSettings_frame any_state (fun _ _ => I) (fun _ _ => I)
                not_critical not_critical_nolog).
  pose proof (sendRestoreNotification_frame any_state not_critical not_critical_nolog).
  pose proof (markSelfAction_frame any_state (fun _ _ => I) (fun _ _ => I) not_critical).
  pose proof (setTimeout_frame any_state (fun _ _ => I) not_critical).
  unfold dispatch. apply keeps_bind; [typeclasses eauto | apply keeps_get; typeclasses eauto|].
  intros s0.
  destruct ev as [o n|g|c|o c|c|r|o r|r|m|o m|m|e|o e|e|x|o x|x|c|i|i];
    try discriminate Hev; try destruct c; try destruct x; try destruct i;
    try (apply keeps_ret; typeclasses eauto);
    (destruct (String.eqb _ _); cbn [andb];
     [|apply keeps_ret; typeclasses eauto]);
    try (destruct (negb _); cbn [andb]; [|apply keeps_ret; typeclasses eauto]);
    try (destruct (negb _); cbn [andb]; [|apply keeps_ret; typeclasses eauto]).
  all: try (apply handleGenericEvent_not_critical; keeps_auto).
  all: unfold handleGuildUpdate, handleMemberJoin, handleMemberUpdate,
         handleMemberLeave, handleWebhookUpdate, handleInviteDelete, handleInviteCreate,
         handleRoleUpdate, handleRoleDelete, handleChannelUpdate, handleChannelDelete,
         recordChange, distributeRoleToMembersFromData,
         BackupManager.createBackup, getViolationCount, incrementViolationCount,
         RedisManager.getUserViolationCount, RedisManager.incrementUserViolationCount,
         RedisManager.get, RedisManager.set, RedisManager.executeRedisOperation,
         RedisManager.client_get, RedisManager.client_set, RedisManager.client_setEx.
  all: keeps_auto.
Qed.

End Severities.

(** X30.  The deletion of the server is the one event the handlers treat as
    critical: every violation that the listener of any other event records
    has a severity below critical, so that for none of them the list
    [onViolation] of the configuration is the one that is run. *)
Theorem only_guild_delete_is_critical (ev : GatewayEvent) (w : World) (s : State) :
  Vocabulary.deletes_server ev = false ->
  match dispatch ev w s with
  | (_, _, tr) =>
      Forall (fun v => v_severity v <> critical) (Trace.logged_violations tr)
  end.
Proof.
  intros Hev. pose proof (dispatch_not_critical ev Hev w s) as H.
  destruct (dispatch ev w s) as [[r s'] tr]. destruct H as [_ H].
  now apply logged_not_critical.
Qed.

Lemma only_guild_delete_is_critical_witness :
  match dispatch (roleDelete (Scenario.role Scenario.guildG "R" "mods" 0))
          Scenario.world0 (Scenario.started Scenario.audited) with
  | (_, _, tr) =>
      Forall (fun v => v_severity v <> critical) (Trace.logged_violations tr)
  end.
Proof.
  apply (only_guild_delete_is_critical
           (roleDelete (Scenario.role Scenario.guildG "R" "mods" 0))).
  reflexivity.
Defined.
